(** * LoRa mesh planner: RF propagation, terrain clearance and coverage sampling

    A shallow embedding of the RF core of the planner:

    - [RFUtils] and [LinkBudgetCalculator]  (src/js/rf/rf-utils.js and the
      link-budget class that follows it),
    - [ElevationService] and [ElevationProfiles] (the browser elevation
      service: path points, profiles, batches and the cache),
    - [RFCalculator]                        (the serverless api/rf-utils.js),
    - [Coverage] and [CoverageEnhanced]     (the two variants of api/coverage.js),
    - [ElevationApi] and [LinkBudgetApi]    (api/elevation.js, api/linkbudget.js),
    - [MapUI] and [MapEstimates]            (the estimates of the map layer).

    ** Numbers

    A JavaScript number is modelled by [num]: a real number, [+Infinity],
    [-Infinity] or [NaN].  The special values follow IEEE 754 as JavaScript
    exposes it (division by zero, [Math.sqrt] and [Math.log10] of a negative
    number, [NaN] poisoning every comparison, [Math.min]/[Math.max]
    propagating [NaN]).  On finite values the arithmetic is exact: rounding and
    overflow of binary64 are not modelled, and the two zeros are identified.
    Where a property of the exact result would not survive rounding (an
    exact round trip, a strict bound that the rounded value reaches, an
    exact symmetry), the statement is made on a bounded range and with a
    tolerance or a margin that leaves room for the rounding.

    ** Objects

    A table of factors is an object literal; [lookupOr] reads it the way
    [table[key] || d] does, names inherited from [Object.prototype]
    included.

    ** Early errors

    A script is evaluated before any of its functions is called.  The two
    coverage files declare [const maxRange] in the body of a function that
    has a parameter [maxRange]; [earlyErrors] finds such a redeclaration and
    [load] reports the SyntaxError that evaluating the file raises.  The
    bodies of the generators are embedded as they are written
    ([generateCoveragePolygon_body]); a call goes through [load] first.

    ** The outside world

    The elevation service, the clock and the failure of a batch of promises
    are parameters of the coverage generators ([world], [now],
    [batchRejects]).  Logging and the pauses between batches are left out. *)

From Stdlib Require Import Reals Lra Lia List String Bool Arith Sorted.
Import ListNotations.

Open Scope R_scope.

(** ** JavaScript numbers *)

Inductive num : Type :=
| Fin (r : R)
| PInf
| NInf
| NaN.

Declare Scope num_scope.
Delimit Scope num_scope with num.
Bind Scope num_scope with num.

Definition Rltb (a b : R) : bool := if Rlt_dec a b then true else false.
Definition Rleb (a b : R) : bool := if Rle_dec a b then true else false.
Definition Reqb (a b : R) : bool := if Req_dec_T a b then true else false.

Definition nopp (x : num) : num :=
  match x with
  | Fin a => Fin (- a)
  | PInf => NInf
  | NInf => PInf
  | NaN => NaN
  end.

Definition nadd (x y : num) : num :=
  match x, y with
  | NaN, _ | _, NaN => NaN
  | Fin a, Fin b => Fin (a + b)
  | PInf, NInf | NInf, PInf => NaN
  | PInf, _ | _, PInf => PInf
  | NInf, _ | _, NInf => NInf
  end.

Definition nsub (x y : num) : num :=
  match x, y with
  | NaN, _ | _, NaN => NaN
  | Fin a, Fin b => Fin (a - b)
  | PInf, PInf | NInf, NInf => NaN
  | PInf, _ | _, NInf => PInf
  | NInf, _ | _, PInf => NInf
  end.

(** The infinity of the sign of [a], or [NaN] for [a = 0] (as in [0 * Infinity]). *)
Definition inf_of_sign (a : R) : num :=
  if Reqb a 0 then NaN else if Rltb 0 a then PInf else NInf.

Definition nmul (x y : num) : num :=
  match x, y with
  | NaN, _ | _, NaN => NaN
  | Fin a, Fin b => Fin (a * b)
  | Fin a, PInf | PInf, Fin a => inf_of_sign a
  | Fin a, NInf | NInf, Fin a => inf_of_sign (- a)
  | PInf, PInf | NInf, NInf => PInf
  | PInf, NInf | NInf, PInf => NInf
  end.

Definition ndiv (x y : num) : num :=
  match x, y with
  | NaN, _ | _, NaN => NaN
  | Fin a, Fin b => if Reqb b 0 then inf_of_sign a else Fin (a / b)
  | Fin _, PInf | Fin _, NInf => Fin 0
  | PInf, Fin b => if Rltb b 0 then NInf else PInf
  | NInf, Fin b => if Rltb b 0 then PInf else NInf
  | PInf, PInf | PInf, NInf | NInf, PInf | NInf, NInf => NaN
  end.

(** [x < y] and [x <= y] of JavaScript: false as soon as one side is [NaN]. *)
Definition nlt (x y : num) : bool :=
  match x, y with
  | NaN, _ | _, NaN => false
  | Fin a, Fin b => Rltb a b
  | NInf, NInf => false
  | NInf, _ => true
  | _, NInf => false
  | PInf, _ => false
  | Fin _, PInf => true
  end.

Definition nle (x y : num) : bool :=
  match x, y with
  | NaN, _ | _, NaN => false
  | Fin a, Fin b => Rleb a b
  | NInf, _ => true
  | _, PInf => true
  | PInf, _ => false
  | Fin _, NInf => false
  end.

(** [x === y] on numbers. *)
Definition neqb (x y : num) : bool :=
  match x, y with
  | Fin a, Fin b => Reqb a b
  | PInf, PInf | NInf, NInf => true
  | _, _ => false
  end.

(** Truthiness of a number, as [||] and [if] test it: [0] and [NaN] are falsy. *)
Definition truthy (x : num) : bool :=
  match x with
  | Fin a => negb (Reqb a 0)
  | NaN => false
  | PInf | NInf => true
  end.

Definition isNaN (x : num) : bool :=
  match x with
  | NaN => true
  | _ => false
  end.

(** [x || d] on numbers. *)
Definition nor_default (x d : num) : num := if truthy x then x else d.

Infix "+" := nadd : num_scope.
Infix "-" := nsub : num_scope.
Infix "*" := nmul : num_scope.
Infix "/" := ndiv : num_scope.
Notation "- x" := (nopp x) : num_scope.
Notation "x <? y" := (nlt x y) (at level 70, no associativity) : num_scope.
Notation "x <=? y" := (nle x y) (at level 70, no associativity) : num_scope.
Notation "x >? y" := (nlt y x) (at level 70, no associativity) : num_scope.
Notation "x >=? y" := (nle y x) (at level 70, no associativity) : num_scope.
Notation "x =? y" := (neqb x y) (at level 70, no associativity) : num_scope.

(** ** The [Math] object *)

Definition Math_PI : num := Fin PI.

Definition Math_abs (x : num) : num :=
  match x with
  | Fin a => Fin (Rabs a)
  | PInf | NInf => PInf
  | NaN => NaN
  end.

Definition Math_min (x y : num) : num :=
  match x, y with
  | NaN, _ | _, NaN => NaN
  | _, _ => if nlt y x then y else x
  end.

Definition Math_max (x y : num) : num :=
  match x, y with
  | NaN, _ | _, NaN => NaN
  | _, _ => if nlt x y then y else x
  end.

(** [Math.max(...xs)]: [-Infinity] on the empty list. *)
Definition Math_max_list (xs : list num) : num := fold_left Math_max xs NInf.

(** [Math.min(...xs)]: [Infinity] on the empty list. *)
Definition Math_min_list (xs : list num) : num := fold_left Math_min xs PInf.

Definition Math_sqrt (x : num) : num :=
  match x with
  | Fin a => if Rltb a 0 then NaN else Fin (sqrt a)
  | PInf => PInf
  | NInf | NaN => NaN
  end.

Definition Math_log10 (x : num) : num :=
  match x with
  | Fin a =>
      if Rltb a 0 then NaN
      else if Reqb a 0 then NInf
      else Fin (ln a / ln 10)
  | PInf => PInf
  | NInf | NaN => NaN
  end.

Definition Math_exp (x : num) : num :=
  match x with
  | Fin a => Fin (exp a)
  | PInf => PInf
  | NInf => Fin 0
  | NaN => NaN
  end.

(** [Math.pow(10, x)]: the only base the sources use. *)
Definition Math_pow10 (x : num) : num :=
  match x with
  | Fin a => Fin (Rpower 10 a)
  | PInf => PInf
  | NInf => Fin 0
  | NaN => NaN
  end.

Definition Math_sin (x : num) : num :=
  match x with
  | Fin a => Fin (sin a)
  | _ => NaN
  end.

Definition Math_cos (x : num) : num :=
  match x with
  | Fin a => Fin (cos a)
  | _ => NaN
  end.

Definition Math_asin (x : num) : num :=
  match x with
  | Fin a => if Rltb a (-1) || Rltb 1 a then NaN else Fin (asin a)
  | _ => NaN
  end.

(** [Math.atan2(y, x)], the angle of the point [(x, y)] in (-PI, PI]. *)
Definition Math_atan2 (y x : num) : num :=
  match y, x with
  | NaN, _ | _, NaN => NaN
  | Fin b, Fin a =>
      if Rltb 0 a then Fin (atan (b / a))
      else if Rltb a 0 then
        (if Rltb b 0 then Fin (atan (b / a) - PI) else Fin (atan (b / a) + PI))
      else if Rltb 0 b then Fin (PI / 2)
      else if Rltb b 0 then Fin (- (PI / 2))
      else Fin 0
  | Fin b, PInf => Fin 0
  | Fin b, NInf => if Rltb b 0 then Fin (- PI) else Fin PI
  | PInf, Fin _ => Fin (PI / 2)
  | NInf, Fin _ => Fin (- (PI / 2))
  | PInf, PInf => Fin (PI / 4)
  | PInf, NInf => Fin (3 * PI / 4)
  | NInf, PInf => Fin (- (PI / 4))
  | NInf, NInf => Fin (- (3 * PI / 4))
  end.

(** ** Outcome of a call: a returned value or a thrown error *)

Inductive js_error : Type :=
| DomainError (msg : string)
| TypeError (msg : string)
| SyntaxError (msg : string)
| OtherError (msg : string).

Inductive completion (A : Type) : Type :=
| Return (a : A)
| Throw (e : js_error).

Arguments Return {A} a.
Arguments Throw {A} e.

(** Sequencing of two calls: an error of the first is the error of both. *)
Definition andThen {A B : Type} (m : completion A) (k : A -> completion B)
    : completion B :=
  match m with
  | Return a => k a
  | Throw e => Throw e
  end.

(** ** Terrain samples *)

Record sample : Type := mkSample {
  distance : num;
  elevation : num;
  lat : num;
  lng : num
}.

Definition undefined_sample : sample := mkSample NaN NaN NaN NaN.

(** ** Geographic points *)

Record geo : Type := mkGeo {
  g_lat : num;
  g_lng : num
}.

(** [o[key]] on an object literal [o], listed as its key-value pairs. *)
Fixpoint lookup {A : Type} (key : string) (o : list (string * A)) : option A :=
  match o with
  | [] => None
  | (k, v) :: rest => if String.eqb k key then Some v else lookup key rest
  end.

(** The names an object literal inherits from [Object.prototype].  Each holds
    a function ([__proto__]: the prototype object itself): a truthy value
    that is [NaN] once it is used as a number. *)
Definition inheritedNames : list string :=
  [ "constructor"; "__proto__"; "hasOwnProperty"; "isPrototypeOf";
    "propertyIsEnumerable"; "toLocaleString"; "toString"; "valueOf";
    "__defineGetter__"; "__defineSetter__"; "__lookupGetter__";
    "__lookupSetter__" ]%string.

Definition inherited (key : string) : bool :=
  existsb (String.eqb key) inheritedNames.

(** [o[key] || d] on a literal [o] of numbers, as the number it is used as:
    an own key gives its value (or [d] when that is falsy), an inherited
    name gives [NaN], any other key gives [d]. *)
Definition lookupOr (key : string) (o : list (string * num)) (d : num) : num :=
  match lookup key o with
  | Some f => nor_default f d
  | None => if inherited key then NaN else d
  end.

(** ** Early errors

    A function declaration with its formal parameters and the names its body
    declares with [const] or [let] at its top level.  A script in which a
    parameter is declared again in this way is not run at all: evaluating it
    raises a SyntaxError before its first statement. *)
Record functionDeclaration : Type := mkFunctionDeclaration {
  fd_name : string;
  boundNames : list string;
  lexicallyDeclaredNames : list string
}.

Definition redeclared (f : functionDeclaration) : list string :=
  filter (fun name => existsb (String.eqb name) (boundNames f))
    (lexicallyDeclaredNames f).

Definition earlyErrors (fs : list functionDeclaration) : completion unit :=
  match flat_map redeclared fs with
  | [] => Return tt
  | name :: _ =>
      Throw (SyntaxError
               ("Identifier '" ++ name ++ "' has already been declared"))
  end.

(** The samples a loop [for (i = 1; i < p.length - 1; i++)] visits. *)
Definition interior {A : Type} (p : list A) : list A := removelast (tl p).

Open Scope num_scope.

(** ** RFUtils (src/js/rf/rf-utils.js) *)

Module RFUtils.

Definition frequency : num := Fin 915e6.
Definition wavelength : num := Fin 299792458 / frequency.
Definition earthRadius : num := Fin 6371000.

(** [calculateFresnelZoneRadius(d1, d2, n = 1)]; callers that omit [n]
    pass [Fin 1]. *)
Definition calculateFresnelZoneRadius (d1 d2 n : num) : num :=
  let d1m := d1 * Fin 1000 in
  let d2m := d2 * Fin 1000 in
  let radius := Math_sqrt (n * wavelength * d1m * d2m / (d1m + d2m)) in
  radius.

(** [calculateEarthCurvature(distance, fraction = 0.5)]. *)
Definition calculateEarthCurvature (distance fraction : num) : num :=
  let distanceMeters := distance * Fin 1000 in
  let d1 := distanceMeters * fraction in
  let d2 := distanceMeters * (Fin 1 - fraction) in
  let curvature := (d1 * d2) / (Fin 2 * earthRadius) in
  curvature.

(** [calculateFSPL(distance, frequency = this.frequency)].  The body has no
    [throw]: every call completes with [Return]. *)
Definition calculateFSPL (distance frequency : num) : completion num :=
  let distanceKm := distance in
  let frequencyMHz := frequency / Fin 1e6 in
  let fspl :=
    Fin 20 * Math_log10 distanceKm + Fin 20 * Math_log10 frequencyMHz
    + Fin 32.44 in
  Return fspl.

(** The Fresnel parameter [v] of [calculateKnifeEdgeLoss]. *)
Definition fresnelParameter (h d1 d2 : num) : num :=
  let d1m := d1 * Fin 1000 in
  let d2m := d2 * Fin 1000 in
  h * Math_sqrt (Fin 2 * (d1m + d2m) / (wavelength * d1m * d2m)).

(** The radicand of the [v > 2.4] branch. *)
Definition radicand (v : num) : num :=
  Fin 0.1184 - (Fin 0.38 - Fin 0.1 * v) * (Fin 0.38 - Fin 0.1 * v).

Definition calculateKnifeEdgeLoss (h d1 d2 : num) : num :=
  let v := fresnelParameter h d1 d2 in
  let diffractionLoss :=
    if v <=? Fin (-2.4) then Fin 0
    else if v <=? Fin 0 then Fin 20 * Math_log10 (Fin 0.5 - Fin 0.62 * v)
    else if v <=? Fin 2.4 then
      Fin 20 * Math_log10 (Fin 0.5 * Math_exp (Fin (-0.95) * v))
    else Fin 20 * Math_log10 (Fin 0.4 - Math_sqrt (radicand v)) in
  Math_max (Fin 0) diffractionLoss.

Definition getRequiredFresnelClearance (distance : num) : num :=
  if distance <? Fin 5 then Fin 0.6
  else if distance <? Fin 15 then Fin 0.7
  else Fin 0.8.

Record obstruction : Type := mkObstruction {
  ob_distance : num;
  ob_elevation : num;
  ob_requiredHeight : num;
  ob_obstruction : num;
  ob_fresnelRadius : num
}.

Record clearance : Type := mkClearance {
  hasAdequateClearance : bool;
  minClearance : num;
  obstructions : list obstruction;
  requiredClearancePercent : num;
  error : option string
}.

(** [terrainHeight - requiredHeight] at an interior sample, with the Fresnel
    radius there: the values the loop body computes before it tests them. *)
Definition requiredHeightAt (txElevation rxElevation totalDistance pct : num)
    (point : sample) : num * num :=
  let d1 := distance point in
  let d2 := totalDistance - distance point in
  let losHeight :=
    txElevation + (rxElevation - txElevation) * (d1 / totalDistance) in
  let earthCurvature :=
    calculateEarthCurvature totalDistance (d1 / totalDistance) in
  let adjustedLosHeight := losHeight + earthCurvature in
  let fresnelRadius := calculateFresnelZoneRadius d1 d2 (Fin 1) in
  let requiredHeight := adjustedLosHeight + fresnelRadius * pct in
  (requiredHeight, fresnelRadius).

Definition clearanceAt (txElevation rxElevation totalDistance pct : num)
    (point : sample) : num :=
  elevation point
  - fst (requiredHeightAt txElevation rxElevation totalDistance pct point).

(** One iteration of the loop of [analyzeFresnelClearance]. *)
Definition clearanceStep (txElevation rxElevation totalDistance : num)
    (results : clearance) (point : sample) : clearance :=
  let d1 := distance point in
  let '(requiredHeight, fresnelRadius) :=
    requiredHeightAt txElevation rxElevation totalDistance
      (requiredClearancePercent results) point in
  let terrainHeight := elevation point in
  let clearance := terrainHeight - requiredHeight in
  let results :=
    if clearance >? Fin 0 then
      {| hasAdequateClearance := false;
         minClearance := minClearance results;
         obstructions :=
           obstructions results
           ++ [ {| ob_distance := d1;
                   ob_elevation := terrainHeight;
                   ob_requiredHeight := requiredHeight;
                   ob_obstruction := clearance;
                   ob_fresnelRadius := fresnelRadius |} ];
         requiredClearancePercent := requiredClearancePercent results;
         error := error results |}
    else results in
  {| hasAdequateClearance := hasAdequateClearance results;
     minClearance := Math_min (minClearance results) (Math_abs clearance);
     obstructions := obstructions results;
     requiredClearancePercent := requiredClearancePercent results;
     error := error results |}.

(** [pathProfile] is [None] for a missing ([null]/[undefined]) profile. *)
Definition analyzeFresnelClearance (pathProfile : option (list sample))
    (txHeight rxHeight totalDistance : num) : clearance :=
  let results :=
    {| hasAdequateClearance := true;
       minClearance := PInf;
       obstructions := [];
       requiredClearancePercent := getRequiredFresnelClearance totalDistance;
       error := None |} in
  let invalid :=
    {| hasAdequateClearance := false;
       minClearance := minClearance results;
       obstructions := obstructions results;
       requiredClearancePercent := requiredClearancePercent results;
       error := Some "Invalid path profile"%string |} in
  match pathProfile with
  | None => invalid
  | Some pathProfile =>
      if (List.length pathProfile <? 2)%nat then invalid
      else
        let txElevation :=
          elevation (nth 0 pathProfile undefined_sample) + txHeight in
        let rxElevation :=
          elevation (last pathProfile undefined_sample) + rxHeight in
        fold_left (clearanceStep txElevation rxElevation totalDistance)
          (interior pathProfile) results
  end.

(** [loraParams.sensitivity]: receiver sensitivity in dBm by spreading
    factor. *)
Definition sensitivity : list (string * num) :=
  [ ("SF7", Fin (-123)); ("SF8", Fin (-126)); ("SF9", Fin (-129));
    ("SF10", Fin (-132)); ("SF11", Fin (-135)); ("SF12", Fin (-137)) ]%string.

Definition environmentFactors : list (string * num) :=
  [ ("rural", Fin 1.0); ("suburban", Fin 0.8); ("urban", Fin 0.6) ]%string.

(** [getOptimalSpreadingFactor(distance, environment = 'suburban')]. *)
Definition getOptimalSpreadingFactor (distance : num) (environment : string)
    : string :=
  let factor := lookupOr environment environmentFactors (Fin 0.8) in
  let effectiveDistance := distance / factor in
  if effectiveDistance <=? Fin 2 then "SF7"%string
  else if effectiveDistance <=? Fin 5 then "SF8"%string
  else if effectiveDistance <=? Fin 10 then "SF9"%string
  else if effectiveDistance <=? Fin 15 then "SF10"%string
  else if effectiveDistance <=? Fin 25 then "SF11"%string
  else "SF12"%string.

Definition wattsToDbm (watts : num) : num :=
  Fin 10 * Math_log10 (watts * Fin 1000).

Definition dbmToWatts (dbm : num) : num :=
  Math_pow10 ((dbm - Fin 30) / Fin 10).

End RFUtils.

(** ** LinkBudgetCalculator (the link-budget class of the browser code) *)

Module LinkBudgetCalculator.

Definition calculateReliability (linkMargin : num) : num :=
  if linkMargin <? Fin (-10) then Fin 0
  else if linkMargin <? Fin 0 then Fin 50 + (linkMargin + Fin 10) * Fin 5
  else if linkMargin <? Fin 20 then Fin 90 + linkMargin * Fin 0.5
  else Fin 99.9.

(** The system parameters ([defaultParams] overridden by the options). *)
Record params : Type := mkParams {
  txAntennaGain : num;
  rxAntennaGain : num;
  txAntennaHeight : num;
  rxAntennaHeight : num;
  txCableLoss : num;
  rxCableLoss : num;
  connectorLoss : num;
  fadeMargin : num;
  bodyLoss : num;
  foliageLoss : num;
  polarizationLoss : num;
  miscLoss : num;
  spreadingFactor : string
}.

Definition defaultParams : params :=
  {| txAntennaGain := Fin 3;
     rxAntennaGain := Fin 3;
     txAntennaHeight := Fin 10;
     rxAntennaHeight := Fin 10;
     txCableLoss := Fin 1.5;
     rxCableLoss := Fin 1.5;
     connectorLoss := Fin 0.5;
     fadeMargin := Fin 15;
     bodyLoss := Fin 0;
     foliageLoss := Fin 0;
     polarizationLoss := Fin 0;
     miscLoss := Fin 1;
     spreadingFactor := "SF7" |}.

Record elevationStats : Type := mkElevationStats {
  ev_min : num;
  ev_max : num;
  average : num;
  variation : num;
  roughness : num
}.

(** The result of [analyzeTerrainPath]. *)
Record terrainAnalysis : Type := mkTerrainAnalysis {
  hasObstructions : bool;
  obstructions : list RFUtils.obstruction;
  fresnelClearance : num;
  minClearance : num;
  lineOfSight : bool;
  elevationVariation : elevationStats;
  profile : list sample
}.

(** The numeric fields of a path-loss result (the formatted [breakdown] is
    left out). *)
Record pathLoss : Type := mkPathLoss {
  freeSpace : num;
  diffraction : num;
  terrain : num;
  foliage : num;
  total : num
}.

(** [obstructions.reduce((worst, current) => current.obstruction >
    worst.obstruction ? current : worst)]: with no initial value, [reduce]
    throws a TypeError on an empty array. *)
Definition worstOf (obstructions : list RFUtils.obstruction)
    : completion RFUtils.obstruction :=
  match obstructions with
  | [] => Throw (TypeError "Reduce of empty array with no initial value")
  | first :: rest =>
      Return
        (fold_left
           (fun worst current =>
              if RFUtils.ob_obstruction current >? RFUtils.ob_obstruction worst
              then current else worst)
           rest first)
  end.

Definition calculatePathLoss (distance : num) (terrainAnalysis : terrainAnalysis)
    : completion pathLoss :=
  andThen (RFUtils.calculateFSPL distance RFUtils.frequency) (fun fspl =>
  andThen
    (if hasObstructions terrainAnalysis then
       andThen (worstOf (obstructions terrainAnalysis)) (fun worstObstruction =>
         let d1 := RFUtils.ob_distance worstObstruction in
         let d2 := distance - d1 in
         let diffractionLoss :=
           RFUtils.calculateKnifeEdgeLoss
             (RFUtils.ob_obstruction worstObstruction) d1 d2 in
         let terrainLoss :=
           if (1 <? List.length (obstructions terrainAnalysis))%nat then
             Math_min (Fin 10)
               (Fin (INR (List.length (obstructions terrainAnalysis))) * Fin 2)
           else Fin 0 in
         Return (terrainLoss, diffractionLoss))
     else Return (Fin 0, Fin 0))
    (fun losses =>
       let '(terrainLoss, diffractionLoss) := losses in
       let foliageLoss :=
         if distance <? Fin 1 then Fin 0
         else if distance <? Fin 5 then Fin 3
         else Fin 6 in
       let totalPathLoss := fspl + diffractionLoss + terrainLoss + foliageLoss in
       Return {| freeSpace := fspl;
                 diffraction := diffractionLoss;
                 terrain := terrainLoss;
                 foliage := foliageLoss;
                 total := totalPathLoss |})).

Definition calculateBasicPathLoss (distance : num) : completion pathLoss :=
  andThen (RFUtils.calculateFSPL distance RFUtils.frequency) (fun fspl =>
  let environmentalMargin := if distance >? Fin 10 then Fin 10 else Fin 5 in
  let total := fspl + environmentalMargin in
  Return {| freeSpace := fspl;
            diffraction := Fin 0;
            terrain := Fin 0;
            foliage := environmentalMargin;
            total := total |}).

(** The numeric fields of a link budget (the formatted [summary] is left
    out); the fields that share a name with a parameter carry [lb_]. *)
Record linkParameters : Type := mkLinkParameters {
  txPowerDbm : num;
  txPowerWatts : num;
  lb_txAntennaGain : num;
  eirp : num;
  pathLossDb : num;
  lb_distance : num;
  rxSignalStrength : num;
  lb_rxAntennaGain : num;
  rxSensitivity : option num;   (* [None] is [undefined] *)
  lb_spreadingFactor : string;
  linkMargin : num;
  lb_fadeMargin : num;
  systemLosses : num;
  isViable : bool;
  reliability : num
}.

(** A table entry used as a number: [undefined] becomes [NaN]. *)
Definition toNumber (x : option num) : num :=
  match x with
  | Some v => v
  | None => NaN
  end.

Definition calculateLinkParameters (txPowerWatts : num) (pathLoss : pathLoss)
    (params : params) (distance : num) : linkParameters :=
  let txPowerDbm := RFUtils.wattsToDbm txPowerWatts in
  let eirp :=
    txPowerDbm + txAntennaGain params - txCableLoss params
    - connectorLoss params in
  let rxSignalStrength :=
    eirp - total pathLoss + rxAntennaGain params - rxCableLoss params
    - connectorLoss params in
  let systemLosses :=
    txCableLoss params + rxCableLoss params + (connectorLoss params * Fin 2)
    + miscLoss params + bodyLoss params in
  let optimalSF := RFUtils.getOptimalSpreadingFactor distance "suburban" in
  let rxSensitivity := lookup optimalSF RFUtils.sensitivity in
  let linkMargin :=
    rxSignalStrength - toNumber rxSensitivity - fadeMargin params in
  {| txPowerDbm := txPowerDbm;
     txPowerWatts := txPowerWatts;
     lb_txAntennaGain := txAntennaGain params;
     eirp := eirp;
     pathLossDb := total pathLoss;
     lb_distance := distance;
     rxSignalStrength := rxSignalStrength;
     lb_rxAntennaGain := rxAntennaGain params;
     rxSensitivity := rxSensitivity;
     lb_spreadingFactor := optimalSF;
     linkMargin := linkMargin;
     lb_fadeMargin := fadeMargin params;
     systemLosses := systemLosses;
     isViable := linkMargin >? Fin 0;
     reliability := calculateReliability linkMargin |}.

Definition optimizeSpreadingFactor (linkBudget : linkParameters)
    (params : params) : string :=
  let distance := lb_distance linkBudget in
  let linkMargin := linkMargin linkBudget in
  let optimalSF := RFUtils.getOptimalSpreadingFactor distance "suburban" in
  if linkMargin <? Fin (-10) then "SF12"%string
  else if linkMargin <? Fin (-5) then "SF11"%string
  else if linkMargin <? Fin 0 then "SF10"%string
  else if linkMargin >? Fin 20 then
    (if distance <? Fin 5 then "SF7"%string else "SF8"%string)
  else optimalSF.

Definition assessLinkQuality (linkBudget : linkParameters)
    (terrainAnalysis : terrainAnalysis) : string :=
  let margin := linkMargin linkBudget in
  let hasObstructions := hasObstructions terrainAnalysis in
  if margin <? Fin (-5) then "poor"%string
  else if (margin <? Fin 5) || hasObstructions then "marginal"%string
  else if margin <? Fin 15 then "good"%string
  else "excellent"%string.

(** The loop of [calculateRoughness]: the sum of the absolute steps between
    neighbours, on top of [totalVariation]. *)
Fixpoint sumSteps (elevations : list num) (totalVariation : num) : num :=
  match elevations with
  | previous :: rest =>
      match rest with
      | current :: _ =>
          sumSteps rest (totalVariation + Math_abs (current - previous))
      | [] => totalVariation
      end
  | [] => totalVariation
  end.

Definition calculateRoughness (elevations : list num) : num :=
  let totalVariation := sumSteps elevations (Fin 0) in
  totalVariation / (Fin (INR (List.length elevations)) - Fin 1).

Definition calculateElevationVariation (profile : list sample) : elevationStats :=
  let elevations := map elevation profile in
  let min := Math_min_list elevations in
  let max := Math_max_list elevations in
  let avg :=
    fold_left (fun a b => a + b) elevations (Fin 0)
    / Fin (INR (List.length elevations)) in
  {| ev_min := min;
     ev_max := max;
     average := avg;
     variation := max - min;
     roughness := calculateRoughness elevations |}.

(** The loop of [checkLineOfSight] over the intermediate points: [false] at
    the first point above the curvature-adjusted line of sight. *)
Fixpoint sightLoop (txElevation rxElevation totalDistance : num)
    (points : list sample) : bool :=
  match points with
  | [] => true
  | point :: rest =>
      let fraction := distance point / totalDistance in
      let losHeight := txElevation + (rxElevation - txElevation) * fraction in
      let curvature := RFUtils.calculateEarthCurvature totalDistance fraction in
      let adjustedLosHeight := losHeight + curvature in
      if elevation point >? adjustedLosHeight then false
      else sightLoop txElevation rxElevation totalDistance rest
  end.

Definition checkLineOfSight (profile : list sample) (txHeight rxHeight : num)
    : bool :=
  if (List.length profile <? 3)%nat then true
  else
    let start := nth 0 profile undefined_sample in
    let end_ := last profile undefined_sample in
    let totalDistance := distance end_ in
    let txElevation := elevation start + txHeight in
    let rxElevation := elevation end_ + rxHeight in
    sightLoop txElevation rxElevation totalDistance (interior profile).

Definition analyzeTerrainPath (elevationProfile : list sample)
    (txHeight rxHeight distance : num) : terrainAnalysis :=
  let fresnelAnalysis :=
    RFUtils.analyzeFresnelClearance (Some elevationProfile) txHeight rxHeight
      distance in
  let elevationVariation := calculateElevationVariation elevationProfile in
  let lineOfSightClear := checkLineOfSight elevationProfile txHeight rxHeight in
  {| hasObstructions := negb (RFUtils.hasAdequateClearance fresnelAnalysis);
     obstructions := RFUtils.obstructions fresnelAnalysis;
     fresnelClearance := RFUtils.requiredClearancePercent fresnelAnalysis;
     minClearance := RFUtils.minClearance fresnelAnalysis;
     lineOfSight := lineOfSightClear;
     elevationVariation := elevationVariation;
     profile := elevationProfile |}.

(** Great-circle distance in kilometres. *)
Definition calculateDistance (point1 point2 : geo) : num :=
  let R := Fin 6371 in
  let dLat := (g_lat point2 - g_lat point1) * Math_PI / Fin 180 in
  let dLng := (g_lng point2 - g_lng point1) * Math_PI / Fin 180 in
  let a :=
    Math_sin (dLat / Fin 2) * Math_sin (dLat / Fin 2)
    + Math_cos (g_lat point1 * Math_PI / Fin 180)
      * Math_cos (g_lat point2 * Math_PI / Fin 180)
      * Math_sin (dLng / Fin 2) * Math_sin (dLng / Fin 2) in
  let c := Fin 2 * Math_atan2 (Math_sqrt a) (Math_sqrt (Fin 1 - a)) in
  R * c.

End LinkBudgetCalculator.

(** ** ElevationService.generatePathPoints (browser elevation service) *)

Module ElevationService.

(** The point pushed at index [i] of the loop; [c] is the angular distance
    and [lat1 .. lon2] are the end points in radians. *)
Definition pathPoint (start end_ : geo) (c lat1 lon1 lat2 lon2 : num)
    (samples i : nat) : geo :=
  let fraction := Fin (INR i) / (Fin (INR samples) - Fin 1) in
  if fraction =? Fin 0 then {| g_lat := g_lat start; g_lng := g_lng start |}
  else if fraction =? Fin 1 then {| g_lat := g_lat end_; g_lng := g_lng end_ |}
  else
    let A := Math_sin ((Fin 1 - fraction) * c) / Math_sin c in
    let B := Math_sin (fraction * c) / Math_sin c in
    let x := A * Math_cos lat1 * Math_cos lon1
             + B * Math_cos lat2 * Math_cos lon2 in
    let y := A * Math_cos lat1 * Math_sin lon1
             + B * Math_cos lat2 * Math_sin lon2 in
    let z := A * Math_sin lat1 + B * Math_sin lat2 in
    let lat := Math_atan2 z (Math_sqrt (x * x + y * y)) in
    let lon := Math_atan2 y x in
    {| g_lat := lat * Fin 180 / Math_PI; g_lng := lon * Fin 180 / Math_PI |}.

(** The angular distance [c] between the two end points. *)
Definition angularDistance (lat1 lon1 lat2 lon2 : num) : num :=
  let dLat := lat2 - lat1 in
  let dLon := lon2 - lon1 in
  let a := Math_sin (dLat / Fin 2) * Math_sin (dLat / Fin 2)
           + Math_cos lat1 * Math_cos lat2
             * Math_sin (dLon / Fin 2) * Math_sin (dLon / Fin 2) in
  Fin 2 * Math_atan2 (Math_sqrt a) (Math_sqrt (Fin 1 - a)).

Definition generatePathPoints (start end_ : geo) (samples : nat) : list geo :=
  let lat1 := g_lat start * Math_PI / Fin 180 in
  let lon1 := g_lng start * Math_PI / Fin 180 in
  let lat2 := g_lat end_ * Math_PI / Fin 180 in
  let lon2 := g_lng end_ * Math_PI / Fin 180 in
  let c := angularDistance lat1 lon1 lat2 lon2 in
  map (pathPoint start end_ c lat1 lon1 lat2 lon2 samples) (seq 0 samples).

End ElevationService.

(** ** RFCalculator (the serverless api/rf-utils.js) *)

Module RFCalculator.

Definition frequency : num := Fin 915e6.
Definition c : num := Fin 299792458.
Definition antennaHeight : num := Fin 1.83.
Definition antennaGain : num := Fin 5.
Definition receiverSensitivity : num := Fin (-137).
Definition earthRadius : num := Fin 6371000.

Definition freeSpacePathLoss (distance : num) : num :=
  let wavelength := c / frequency in
  Fin 20 * Math_log10 (Fin 4 * Math_PI * distance / wavelength).

Definition fresnelRadius (totalDistance distanceFromTx : num) : num :=
  let wavelength := c / frequency in
  let d2 := totalDistance - distanceFromTx in
  Math_sqrt ((wavelength * distanceFromTx * d2) / totalDistance).

Definition earthCurvature (distance positionRatio : num) : num :=
  let d1 := distance * positionRatio in
  let d2 := distance * (Fin 1 - positionRatio) in
  (d1 * d2) / (Fin 2 * earthRadius).

Record terrain : Type := mkTerrain {
  clearance : num;
  obstruction : num;
  minClearance : num
}.

(** One iteration of the loop of [analyzeTerrainProfile], on the pair
    [(minClearanceRatio, maxObstruction)]. *)
Definition terrainStep (startElevation endElevation totalDistance : num)
    (st : num * num) (point : sample) : num * num :=
  let '(minClearanceRatio, maxObstruction) := st in
  let positionRatio := distance point / totalDistance in
  let losHeight :=
    startElevation + (endElevation - startElevation) * positionRatio in
  let curvature := earthCurvature totalDistance positionRatio in
  let adjustedLosHeight := losHeight - curvature in
  let fresnelR := fresnelRadius totalDistance (distance point) in
  let requiredHeight := adjustedLosHeight + Fin 0.6 * fresnelR in
  let terrainHeight := elevation point in
  let clearanceHeight := adjustedLosHeight - terrainHeight in
  let clearanceRatio := clearanceHeight / fresnelR in
  let minClearanceRatio := Math_min minClearanceRatio clearanceRatio in
  let maxObstruction :=
    if terrainHeight >? requiredHeight then
      let obstruction := (terrainHeight - requiredHeight) / fresnelR in
      Math_max maxObstruction obstruction
    else maxObstruction in
  (minClearanceRatio, maxObstruction).

(** [txHeight] and [rxHeight] default to [antennaHeight]. *)
Definition analyzeTerrainProfile (elevationProfile : list sample)
    (totalDistance txHeight rxHeight : num) : terrain :=
  if (List.length elevationProfile <? 2)%nat then
    {| clearance := Fin 1.0; obstruction := Fin 0; minClearance := PInf |}
  else
    let startElevation :=
      elevation (nth 0 elevationProfile undefined_sample) + txHeight in
    let endElevation :=
      elevation (last elevationProfile undefined_sample) + rxHeight in
    let '(minClearanceRatio, maxObstruction) :=
      fold_left (terrainStep startElevation endElevation totalDistance)
        (interior elevationProfile) (PInf, Fin 0) in
    {| clearance := Math_max (Fin 0) minClearanceRatio;
       obstruction := maxObstruction;
       minClearance := minClearanceRatio |}.

Record linkBudget : Type := mkLinkBudget {
  txPowerDbm : num;
  pathLoss : num;
  obstructionLoss : num;
  fresnelLoss : num;
  receivedPower : num;
  linkMargin : num;
  quality : string;
  distance_km : num;          (* the field [distance] of the result *)
  terrainAnalysis : terrain
}.

Definition calculateLinkBudget (txPower rxPower distance : num)
    (terrainAnalysis : terrain) : linkBudget :=
  let txPowerDbm := Fin 10 * Math_log10 (txPower * Fin 1000) in
  let pathLoss := freeSpacePathLoss distance in
  let obstructionLoss :=
    if obstruction terrainAnalysis >? Fin 0 then
      let v := obstruction terrainAnalysis in
      if v >? Fin 0 then
        Fin 20 * Math_log10 (Math_sqrt (Fin 2 * Math_PI * v))
      else Fin 0
    else Fin 0 in
  let fresnelLoss :=
    if clearance terrainAnalysis <? Fin 1.0 then
      Fin 6 * (Fin 1 - clearance terrainAnalysis)
    else Fin 0 in
  let totalGain := Fin 2 * antennaGain in
  let receivedPower :=
    txPowerDbm + totalGain - pathLoss - obstructionLoss - fresnelLoss in
  let linkMargin := receivedPower - receiverSensitivity in
  let quality :=
    if linkMargin >=? Fin 20 then "good"%string
    else if linkMargin >=? Fin 10 then "marginal"%string
    else "poor"%string in
  {| txPowerDbm := txPowerDbm;
     pathLoss := pathLoss;
     obstructionLoss := obstructionLoss;
     fresnelLoss := fresnelLoss;
     receivedPower := receivedPower;
     linkMargin := linkMargin;
     quality := quality;
     distance_km := distance / Fin 1000;
     terrainAnalysis := terrainAnalysis |}.

Definition terrainFactors : list (string * num) :=
  [ ("flat"%string, Fin 1.0);
    ("rolling"%string, Fin 0.7);
    ("mountainous"%string, Fin 0.4) ].

(** [terrain] defaults to ['rolling']. *)
Definition estimateCoverageRadius (power : num) (terrain : string) : num :=
  let txPowerDbm := Fin 10 * Math_log10 (power * Fin 1000) in
  let linkBudget := txPowerDbm + Fin 2 * antennaGain - receiverSensitivity in
  let factor := lookupOr terrain terrainFactors (Fin 0.7) in
  let maxPathLoss := linkBudget - Fin 20 in
  let wavelength := c / frequency in
  let maxDistance :=
    wavelength * Math_pow10 (maxPathLoss / Fin 20) / (Fin 4 * Math_PI) in
  maxDistance * factor.

Definition toRadians (degrees : num) : num := degrees * Math_PI / Fin 180.

Definition toDegrees (radians : num) : num := radians * Fin 180 / Math_PI.

(** Great-circle distance in metres. *)
Definition calculateDistance (lat1 lng1 lat2 lng2 : num) : num :=
  let R := earthRadius in
  let dLat := toRadians (lat2 - lat1) in
  let dLng := toRadians (lng2 - lng1) in
  let a :=
    Math_sin (dLat / Fin 2) * Math_sin (dLat / Fin 2)
    + Math_cos (toRadians lat1) * Math_cos (toRadians lat2)
      * Math_sin (dLng / Fin 2) * Math_sin (dLng / Fin 2) in
  let c := Fin 2 * Math_atan2 (Math_sqrt a) (Math_sqrt (Fin 1 - a)) in
  R * c.

End RFCalculator.

(** ** The map layer: colours of a drawn link, by quality *)

Module MapUI.

Definition colors : list (string * string) :=
  [ ("excellent", "#059669"); ("good", "#10b981");
    ("marginal", "#f59e0b"); ("poor", "#ef4444") ]%string.

End MapUI.

(** ** Loops that need fuel

    The [for] loops over a floating-point counter are modelled with a fuel
    argument; [None] means the fuel ran out before the loop ended. *)

Definition bind {A B : Type} (m : option A) (k : A -> option B) : option B :=
  match m with
  | Some a => k a
  | None => None
  end.

Notation "x <- m ;; k" := (bind m (fun x => k))
  (at level 61, m at next level, right associativity).

Fixpoint mapM {A B : Type} (f : A -> option B) (l : list A) : option (list B) :=
  match l with
  | [] => Some []
  | a :: rest => b <- f a ;; bs <- mapM f rest ;; Some (b :: bs)
  end.

(** [xs.slice(i, j)] for [0 <= i <= j]. *)
Definition slice {A : Type} (xs : list A) (i j : nat) : list A :=
  firstn (j - i) (skipn i xs).

(** [for (let angle = start; angle < 360; angle += step) angles.push(angle)]. *)
Fixpoint angleLoop (fuel : nat) (angle step : num) : option (list num) :=
  match fuel with
  | O => None
  | S fuel' =>
      if angle <? Fin 360 then
        rest <- angleLoop fuel' (angle + step) step ;; Some (angle :: rest)
      else Some []
  end.

(** ** Coverage (api/coverage.js) *)

Module Coverage.

Definition calculateDestination (lat lng bearing distance : num) : geo :=
  let R := Fin 6371 in
  let bearingRad := bearing * Math_PI / Fin 180 in
  let latRad := lat * Math_PI / Fin 180 in
  let lngRad := lng * Math_PI / Fin 180 in
  let newLatRad :=
    Math_asin (Math_sin latRad * Math_cos (distance / R)
               + Math_cos latRad * Math_sin (distance / R)
                 * Math_cos bearingRad) in
  let newLngRad :=
    lngRad
    + Math_atan2
        (Math_sin bearingRad * Math_sin (distance / R) * Math_cos latRad)
        (Math_cos (distance / R) - Math_sin latRad * Math_sin newLatRad) in
  {| g_lat := newLatRad * Fin 180 / Math_PI;
     g_lng := newLngRad * Fin 180 / Math_PI |}.

(** What the elevation request of one probe leads to: an exception somewhere
    in the [try] block, a response that is not [ok], or a decoded
    [elevationData.profile || []]. *)
Inductive fetch_outcome : Type :=
| FetchError
| FetchNotOk
| FetchProfile (profile : list sample).

Record rayResult : Type := mkRayResult {
  r_lat : num;
  r_lng : num;
  coverageDistance : num;
  r_linkMargin : num
}.

Record coveragePoint : Type := mkCoveragePoint {
  cp_lat : num;
  cp_lng : num;
  cp_distance : num;
  cp_angle : num;
  cp_linkMargin : num
}.

Record coverage : Type := mkCoverage {
  success : bool;
  transmitter : num * num * num;
  polygon : list coveragePoint;
  maxRange : num;
  avgRange : num;
  pointCount : nat
}.

Definition stepSize : num := Fin 0.5.
Definition minLinkMargin : num := Fin 10.

Section World.

(** The elevation service as the generator sees it: the outcome of the
    request issued for the probe at a given bearing and distance. *)
Variable world : num -> num -> fetch_outcome.

Variables txLat txLng power bearing maxRange : num.

(** The ray-marching loop of [calculateCoverageInDirection], from the
    candidate [distance] on. *)
Fixpoint march (fuel : nat) (distance lastGoodDistance : num)
    (lastGoodPoint : geo) : option (num * geo) :=
  match fuel with
  | O => None
  | S fuel' =>
      if distance <=? maxRange then
        let point := calculateDestination txLat txLng bearing distance in
        match world bearing distance with
        | FetchError =>
            let estimatedRange :=
              if power >=? Fin 1.0 then Fin 15 else Fin 8 in
            if distance <=? estimatedRange then
              march fuel' (distance + stepSize) distance point
            else Some (lastGoodDistance, lastGoodPoint)
        | answered =>
            let elevationProfile :=
              match answered with
              | FetchProfile profile => profile
              | _ => []
              end in
            let elevationProfile :=
              if (List.length elevationProfile =? 0)%nat then
                let distanceM := distance * Fin 1000 in
                [ mkSample (Fin 0) (Fin 100) txLat txLng;
                  mkSample distanceM (Fin 100) (g_lat point) (g_lng point) ]
              else elevationProfile in
            let totalDistance := distance * Fin 1000 in
            let terrainAnalysis :=
              RFCalculator.analyzeTerrainProfile elevationProfile
                totalDistance RFCalculator.antennaHeight
                RFCalculator.antennaHeight in
            let linkBudget :=
              RFCalculator.calculateLinkBudget power power totalDistance
                terrainAnalysis in
            if RFCalculator.linkMargin linkBudget >=? minLinkMargin then
              march fuel' (distance + stepSize) distance point
            else Some (lastGoodDistance, lastGoodPoint)
        end
      else Some (lastGoodDistance, lastGoodPoint)
  end.

Definition calculateCoverageInDirection (fuel : nat) : option rayResult :=
  let lastGoodDistance := Fin 0 in
  let lastGoodPoint := {| g_lat := txLat; g_lng := txLng |} in
  r <- march fuel stepSize lastGoodDistance lastGoodPoint ;;
  let '(lastGoodDistance, lastGoodPoint) := r in
  Some {| r_lat := g_lat lastGoodPoint;
          r_lng := g_lng lastGoodPoint;
          coverageDistance := lastGoodDistance;
          r_linkMargin := Fin 10 |}.

End World.

(** [results.forEach((result, index) => ...)]: the rays that reached a
    positive distance, each with the angle of its index. *)
Definition buildPolygon (results : list rayResult) (angles : list num)
    : list coveragePoint :=
  flat_map
    (fun '(index, result) =>
       if coverageDistance result >? Fin 0 then
         [ {| cp_lat := r_lat result;
              cp_lng := r_lng result;
              cp_distance := coverageDistance result;
              cp_angle := nth index angles NaN;
              cp_linkMargin := nor_default (r_linkMargin result) (Fin 10) |} ]
       else [])
    (combine (seq 0 (List.length results)) results).

(** The fallback circle appended when fewer than 3 points were found. *)
Definition ensurePolygon (fuel : nat) (lat lng power : num)
    (coveragePoints : list coveragePoint) : option (list coveragePoint) :=
  if (List.length coveragePoints <? 3)%nat then
    let fallbackRadius := if power >=? Fin 1.0 then Fin 10 else Fin 6 in
    circle <- angleLoop fuel (Fin 0) (Fin 30) ;;
    Some (coveragePoints
          ++ map (fun angle =>
                    let point :=
                      calculateDestination lat lng angle fallbackRadius in
                    {| cp_lat := g_lat point;
                       cp_lng := g_lng point;
                       cp_distance := fallbackRadius;
                       cp_angle := angle;
                       cp_linkMargin := Fin 15 |}) circle)
  else Some coveragePoints.

(** The object the last statements of [generateCoveragePolygon] build.  Its
    [maxRange] is the [const maxRange] of the body, the declaration that
    [load] below rejects. *)
Definition summary (lat lng power : num) (coveragePoints : list coveragePoint)
    : coverage :=
  let maxRange :=
    if (0 <? List.length coveragePoints)%nat then
      Math_max_list (map cp_distance coveragePoints)
    else Fin 0 in
  let avgRange :=
    if (0 <? List.length coveragePoints)%nat then
      fold_left (fun sum p => sum + cp_distance p) coveragePoints (Fin 0)
      / Fin (INR (List.length coveragePoints))
    else Fin 0 in
  {| success := true;
     transmitter := (lat, lng, power);
     polygon := coveragePoints;
     maxRange := maxRange;
     avgRange := avgRange;
     pointCount := List.length coveragePoints |}.

Definition batchSize : nat := 8.

(** The function declarations of api/coverage.js: the parameters of each,
    and the names its body declares with [const] or [let] at top level
    (declarations inside a loop, a block or an arrow function belong to
    that inner scope). *)
Definition declarations : list functionDeclaration :=
  [ {| fd_name := "generateCoveragePolygon";
       boundNames := [ "lat"; "lng"; "power"; "resolution"; "maxRange" ];
       lexicallyDeclaredNames :=
         [ "coveragePoints"; "angles"; "batchSize"; "results"; "maxRange";
           "avgRange" ] |};
    {| fd_name := "calculateCoverageInDirection";
       boundNames := [ "txLat"; "txLng"; "power"; "bearing"; "maxRange" ];
       lexicallyDeclaredNames :=
         [ "stepSize"; "minLinkMargin"; "lastGoodDistance";
           "lastGoodPoint" ] |};
    {| fd_name := "calculateDestination";
       boundNames := [ "lat"; "lng"; "bearing"; "distance" ];
       lexicallyDeclaredNames :=
         [ "R"; "bearingRad"; "latRad"; "lngRad"; "newLatRad";
           "newLngRad" ] |};
    {| fd_name := "handler";
       boundNames := [ "req"; "res" ];
       lexicallyDeclaredNames := [] |} ]%string.

(** Evaluating the file: its early errors come before its first statement. *)
Definition load : completion unit := earlyErrors declarations.

Section Generate.

Variable world : num -> num -> fetch_outcome.

(** The loop over the batches of angles, from index [i] on; [ray] is
    [calculateCoverageInDirection] at the transmitter of the request. *)
Fixpoint batchLoop (fuel : nat) (ray : num -> option rayResult)
    (angles : list num) (i : nat) (results : list rayResult)
    : option (list rayResult) :=
  match fuel with
  | O => None
  | S fuel' =>
      if (i <? List.length angles)%nat then
        let batch := slice angles i (i + batchSize) in
        batchResults <- mapM ray batch ;;
        batchLoop fuel' ray angles (i + batchSize) (results ++ batchResults)
      else Some results
  end.

(** The bearings the generator walks. *)
Definition bearings (fuel : nat) (resolution : num) : option (list num) :=
  angleLoop fuel (Fin 0) resolution.

(** The statements of the body of [generateCoveragePolygon], in their
    order. *)
Definition generateCoveragePolygon_body (fuel : nat)
    (lat lng power resolution maxRange : num) : option coverage :=
  angles <- bearings fuel resolution ;;
  results <-
    batchLoop fuel
      (fun angle =>
         calculateCoverageInDirection world lat lng power angle maxRange
           fuel)
      angles 0 [] ;;
  let coveragePoints := buildPolygon results angles in
  coveragePoints <- ensurePolygon fuel lat lng power coveragePoints ;;
  Some (summary lat lng power coveragePoints).

(** [generateCoveragePolygon(lat, lng, power, resolution = 10, maxRange = 30)]
    as a caller of the file gets it: the file is evaluated first, and the
    body runs only if that succeeds. *)
Definition generateCoveragePolygon (fuel : nat)
    (lat lng power resolution maxRange : num)
    : completion (option coverage) :=
  andThen load (fun _ =>
    Return (generateCoveragePolygon_body fuel lat lng power resolution
              maxRange)).

End Generate.

(** The checks of the request handler on the parsed numbers: [true] when
    the request is passed on to [generateCoveragePolygon].  [maxRange] is
    parsed but not checked. *)
Definition validRequest (numLat numLng numPower numResolution : num) : bool :=
  negb (isNaN numLat || isNaN numLng || isNaN numPower)
  && negb ((Math_abs numLat >? Fin 90) || (Math_abs numLng >? Fin 180))
  && negb ((numPower <? Fin 0.1) || (numPower >? Fin 5))
  && negb ((numResolution <? Fin 5) || (numResolution >? Fin 90)).

End Coverage.

(** ** CoverageEnhanced (the time-boxed variant of api/coverage.js)

    [calculateDestination] and [calculateCoverageInDirection] of this variant
    compute what those of [Coverage] compute (the request asks for 15 samples
    instead of 20 and races the fetch against a 3 s timer: both are behaviours
    of the [world]). *)

Module CoverageEnhanced.

Import Coverage.

Definition maxProcessingTime : num := Fin 8000.
Definition batchSize : nat := 6.

(** The function declarations of the time-boxed file, as in [Coverage]. *)
Definition declarations : list functionDeclaration :=
  [ {| fd_name := "generateCoveragePolygon";
       boundNames := [ "lat"; "lng"; "power"; "resolution"; "maxRange" ];
       lexicallyDeclaredNames :=
         [ "coveragePoints"; "angles"; "optimizedResolution";
           "optimizedMaxRange"; "startTime"; "maxProcessingTime";
           "batchSize"; "results"; "maxRange"; "avgRange" ] |};
    {| fd_name := "calculateCoverageInDirection";
       boundNames := [ "txLat"; "txLng"; "power"; "bearing"; "maxRange" ];
       lexicallyDeclaredNames :=
         [ "stepSize"; "minLinkMargin"; "lastGoodDistance";
           "lastGoodPoint" ] |};
    {| fd_name := "calculateDestination";
       boundNames := [ "lat"; "lng"; "bearing"; "distance" ];
       lexicallyDeclaredNames :=
         [ "R"; "bearingRad"; "latRad"; "lngRad"; "newLatRad";
           "newLngRad" ] |};
    {| fd_name := "handler";
       boundNames := [ "req"; "res" ];
       lexicallyDeclaredNames := [] |} ]%string.

Definition load : completion unit := earlyErrors declarations.

Section Generate.

Variable world : num -> num -> fetch_outcome.

(** [Date.now()] when the generator starts, and at the check that opens
    the batch starting at index [i]. *)
Variable startTime : num.
Variable now : nat -> num.

(** Whether [Promise.all] of the batch starting at index [i] rejects. *)
Variable batchRejects : nat -> bool.

(** The estimated result that replaces a ray. *)
Definition estimated (lat lng power angle margin : num) : rayResult :=
  let estimatedRange :=
    RFCalculator.estimateCoverageRadius power "rolling" / Fin 1000 in
  let point := calculateDestination lat lng angle estimatedRange in
  {| r_lat := g_lat point;
     r_lng := g_lng point;
     coverageDistance := estimatedRange;
     r_linkMargin := margin |}.

(** The loop over the batches of angles, from index [i] on; [ray] is
    [calculateCoverageInDirection] at the transmitter of the request. *)
Fixpoint batchLoop (fuel : nat) (ray : num -> option rayResult)
    (lat lng power : num) (angles : list num) (i : nat)
    (results : list rayResult) : option (list rayResult) :=
  match fuel with
  | O => None
  | S fuel' =>
      if (i <? List.length angles)%nat then
        if now i - startTime >? maxProcessingTime then
          Some (results
                ++ map (fun angle => estimated lat lng power angle (Fin 12))
                     (skipn i angles))
        else
          let batch := slice angles i (i + batchSize) in
          if batchRejects i then
            batchLoop fuel' ray lat lng power angles (i + batchSize)
              (results
               ++ map (fun angle => estimated lat lng power angle (Fin 10))
                    batch)
          else
            batchResults <- mapM ray batch ;;
            batchLoop fuel' ray lat lng power angles (i + batchSize)
              (results ++ batchResults)
      else Some results
  end.

Definition optimizedResolution (power resolution : num) : num :=
  if power >=? Fin 1.0 then Math_max resolution (Fin 12)
  else Math_max resolution (Fin 20).

Definition optimizedMaxRange (power maxRange : num) : num :=
  if power >=? Fin 1.0 then Math_min maxRange (Fin 20)
  else Math_min maxRange (Fin 12).

(** The bearings the generator walks. *)
Definition bearings (fuel : nat) (power resolution : num)
    : option (list num) :=
  angleLoop fuel (Fin 0) (optimizedResolution power resolution).

(** The statements of the body of [generateCoveragePolygon], in their
    order. *)
Definition generateCoveragePolygon_body (fuel : nat)
    (lat lng power resolution maxRange : num) : option coverage :=
  angles <- bearings fuel power resolution ;;
  results <-
    batchLoop fuel
      (fun angle =>
         calculateCoverageInDirection world lat lng power angle
           (optimizedMaxRange power maxRange) fuel)
      lat lng power angles 0 [] ;;
  let coveragePoints := buildPolygon results angles in
  coveragePoints <- ensurePolygon fuel lat lng power coveragePoints ;;
  Some (summary lat lng power coveragePoints).

(** [generateCoveragePolygon(lat, lng, power, resolution = 15, maxRange = 25)]
    as a caller of the file gets it. *)
Definition generateCoveragePolygon (fuel : nat)
    (lat lng power resolution maxRange : num)
    : completion (option coverage) :=
  andThen load (fun _ =>
    Return (generateCoveragePolygon_body fuel lat lng power resolution
              maxRange)).

End Generate.

End CoverageEnhanced.

(** ** ElevationService, continued: profiles, batches and the cache *)

Module ElevationProfiles.

(** An entry of [elevationData]: a point with its elevation. *)
Record located : Type := mkLocated {
  l_lat : num;
  l_lng : num;
  l_elevation : num
}.


(** Great-circle distance in kilometres. *)
Definition calculateDistance (point1 point2 : geo) : num :=
  let R := Fin 6371 in
  let dLat := (g_lat point2 - g_lat point1) * Math_PI / Fin 180 in
  let dLng := (g_lng point2 - g_lng point1) * Math_PI / Fin 180 in
  let a :=
    Math_sin (dLat / Fin 2) * Math_sin (dLat / Fin 2)
    + Math_cos (g_lat point1 * Math_PI / Fin 180)
      * Math_cos (g_lat point2 * Math_PI / Fin 180)
      * Math_sin (dLng / Fin 2) * Math_sin (dLng / Fin 2) in
  let c := Fin 2 * Math_atan2 (Math_sqrt a) (Math_sqrt (Fin 1 - a)) in
  R * c.

(** The distance given to the sample of index [i] among [n]. *)
Definition distanceFromStart (totalDistance : num) (n i : nat) : num :=
  if (i =? 0)%nat then Fin 0
  else if (i =? n - 1)%nat then totalDistance
  else (totalDistance * Fin (INR i)) / (Fin (INR n) - Fin 1).

Definition formatElevationProfile (elevationData : list located)
    (startPoint endPoint : geo) : list sample :=
  let totalDistance := calculateDistance startPoint endPoint in
  map (fun entry =>
         let '(i, point) := entry in
         {| distance :=
              distanceFromStart totalDistance (List.length elevationData) i;
            elevation := l_elevation point;
            lat := l_lat point;
            lng := l_lng point |})
    (combine (seq 0 (List.length elevationData)) elevationData).

(** [batchPoints(points, batchSize)]: the loop from index [i] on. *)
Fixpoint batchLoop {A : Type} (fuel : nat) (points : list A)
    (batchSize i : nat) (batches : list (list A)) : option (list (list A)) :=
  match fuel with
  | O => None
  | S fuel' =>
      if (i <? List.length points)%nat then
        batchLoop fuel' points batchSize (i + batchSize)
          (batches ++ [slice points i (i + batchSize)])
      else Some batches
  end.

Definition batchPoints {A : Type} (fuel : nat) (points : list A)
    (batchSize : nat) : option (list (list A)) :=
  batchLoop fuel points batchSize 0 [].

(** *** The profile cache: a [Map] from key to entry, in insertion order *)

Record cacheEntry : Type := mkCacheEntry {
  data : list sample;
  timestamp : num
}.

Definition cache : Type := list (string * cacheEntry).

Definition cacheTimeout : num := Fin 1800000.
Definition maxCacheSize : nat := 1000.

(** [m.set(key, v)]: an existing key keeps its place. *)
Fixpoint mapSet {V : Type} (key : string) (v : V) (m : list (string * V))
    : list (string * V) :=
  match m with
  | [] => [(key, v)]
  | (k, x) :: rest =>
      if String.eqb k key then (k, v) :: rest
      else (k, x) :: mapSet key v rest
  end.

(** [m.delete(key)]. *)
Fixpoint mapDelete {V : Type} (key : string) (m : list (string * V))
    : list (string * V) :=
  match m with
  | [] => []
  | (k, x) :: rest =>
      if String.eqb k key then rest else (k, x) :: mapDelete key rest
  end.

(** [getCached(key)] at the time [now]: the profile or [null], and the cache
    it leaves. *)
Definition getCached (now : num) (key : string) (c : cache)
    : option (list sample) * cache :=
  match lookup key c with
  | Some cached =>
      if now - timestamp cached <? cacheTimeout then (Some (data cached), c)
      else (None, mapDelete key c)
  | None => (None, c)
  end.

(** [setCached(key, data)] at the time [now]. *)
Definition setCached (now : num) (key : string) (profile : list sample)
    (c : cache) : cache :=
  let c :=
    if (maxCacheSize <=? List.length c)%nat then
      match c with
      | (firstKey, _) :: _ => mapDelete firstKey c
      | [] => c
      end
    else c in
  mapSet key {| data := profile; timestamp := now |} c.

End ElevationProfiles.

(** ** The elevation endpoint (api/elevation.js) *)

Module ElevationApi.

(** Great-circle distance in metres. *)
Definition calculateDistance (lat1 lng1 lat2 lng2 : num) : num :=
  let R := Fin 6371000 in
  let dLat := (lat2 - lat1) * Math_PI / Fin 180 in
  let dLng := (lng2 - lng1) * Math_PI / Fin 180 in
  let a :=
    Math_sin (dLat / Fin 2) * Math_sin (dLat / Fin 2)
    + Math_cos (lat1 * Math_PI / Fin 180) * Math_cos (lat2 * Math_PI / Fin 180)
      * Math_sin (dLng / Fin 2) * Math_sin (dLng / Fin 2) in
  let c := Fin 2 * Math_atan2 (Math_sqrt a) (Math_sqrt (Fin 1 - a)) in
  R * c.

(** What the request for one sampling point leads to: an exception, a
    response that is not [ok], or a decoded body with its [elevation] field
    ([None] when the field is missing). *)
Inductive point_outcome : Type :=
| PointError
| PointNotOk
| PointData (elevation : option num).

(** The sampling points on the straight line in latitude and longitude. *)
Definition samplingPoints (lat1 lng1 lat2 lng2 : num) (samples : nat)
    : list geo :=
  let latStep := (lat2 - lat1) / (Fin (INR samples) - Fin 1) in
  let lngStep := (lng2 - lng1) / (Fin (INR samples) - Fin 1) in
  map (fun i =>
         let lat := lat1 + (latStep * Fin (INR i)) in
         let lng := lng1 + (lngStep * Fin (INR i)) in
         {| g_lat := lat; g_lng := lng |})
    (seq 0 samples).

(** The sample built from the answer for one point. *)
Definition sampleOf (lat1 lng1 : num) (point : geo) (answer : point_outcome)
    : sample :=
  let elevation :=
    match answer with
    | PointData (Some e) => nor_default e (Fin 100)
    | PointData None => Fin 100
    | PointNotOk => Fin 100
    | PointError => Fin 100
    end in
  {| distance := calculateDistance lat1 lng1 (g_lat point) (g_lng point);
     elevation := elevation;
     lat := g_lat point;
     lng := g_lng point |}.

(** [getElevationProfile] on a cache miss; [answers] gives the outcome of the
    request for the point of each index.  (Every request handles its own
    failure, so the outer [catch] is not reached; it would yield the samples
    of a run in which every request fails.) *)
Definition getElevationProfile (answers : nat -> point_outcome)
    (lat1 lng1 lat2 lng2 : num) (samples : nat) : list sample :=
  let points := samplingPoints lat1 lng1 lat2 lng2 samples in
  map (fun entry => let '(index, point) := entry in
                    sampleOf lat1 lng1 point (answers index))
    (combine (seq 0 (List.length points)) points).

End ElevationApi.

(** ** The link-budget endpoint (api/linkbudget.js) *)

Module LinkBudgetApi.

(** The numeric part of the response (the [metadata] strings are left
    out). *)
Record response : Type := mkResponse {
  success : bool;
  linkBudget : RFCalculator.linkBudget;
  elevationProfile : list sample;
  terrainAnalysis : RFCalculator.terrain;
  warning : option string
}.

(** [profile.filter((_, i) => i % step === 0)]. *)
Definition everyNth {A : Type} (step : nat) (profile : list A) : list A :=
  flat_map (fun entry : nat * A =>
              let '(i, x) := entry in
              if (i mod step =? 0)%nat then [x] else [])
    (combine (seq 0 (List.length profile)) profile).

(** The profile as the response carries it: thinned to every
    [Math.ceil(length / 10)]-th sample when it has more than 10. *)
Definition reduceProfile (elevationProfile : list sample) : list sample :=
  if (10 <? List.length elevationProfile)%nat then
    everyNth ((List.length elevationProfile + 9) / 10) elevationProfile
  else elevationProfile.

(** [calculateLinkBudgetWithTerrain]; [answer] is what the request to the
    elevation endpoint leads to. *)
Definition calculateLinkBudgetWithTerrain (answer : Coverage.fetch_outcome)
    (lat1 lng1 lat2 lng2 txPower rxPower : num) : response :=
  match answer with
  | Coverage.FetchError =>
      let distance := RFCalculator.calculateDistance lat1 lng1 lat2 lng2 in
      let simpleTerrain :=
        {| RFCalculator.clearance := Fin 1.0;
           RFCalculator.obstruction := Fin 0;
           RFCalculator.minClearance := Fin 1.0 |} in
      let linkBudget :=
        RFCalculator.calculateLinkBudget txPower rxPower distance
          simpleTerrain in
      {| success := true;
         linkBudget := linkBudget;
         elevationProfile := [];
         terrainAnalysis := simpleTerrain;
         warning :=
           Some "Calculated without terrain data due to elevation service error"%string |}
  | answered =>
      let elevationProfile :=
        match answered with
        | Coverage.FetchProfile profile => profile
        | _ => []
        end in
      let elevationProfile :=
        if (List.length elevationProfile =? 0)%nat then
          let distance := RFCalculator.calculateDistance lat1 lng1 lat2 lng2 in
          [ mkSample (Fin 0) (Fin 100) lat1 lng1;
            mkSample distance (Fin 100) lat2 lng2 ]
        else elevationProfile in
      let totalDistance := RFCalculator.calculateDistance lat1 lng1 lat2 lng2 in
      let terrainAnalysis :=
        RFCalculator.analyzeTerrainProfile elevationProfile totalDistance
          RFCalculator.antennaHeight RFCalculator.antennaHeight in
      let linkBudget :=
        RFCalculator.calculateLinkBudget txPower rxPower totalDistance
          terrainAnalysis in
      {| success := true;
         linkBudget := linkBudget;
         elevationProfile := reduceProfile elevationProfile;
         terrainAnalysis := terrainAnalysis;
         warning := None |}
  end.

End LinkBudgetApi.

(** ** The map layer, continued: the distance-based estimates *)

Module MapEstimates.

(** The radius of the coverage circle drawn for a transmitter, in km. *)
Definition coverageRadiusKm (power : num) : num :=
  if power >=? Fin 1.0 then Fin 15 else Fin 8.

Definition estimateLinkQuality (distanceKm power1 power2 : num) : string :=
  let avgPower := (power1 + power2) / Fin 2 in
  let maxRange := if avgPower >=? Fin 1.0 then Fin 15 else Fin 8 in
  if distanceKm <=? maxRange * Fin 0.6 then "good"%string
  else if distanceKm <=? maxRange then "marginal"%string
  else "poor"%string.

End MapEstimates.

(** * Vocabulary of the statements *)

(** The radicand of the Fresnel radius and the Earth bulge at distance [d] of
    a path of length [total], as the code computes them on reals. *)
Definition fresnelRadicand (total d : R) : R :=
  (1 * (299792458 / 915e6) * (d * 1000) * ((total - d) * 1000)
   / (d * 1000 + (total - d) * 1000))%R.

Definition bulge (total d : R) : R :=
  (total * 1000 * (d / total) * (total * 1000 * (1 - d / total))
   / (2 * 6371000))%R.

(** A number that is not negative: [NaN], or at least 0. *)
Definition notNegative (x : num) : Prop := x = NaN \/ (Fin 0 <=? x) = true.

(** The running minimum of the loop: [Math.min] over the absolute clearances
    of the samples [ps], from [m0] on. *)
Definition minAbsClearance (txE rxE total pct m0 : num) (ps : list sample) : num :=
  fold_left
    (fun m s => Math_min m (Math_abs (RFUtils.clearanceAt txE rxE total pct s)))
    ps m0.

(** A three-sample path of length 1 km over ground at 0 m whose interior
    sample, at the transmitter end, is a ridge of height [top]. *)
Definition ridge (top : R) : list sample :=
  [ mkSample (Fin 0) (Fin 0) (Fin 0) (Fin 0);
    mkSample (Fin 0) (Fin top) (Fin 0) (Fin 0);
    mkSample (Fin 1) (Fin 0) (Fin 0) (Fin 0) ].

(** A terrain analysis that reports an unobstructed path with full clearance. *)
Definition reportsClear (t : RFCalculator.terrain) : Prop :=
  RFCalculator.clearance t = Fin 1.0 /\ RFCalculator.obstruction t = Fin 0.

(** The quantity [a] of the great-circle distance functions, on real
    coordinates in degrees. *)
Definition haversine (lat1 lng1 lat2 lng2 : R) : R :=
  (sin ((lat2 - lat1) * PI / 180 / 2) * sin ((lat2 - lat1) * PI / 180 / 2)
   + cos (lat1 * PI / 180) * cos (lat2 * PI / 180)
     * sin ((lng2 - lng1) * PI / 180 / 2)
     * sin ((lng2 - lng1) * PI / 180 / 2))%R.

(** A point given by real coordinates. *)
Definition geoOf (lat lng : R) : geo := {| g_lat := Fin lat; g_lng := Fin lng |}.

(** * Properties *)

(** ** Deciding comparisons of reals *)

Lemma Rltb_true (a b : R) : (a < b)%R -> Rltb a b = true.
Proof. intros H. unfold Rltb. destruct (Rlt_dec a b); [reflexivity | contradiction]. Qed.

Lemma Rltb_false (a b : R) : (b <= a)%R -> Rltb a b = false.
Proof. intros H. unfold Rltb. destruct (Rlt_dec a b); [lra | reflexivity]. Qed.

Lemma Rleb_true (a b : R) : (a <= b)%R -> Rleb a b = true.
Proof. intros H. unfold Rleb. destruct (Rle_dec a b); [reflexivity | contradiction]. Qed.

Lemma Rleb_false (a b : R) : (b < a)%R -> Rleb a b = false.
Proof. intros H. unfold Rleb. destruct (Rle_dec a b); [lra | reflexivity]. Qed.

Lemma Reqb_true (a b : R) : a = b -> Reqb a b = true.
Proof. intros H. unfold Reqb. destruct (Req_dec_T a b); [reflexivity | contradiction]. Qed.

Lemma Reqb_false (a b : R) : a <> b -> Reqb a b = false.
Proof. intros H. unfold Reqb. destruct (Req_dec_T a b); [contradiction | reflexivity]. Qed.

Lemma Rltb_iff (a b : R) : Rltb a b = true <-> (a < b)%R.
Proof. unfold Rltb. destruct (Rlt_dec a b); split; intros; try easy. Qed.

Lemma Rleb_iff (a b : R) : Rleb a b = true <-> (a <= b)%R.
Proof. unfold Rleb. destruct (Rle_dec a b); split; intros; try easy. Qed.

Lemma Rltb_nlt (a b : R) : Rltb a b = false <-> (b <= a)%R.
Proof. unfold Rltb. destruct (Rlt_dec a b); split; intros; try easy; lra. Qed.

Lemma Rleb_nle (a b : R) : Rleb a b = false <-> (b < a)%R.
Proof. unfold Rleb. destruct (Rle_dec a b); split; intros; try easy; lra. Qed.

(** Settles every comparison of the goal that linear arithmetic decides. *)
Ltac rcmp :=
  repeat match goal with
  | |- context [Rltb ?a ?b] =>
      first [ rewrite (Rltb_true a b) by lra | rewrite (Rltb_false a b) by lra ]
  | |- context [Rleb ?a ?b] =>
      first [ rewrite (Rleb_true a b) by lra | rewrite (Rleb_false a b) by lra ]
  | |- context [Reqb ?a ?b] =>
      first [ rewrite (Reqb_true a b) by lra | rewrite (Reqb_false a b) by lra ]
  end.

Lemma sqrt_above (a x : R) : (0 <= a)%R -> (a * a < x)%R -> (a < sqrt x)%R.
Proof.
  intros Ha Hx.
  rewrite <- (sqrt_square a Ha).
  apply sqrt_lt_1_alt. nra.
Qed.

Lemma sqrt_below (a x : R) : (0 <= x)%R -> (0 <= a)%R -> (x < a * a)%R -> (sqrt x < a)%R.
Proof.
  intros Hx Ha Hlt.
  rewrite <- (sqrt_square a Ha).
  apply sqrt_lt_1_alt. lra.
Qed.

Lemma ln_10_pos : (0 < ln 10)%R.
Proof. rewrite <- ln_1. apply ln_increasing; lra. Qed.

(** ** Reliability (C3) *)

(** C3.  [calculateReliability] is the piecewise function of the margin:
    0 below -10; [50 + (m + 10) * 5] on [-10, 0); [90 + m * 0.5] on [0, 20);
    99.9 from 20 on.  The margin ranges over every number, the infinities and
    [NaN] included; the comparisons are those of JavaScript. *)
Theorem calculateReliability_piecewise (m : num) :
  ((m <? Fin (-10)) = true ->
     LinkBudgetCalculator.calculateReliability m = Fin 0)
  /\ ((Fin (-10) <=? m) = true -> (m <? Fin 0) = true ->
     LinkBudgetCalculator.calculateReliability m
     = Fin 50 + (m + Fin 10) * Fin 5)
  /\ ((Fin 0 <=? m) = true -> (m <? Fin 20) = true ->
     LinkBudgetCalculator.calculateReliability m = Fin 90 + m * Fin 0.5)
  /\ ((Fin 20 <=? m) = true ->
     LinkBudgetCalculator.calculateReliability m = Fin 99.9).
Proof.
  unfold LinkBudgetCalculator.calculateReliability.
  destruct m as [r | | |]; simpl;
    rewrite ?Rltb_iff, ?Rleb_iff; repeat split; intros; try discriminate.
  - rcmp. reflexivity.
  - rcmp. reflexivity.
  - rcmp. reflexivity.
  - rcmp. reflexivity.
Qed.

(** The same on real margins, with the values spelled out. *)
Lemma calculateReliability_real (m : R) :
  LinkBudgetCalculator.calculateReliability (Fin m)
  = Fin (if Rlt_dec m (-10) then 0
         else if Rlt_dec m 0 then 50 + (m + 10) * 5
         else if Rlt_dec m 20 then 90 + m * 0.5
         else 99.9)%R.
Proof.
  unfold LinkBudgetCalculator.calculateReliability. simpl. unfold Rltb.
  destruct (Rlt_dec m (-10)); [reflexivity|].
  destruct (Rlt_dec m 0); [reflexivity|].
  destruct (Rlt_dec m 20); reflexivity.
Qed.

Example calculateReliability_at_minus5 :
  LinkBudgetCalculator.calculateReliability (Fin (-5)) = Fin 75.
Proof.
  unfold LinkBudgetCalculator.calculateReliability. simpl. rcmp.
  simpl. f_equal. lra.
Qed.

Example calculateReliability_jump_at_0 :
  LinkBudgetCalculator.calculateReliability (Fin 0) = Fin 90.
Proof.
  unfold LinkBudgetCalculator.calculateReliability. simpl. rcmp.
  simpl. f_equal. lra.
Qed.

Lemma calculateReliability_piecewise_witness :
  LinkBudgetCalculator.calculateReliability (Fin (-5))
  = Fin 50 + (Fin (-5) + Fin 10) * Fin 5.
Proof.
  apply (proj1 (proj2 (calculateReliability_piecewise (Fin (-5))))).
  - simpl. apply Rleb_true. lra.
  - simpl. apply Rltb_true. lra.
Defined.

(** ** Free-space path loss (C7) *)

Lemma ndiv_fin (a b : R) : b <> 0%R -> Fin a / Fin b = Fin (a / b).
Proof. intros H. simpl. rewrite (Reqb_false b 0 H). reflexivity. Qed.

Lemma Math_log10_pos (a : R) :
  (0 < a)%R -> Math_log10 (Fin a) = Fin (ln a / ln 10).
Proof. intros H. simpl. rcmp. reflexivity. Qed.

Lemma Math_log10_neg (a : R) : (a < 0)%R -> Math_log10 (Fin a) = NaN.
Proof. intros H. simpl. rcmp. reflexivity. Qed.

Lemma Math_log10_zero : Math_log10 (Fin 0) = NInf.
Proof. simpl. rcmp. reflexivity. Qed.

(** C7, as the code has it.  For a distance [d <= 0] (and a positive
    frequency) [calculateFSPL] raises nothing: it returns [-Infinity] for
    [d = 0] and [NaN] for [d < 0]. *)
Theorem calculateFSPL_nonpositive (d f : R) :
  (d <= 0)%R -> (0 < f)%R ->
  RFUtils.calculateFSPL (Fin d) (Fin f)
  = Return (if Reqb d 0 then NInf else NaN).
Proof.
  intros Hd Hf. unfold RFUtils.calculateFSPL.
  rewrite ndiv_fin by lra.
  rewrite (Math_log10_pos (f / 1e6)) by (apply Rdiv_lt_0_compat; lra).
  destruct (Req_dec_T d 0) as [E | E].
  - subst d. rewrite Math_log10_zero, Reqb_true by reflexivity.
    simpl. unfold inf_of_sign. rcmp. reflexivity.
  - rewrite Math_log10_neg by lra. rewrite Reqb_false by exact E.
    reflexivity.
Qed.

Lemma calculateFSPL_nonpositive_witness :
  RFUtils.calculateFSPL (Fin (-2)) RFUtils.frequency
  = Return (if Reqb (-2) 0 then NInf else NaN).
Proof.
  apply (calculateFSPL_nonpositive (-2) 915e6); lra.
Defined.

(** C7, as the specification has it, fails: at distance 0 the call completes
    normally with the number [-Infinity]; no error is thrown. *)
Lemma calculateFSPL_zero_returns :
  RFUtils.calculateFSPL (Fin 0) RFUtils.frequency = Return NInf
  /\ ~ (exists e, RFUtils.calculateFSPL (Fin 0) RFUtils.frequency = Throw e).
Proof.
  assert (E : RFUtils.calculateFSPL (Fin 0) RFUtils.frequency = Return NInf).
  { unfold RFUtils.calculateFSPL, RFUtils.frequency.
    rewrite ndiv_fin by lra.
    rewrite (Math_log10_pos (915e6 / 1e6)) by lra.
    rewrite Math_log10_zero. simpl. unfold inf_of_sign. rcmp. reflexivity. }
  split; [exact E|]. intros [e He]. rewrite E in He. discriminate.
Qed.

(** [calculateFSPL] never throws, whatever its arguments. *)
Lemma calculateFSPL_total (d f : num) :
  exists v, RFUtils.calculateFSPL d f = Return v.
Proof. unfold RFUtils.calculateFSPL. eexists. reflexivity. Qed.

(** ** Knife-edge diffraction (C2) *)

Lemma wavelength_value : RFUtils.wavelength = Fin (299792458 / 915e6).
Proof. unfold RFUtils.wavelength, RFUtils.frequency. apply ndiv_fin. lra. Qed.

Lemma wavelength_bounds : (0.3276 < 299792458 / 915e6 < 0.3277)%R.
Proof. lra. Qed.

(** The Fresnel parameter on a real obstacle height and positive distances. *)
Lemma fresnelParameter_real (h d1 d2 : R) :
  (0 < d1)%R -> (0 < d2)%R ->
  RFUtils.fresnelParameter (Fin h) (Fin d1) (Fin d2)
  = Fin (h * sqrt (2 * (d1 * 1000 + d2 * 1000)
                   / (299792458 / 915e6 * (d1 * 1000) * (d2 * 1000)))).
Proof.
  intros H1 H2. unfold RFUtils.fresnelParameter.
  rewrite wavelength_value.
  pose proof wavelength_bounds as Hw.
  set (lam := (299792458 / 915e6)%R) in *.
  assert (Hden : (0 < lam * (d1 * 1000) * (d2 * 1000))%R).
  { repeat apply Rmult_lt_0_compat; lra. }
  cbn [nmul nadd].
  rewrite ndiv_fin by lra.
  cbn [Math_sqrt].
  rewrite Rltb_false.
  - reflexivity.
  - apply Rlt_le, Rdiv_lt_0_compat; [nra | exact Hden].
Qed.

(** Beyond the zero of the radicand the square root is [NaN], and so is the
    loss: [Math.max(0, NaN)] is [NaN]. *)
Lemma calculateKnifeEdgeLoss_radicand_negative (h d1 d2 : num) (v : R) :
  RFUtils.fresnelParameter h d1 d2 = Fin v ->
  (2.4 < v)%R ->
  (0.1184 - (0.38 - 0.1 * v) * (0.38 - 0.1 * v) < 0)%R ->
  RFUtils.calculateKnifeEdgeLoss h d1 d2 = NaN.
Proof.
  intros Hv Hgt Hrad. unfold RFUtils.calculateKnifeEdgeLoss.
  rewrite Hv. cbn [nle].
  rewrite !Rleb_false by lra.
  unfold RFUtils.radicand. cbn [nmul nsub Math_sqrt].
  rewrite Rltb_true by exact Hrad.
  reflexivity.
Qed.

(** C2 fails on the code.  An obstacle 100 m above the path, 1 km from each
    end: the Fresnel parameter is above 11, the radicand is negative and is
    not clamped, and the loss returned is [NaN]. *)
Theorem calculateKnifeEdgeLoss_NaN :
  RFUtils.calculateKnifeEdgeLoss (Fin 100) (Fin 1) (Fin 1) = NaN.
Proof.
  pose proof (fresnelParameter_real 100 1 1 ltac:(lra) ltac:(lra)) as Hv.
  set (x := (2 * (1 * 1000 + 1 * 1000)
             / (299792458 / 915e6 * (1 * 1000) * (1 * 1000)))%R) in Hv.
  assert (Hx : (0.11 < sqrt x)%R).
  { apply sqrt_above; [lra|]. unfold x.
    lra. }
  apply (calculateKnifeEdgeLoss_radicand_negative _ _ _ _ Hv); nra.
Qed.

(** Where the radicand is not negative the loss is a real number, clamped at
    zero: the claim holds up to the zero of the radicand. *)
Lemma calculateKnifeEdgeLoss_in_range (h d1 d2 : num) (v : R) :
  RFUtils.fresnelParameter h d1 d2 = Fin v ->
  (v <= 7.24)%R ->
  exists r, RFUtils.calculateKnifeEdgeLoss h d1 d2 = Fin r /\ (0 <= r)%R.
Proof.
  intros Hv Hle. unfold RFUtils.calculateKnifeEdgeLoss. rewrite Hv.
  assert (Hmax : forall a, exists r,
             Math_max (Fin 0) (Fin 20 * Fin a) = Fin r /\ (0 <= r)%R).
  { intros a. cbn [nmul Math_max nlt].
    destruct (Rlt_dec 0 (20 * a)) as [L | L].
    - rewrite Rltb_true by exact L. eexists; split; [reflexivity | lra].
    - rewrite Rltb_false by lra. eexists; split; [reflexivity | lra]. }
  cbn [nle].
  destruct (Rle_dec v (-2.4)) as [L1 | L1].
  { rewrite Rleb_true by exact L1. cbn [Math_max nlt]. rcmp.
    exists 0%R. split; [reflexivity | lra]. }
  rewrite Rleb_false by lra.
  destruct (Rle_dec v 0) as [L2 | L2].
  { rewrite Rleb_true by exact L2. cbn [nmul nsub].
    rewrite Math_log10_pos by lra. apply Hmax. }
  rewrite Rleb_false by lra.
  destruct (Rle_dec v 2.4) as [L3 | L3].
  { rewrite Rleb_true by exact L3. cbn [nmul Math_exp].
    rewrite Math_log10_pos; [apply Hmax|].
    pose proof (exp_pos (-0.95 * v)). lra. }
  rewrite Rleb_false by lra.
  unfold RFUtils.radicand. cbn [nmul nsub Math_sqrt].
  rewrite Rltb_false by nra.
  cbn [nsub].
  rewrite Math_log10_pos; [apply Hmax|].
  set (q := (0.1184 - (0.38 - 0.1 * v) * (0.38 - 0.1 * v))%R).
  assert (Hq : (0 <= q)%R) by (unfold q; nra).
  assert (Hs : (0 <= (0.38 - 0.1 * v) * (0.38 - 0.1 * v))%R)
    by apply Rle_0_sqr.
  assert (sqrt q < 0.4)%R by (apply sqrt_below; [exact Hq | lra | unfold q; lra]).
  lra.
Qed.

(** For an obstacle on or above the path, up to the zero of the radicand, the
    logarithm is taken of a number below 1 and the clamp returns 0 dB. *)
Lemma calculateKnifeEdgeLoss_zero (h d1 d2 : num) (v : R) :
  RFUtils.fresnelParameter h d1 d2 = Fin v ->
  (0 <= v <= 7.24)%R ->
  RFUtils.calculateKnifeEdgeLoss h d1 d2 = Fin 0.
Proof.
  intros Hv Hr. unfold RFUtils.calculateKnifeEdgeLoss. rewrite Hv.
  assert (Hmax : forall a, (0 < a < 1)%R ->
                           Math_max (Fin 0) (Fin 20 * Math_log10 (Fin a)) = Fin 0).
  { intros a Ha. rewrite Math_log10_pos by lra. cbn [nmul Math_max nlt].
    pose proof ln_10_pos as H10.
    assert (Hln : (ln a < 0)%R) by (rewrite <- ln_1; apply ln_increasing; lra).
    assert (Hq : (ln a / ln 10 < 0)%R).
    { pose proof (Rinv_0_lt_compat _ H10) as Hi. unfold Rdiv. nra. }
    rewrite Rltb_false by lra. reflexivity. }
  cbn [nle]. rewrite Rleb_false by lra.
  destruct (Rle_dec v 0) as [L2 | L2].
  { rewrite Rleb_true by exact L2. cbn [nmul nsub]. apply Hmax. lra. }
  rewrite Rleb_false by lra.
  destruct (Rle_dec v 2.4) as [L3 | L3].
  { rewrite Rleb_true by exact L3. cbn [nmul Math_exp]. apply Hmax.
    pose proof (exp_pos (-0.95 * v)).
    assert (exp (-0.95 * v) < 1)%R
      by (rewrite <- exp_0; apply exp_increasing; lra).
    lra. }
  rewrite Rleb_false by lra.
  unfold RFUtils.radicand. cbn [nmul nsub Math_sqrt].
  rewrite Rltb_false by nra. cbn [nsub]. apply Hmax.
  set (q := (0.1184 - (0.38 - 0.1 * v) * (0.38 - 0.1 * v))%R).
  assert (Hq : (0 <= q)%R) by (unfold q; nra).
  assert (Hs : (0 <= (0.38 - 0.1 * v) * (0.38 - 0.1 * v))%R)
    by apply Rle_0_sqr.
  assert (sqrt q < 0.4)%R by (apply sqrt_below; [exact Hq | lra | unfold q; lra]).
  pose proof (sqrt_pos q). lra.
Qed.

(** ** Fresnel clearance over a profile (C1, C4, C9) *)

Lemma calculateEarthCurvature_real (total f : R) :
  RFUtils.calculateEarthCurvature (Fin total) (Fin f)
  = Fin (total * 1000 * f * (total * 1000 * (1 - f)) / (2 * 6371000)).
Proof.
  unfold RFUtils.calculateEarthCurvature, RFUtils.earthRadius.
  cbn [nmul nsub]. rewrite ndiv_fin by lra. reflexivity.
Qed.

Lemma calculateFresnelZoneRadius_real (total d : R) :
  total <> 0%R ->
  RFUtils.calculateFresnelZoneRadius (Fin d) (Fin total - Fin d) (Fin 1)
  = if Rltb (fresnelRadicand total d) 0 then NaN
    else Fin (sqrt (fresnelRadicand total d)).
Proof.
  intros Ht. unfold RFUtils.calculateFresnelZoneRadius.
  rewrite wavelength_value. cbn [nmul nsub nadd].
  rewrite ndiv_fin by lra. reflexivity.
Qed.

Lemma requiredHeightAt_real (te re total pct d : R) (point : sample) :
  total <> 0%R ->
  distance point = Fin d ->
  RFUtils.requiredHeightAt (Fin te) (Fin re) (Fin total) (Fin pct) point
  = if Rltb (fresnelRadicand total d) 0 then (NaN, NaN)
    else (Fin (te + (re - te) * (d / total) + bulge total d
               + sqrt (fresnelRadicand total d) * pct),
          Fin (sqrt (fresnelRadicand total d))).
Proof.
  intros Ht Hd. unfold RFUtils.requiredHeightAt. rewrite Hd.
  rewrite calculateFresnelZoneRadius_real by exact Ht.
  rewrite (ndiv_fin d total Ht).
  rewrite calculateEarthCurvature_real.
  cbn [nsub nmul nadd].
  destruct (Rltb (fresnelRadicand total d) 0); reflexivity.
Qed.

(** The radicand is non-negative exactly between the two ends. *)
Lemma fresnelRadicand_sign (total d : R) :
  (0 < total)%R ->
  (0 <= fresnelRadicand total d)%R -> (0 <= d <= total)%R.
Proof.
  intros Ht H. unfold fresnelRadicand in H.
  replace (d * 1000 + (total - d) * 1000)%R with (total * 1000)%R in H by lra.
  pose proof wavelength_bounds as Hw.
  set (lam := (299792458 / 915e6)%R) in *.
  assert (Hn : (0 <= 1 * lam * (d * 1000) * ((total - d) * 1000))%R).
  { apply (Rmult_le_reg_r (/ (total * 1000))%R).
    - apply Rinv_0_lt_compat. lra.
    - rewrite Rmult_0_l. exact H. }
  assert (Hp : (0 <= d * (total - d))%R) by nra.
  destruct (Rlt_dec d 0); [nra|]. destruct (Rlt_dec total d); [nra|]. lra.
Qed.

Lemma bulge_nonneg (total d : R) :
  (0 < total)%R -> (0 <= d <= total)%R -> (0 <= bulge total d)%R.
Proof.
  intros Ht Hd. unfold bulge.
  replace (total * 1000 * (d / total))%R with (d * 1000)%R by (field; lra).
  replace (total * 1000 * (1 - d / total))%R with ((total - d) * 1000)%R
    by (field; lra).
  apply Rmult_le_pos; [nra|].
  apply Rlt_le, Rinv_0_lt_compat. lra.
Qed.

Lemma getRequiredFresnelClearance_real (total : R) :
  exists pct, RFUtils.getRequiredFresnelClearance (Fin total) = Fin pct
              /\ (0 < pct)%R.
Proof.
  unfold RFUtils.getRequiredFresnelClearance. cbn [nlt].
  destruct (Rltb total 5); [eexists; split; [reflexivity | lra]|].
  destruct (Rltb total 15); eexists; (split; [reflexivity | lra]).
Qed.

(** Over flat ground at height [e], with both antennas [h > 0] above it, the
    terrain is never above the required height. *)
Lemma clearanceAt_flat (e h total pct d : R) (point : sample) :
  (0 < total)%R -> (0 < h)%R -> (0 < pct)%R ->
  distance point = Fin d -> elevation point = Fin e ->
  (elevation point
   - fst (RFUtils.requiredHeightAt (Fin e + Fin h) (Fin e + Fin h) (Fin total)
            (Fin pct) point)
   >? Fin 0) = false.
Proof.
  intros Ht Hh Hp Hd He. cbn [nadd].
  rewrite (requiredHeightAt_real _ _ total pct d) by (lra || assumption).
  rewrite He.
  destruct (Rlt_dec (fresnelRadicand total d) 0) as [L | L].
  - rewrite Rltb_true by exact L. reflexivity.
  - rewrite Rltb_false by lra. cbn [fst nsub nlt].
    apply Rnot_lt_le in L.
    pose proof (fresnelRadicand_sign total d Ht L) as Hin.
    pose proof (bulge_nonneg total d Ht Hin) as Hb.
    pose proof (sqrt_pos (fresnelRadicand total d)) as Hs.
    apply Rltb_false.
    assert (0 <= sqrt (fresnelRadicand total d) * pct)%R
      by (apply Rmult_le_pos; lra).
    lra.
Qed.

Lemma clearanceStep_clear (txE rxE total : num) (results : RFUtils.clearance)
    (point : sample) :
  (elevation point
   - fst (RFUtils.requiredHeightAt txE rxE total
            (RFUtils.requiredClearancePercent results) point)
   >? Fin 0) = false ->
  let results' := RFUtils.clearanceStep txE rxE total results point in
  RFUtils.hasAdequateClearance results' = RFUtils.hasAdequateClearance results
  /\ RFUtils.obstructions results' = RFUtils.obstructions results
  /\ RFUtils.requiredClearancePercent results'
     = RFUtils.requiredClearancePercent results.
Proof.
  intros H. unfold RFUtils.clearanceStep.
  destruct (RFUtils.requiredHeightAt txE rxE total
              (RFUtils.requiredClearancePercent results) point) as [req fr].
  cbn [fst] in H. rewrite H. cbn. repeat split.
Qed.

Lemma fold_clearanceStep_flat (e h total pct : R) (ps : list sample) :
  (0 < total)%R -> (0 < h)%R -> (0 < pct)%R ->
  Forall (fun s => elevation s = Fin e /\ exists d, distance s = Fin d) ps ->
  forall results,
    RFUtils.requiredClearancePercent results = Fin pct ->
    let r := fold_left
               (RFUtils.clearanceStep (Fin e + Fin h) (Fin e + Fin h) (Fin total))
               ps results in
    RFUtils.hasAdequateClearance r = RFUtils.hasAdequateClearance results
    /\ RFUtils.obstructions r = RFUtils.obstructions results.
Proof.
  intros Ht Hh Hp Hall. induction Hall as [| s ps [He [d Hd]] _ IH];
    intros results Hpct; cbn [fold_left].
  - split; reflexivity.
  - pose proof (clearanceAt_flat e h total pct d s Ht Hh Hp Hd He) as Hc.
    rewrite <- Hpct in Hc.
    destruct (clearanceStep_clear _ _ _ results s Hc) as (E1 & E2 & E3).
    destruct (IH (RFUtils.clearanceStep (Fin e + Fin h) (Fin e + Fin h)
                    (Fin total) results s)) as (F1 & F2).
    + rewrite E3. exact Hpct.
    + split; [rewrite F1; exact E1 | rewrite F2; exact E2].
Qed.

Lemma Forall_tl {A : Type} (P : A -> Prop) (l : list A) :
  Forall P l -> Forall P (tl l).
Proof. intros H. destruct H; [constructor | assumption]. Qed.

Lemma Forall_removelast {A : Type} (P : A -> Prop) (l : list A) :
  Forall P l -> Forall P (removelast l).
Proof.
  induction 1 as [| a l Ha Hl IH]; [constructor|].
  cbn [removelast]. destruct l; [constructor|].
  constructor; assumption.
Qed.

Lemma Forall_interior {A : Type} (P : A -> Prop) (l : list A) :
  Forall P l -> Forall P (interior l).
Proof. intros H. unfold interior. apply Forall_removelast, Forall_tl, H. Qed.

Lemma Forall_last {A : Type} (P : A -> Prop) (l : list A) (d : A) :
  l <> [] -> Forall P l -> P (last l d).
Proof.
  intros Hne H. induction H as [| a l Ha Hl IH]; [contradiction|].
  destruct l as [| b l]; [exact Ha|].
  change (P (last (b :: l) d)). apply IH. discriminate.
Qed.

(** Flat ground, whatever the (real) sample distances. *)
Lemma flat_profile_clear_any_distances (p : list sample) (e h total : R) :
  (2 <= List.length p)%nat ->
  Forall (fun s => elevation s = Fin e /\ exists d, distance s = Fin d) p ->
  (0 < total)%R -> (0 < h)%R ->
  let r := RFUtils.analyzeFresnelClearance (Some p) (Fin h) (Fin h) (Fin total) in
  RFUtils.hasAdequateClearance r = true /\ RFUtils.obstructions r = [].
Proof.
  intros Hlen Hall Ht Hh. unfold RFUtils.analyzeFresnelClearance.
  destruct (Nat.ltb_spec (List.length p) 2) as [L | _]; [lia|].
  destruct p as [| s0 p]; [cbn in Hlen; lia|].
  assert (E0 : elevation (nth 0 (s0 :: p) undefined_sample) = Fin e).
  { inversion Hall as [| ? ? [H0 _] ?]. exact H0. }
  assert (E1 : elevation (last (s0 :: p) undefined_sample) = Fin e).
  { apply (Forall_last (fun s => elevation s = Fin e)); [discriminate|].
    eapply Forall_impl; [|exact Hall]. intros a [Ha _]. exact Ha. }
  rewrite E0, E1.
  destruct (getRequiredFresnelClearance_real total) as (pct & Epct & Hpct).
  apply (fold_clearanceStep_flat e h total pct); try assumption.
  apply Forall_interior. exact Hall.
Qed.

(** C1.  A profile of at least two samples, all at the same elevation, the
    first at distance 0 and the distances non-decreasing, a positive total
    distance and equal positive antenna heights: the analysis reports adequate
    clearance and no obstruction. *)
Theorem flat_profile_has_clearance (p : list sample) (ds : list R)
    (e h total : R) :
  (2 <= List.length p)%nat ->
  Forall (fun s => elevation s = Fin e) p ->
  map distance p = map Fin ds ->
  nth 0 ds 0%R = 0%R ->
  Sorted.Sorted Rle ds ->
  (0 < total)%R -> (0 < h)%R ->
  let r := RFUtils.analyzeFresnelClearance (Some p) (Fin h) (Fin h) (Fin total) in
  RFUtils.hasAdequateClearance r = true /\ RFUtils.obstructions r = [].
Proof.
  intros Hlen Hel Hds _ _ Ht Hh.
  apply (flat_profile_clear_any_distances p e h total); try assumption.
  clear Hlen. revert ds Hds.
  induction Hel as [| s p Hs _ IH]; intros ds Hds; [constructor|].
  destruct ds as [| d ds]; [discriminate|]. cbn [map] in Hds.
  injection Hds as Hd Hrest.
  constructor; [split; [exact Hs | exists d; exact Hd]|].
  apply (IH ds Hrest).
Qed.

Lemma flat_profile_has_clearance_witness :
  let p := [ mkSample (Fin 0) (Fin 100) (Fin 0) (Fin 0);
             mkSample (Fin 5) (Fin 100) (Fin 0) (Fin 0);
             mkSample (Fin 10) (Fin 100) (Fin 0) (Fin 0) ] in
  let r := RFUtils.analyzeFresnelClearance (Some p) (Fin 10) (Fin 10) (Fin 10) in
  RFUtils.hasAdequateClearance r = true /\ RFUtils.obstructions r = [].
Proof.
  apply (flat_profile_has_clearance _ [0; 5; 10]%R 100 10 10).
  - cbn. lia.
  - repeat constructor.
  - reflexivity.
  - reflexivity.
  - repeat constructor; lra.
  - lra.
  - lra.
Defined.

Lemma clearanceStep_fields (txE rxE total : num) (results : RFUtils.clearance)
    (point : sample) :
  let results' := RFUtils.clearanceStep txE rxE total results point in
  RFUtils.minClearance results'
  = Math_min (RFUtils.minClearance results)
      (Math_abs (RFUtils.clearanceAt txE rxE total
                   (RFUtils.requiredClearancePercent results) point))
  /\ RFUtils.requiredClearancePercent results'
     = RFUtils.requiredClearancePercent results
  /\ RFUtils.error results' = RFUtils.error results.
Proof.
  unfold RFUtils.clearanceStep, RFUtils.clearanceAt.
  destruct (RFUtils.requiredHeightAt txE rxE total
              (RFUtils.requiredClearancePercent results) point) as [req fr].
  cbn [fst].
  destruct (elevation point - req >? Fin 0); cbn; repeat split.
Qed.

Lemma fold_clearanceStep_minClearance (txE rxE total : num)
    (ps : list sample) :
  forall results,
    RFUtils.minClearance
      (fold_left (RFUtils.clearanceStep txE rxE total) ps results)
    = minAbsClearance txE rxE total (RFUtils.requiredClearancePercent results)
        (RFUtils.minClearance results) ps.
Proof.
  unfold minAbsClearance.
  induction ps as [| s ps IH]; intros results; cbn [fold_left]; [reflexivity|].
  destruct (clearanceStep_fields txE rxE total results s) as (E1 & E2 & _).
  rewrite IH, E1, E2. reflexivity.
Qed.

Lemma notNegative_abs (x : num) : notNegative (Math_abs x).
Proof.
  destruct x as [a | | |]; [right | right | right | left]; try reflexivity.
  cbn. apply Rleb_true, Rabs_pos.
Qed.

Lemma notNegative_min (x y : num) :
  notNegative x -> notNegative y -> notNegative (Math_min x y).
Proof.
  intros Hx Hy. unfold Math_min.
  destruct x as [a | | |]; destruct y as [b | | |];
    try (left; reflexivity);
    destruct Hx as [Hx | Hx]; destruct Hy as [Hy | Hy]; try discriminate;
    match goal with
    | |- notNegative (if ?c then _ else _) =>
        destruct c; right; assumption
    end.
Qed.

Lemma notNegative_minAbsClearance (txE rxE total pct : num) (ps : list sample) :
  forall m0, notNegative m0 ->
             notNegative (minAbsClearance txE rxE total pct m0 ps).
Proof.
  unfold minAbsClearance.
  induction ps as [| s ps IH]; intros m0 H0; cbn [fold_left]; [exact H0|].
  apply IH, notNegative_min; [exact H0 | apply notNegative_abs].
Qed.

Lemma notNegative_not_lt (x : num) : notNegative x -> (x <? Fin 0) = false.
Proof.
  intros [H | H]; [subst; reflexivity|].
  destruct x as [a | | |]; try discriminate; try reflexivity.
  cbn in *. apply Rleb_iff in H. apply Rltb_false. exact H.
Qed.

Lemma interior_short {A : Type} (p : list A) :
  (List.length p < 2)%nat -> interior p = [].
Proof.
  destruct p as [| a [| b p]]; cbn; intros H; try reflexivity. lia.
Qed.

(** The minimum-clearance field, for every profile. *)
Lemma minClearance_fold (p : list sample) (txHeight rxHeight totalDistance : num) :
  RFUtils.minClearance
    (RFUtils.analyzeFresnelClearance (Some p) txHeight rxHeight totalDistance)
  = minAbsClearance
      (elevation (nth 0 p undefined_sample) + txHeight)
      (elevation (last p undefined_sample) + rxHeight)
      totalDistance (RFUtils.getRequiredFresnelClearance totalDistance)
      PInf (interior p).
Proof.
  unfold RFUtils.analyzeFresnelClearance.
  destruct (Nat.ltb_spec (List.length p) 2) as [L | L].
  - rewrite (interior_short p L). reflexivity.
  - rewrite fold_clearanceStep_minClearance. reflexivity.
Qed.

Lemma ridge_requiredHeight (top : R) :
  RFUtils.requiredHeightAt (Fin 0 + Fin 10) (Fin 0 + Fin 10) (Fin 1)
    (RFUtils.getRequiredFresnelClearance (Fin 1))
    (mkSample (Fin 0) (Fin top) (Fin 0) (Fin 0))
  = (Fin 10, Fin 0).
Proof.
  unfold RFUtils.getRequiredFresnelClearance. cbn [nlt nadd].
  rewrite Rltb_true by lra.
  rewrite (requiredHeightAt_real _ _ 1 0.6 0) by (lra || reflexivity).
  assert (E : fresnelRadicand 1 0 = 0%R) by (unfold fresnelRadicand; lra).
  assert (B : bulge 1 0 = 0%R) by (unfold bulge; lra).
  rewrite E, B, sqrt_0, Rltb_false by lra.
  f_equal. f_equal. lra.
Qed.

(** The analysis of a ridge of height [top] under antennas at 10 m: the
    clearance at the ridge is [top - 10]. *)
Lemma ridge_analysis (top : R) :
  let r := RFUtils.analyzeFresnelClearance (Some (ridge top)) (Fin 10) (Fin 10)
             (Fin 1) in
  RFUtils.hasAdequateClearance r = negb (Rltb 0 (top - 10))
  /\ RFUtils.minClearance r = Fin (Rabs (top - 10)).
Proof.
  unfold RFUtils.analyzeFresnelClearance, ridge, interior.
  cbn [List.length Nat.ltb Nat.leb tl removelast fold_left nth last elevation].
  unfold RFUtils.clearanceStep.
  cbn [RFUtils.requiredClearancePercent RFUtils.minClearance
       RFUtils.hasAdequateClearance RFUtils.obstructions RFUtils.error].
  rewrite ridge_requiredHeight.
  cbn [elevation nsub nlt].
  destruct (Rltb 0 (top - 10)); cbn; split; reflexivity.
Qed.

(** C9 as stated fails: with a total distance of 0 (transmitter and receiver
    at the same place) the clearance of the interior sample is [NaN], and so
    is [minClearance]: it is not [>= 0]. *)
Lemma minClearance_NaN_at_zero_distance :
  let p := [ mkSample (Fin 0) (Fin 0) (Fin 0) (Fin 0);
             mkSample (Fin 0) (Fin 0) (Fin 0) (Fin 0);
             mkSample (Fin 0) (Fin 0) (Fin 0) (Fin 0) ] in
  let r := RFUtils.analyzeFresnelClearance (Some p) (Fin 10) (Fin 10) (Fin 0) in
  RFUtils.minClearance r = NaN
  /\ (Fin 0 <=? RFUtils.minClearance r) = false.
Proof.
  cbv zeta.
  assert (E : RFUtils.minClearance
                (RFUtils.analyzeFresnelClearance
                   (Some [ mkSample (Fin 0) (Fin 0) (Fin 0) (Fin 0);
                           mkSample (Fin 0) (Fin 0) (Fin 0) (Fin 0);
                           mkSample (Fin 0) (Fin 0) (Fin 0) (Fin 0) ])
                   (Fin 10) (Fin 10) (Fin 0)) = NaN).
  { rewrite minClearance_fold. unfold minAbsClearance, interior.
    cbn [tl removelast fold_left nth last elevation].
    unfold RFUtils.clearanceAt, RFUtils.requiredHeightAt.
    cbn [distance elevation].
    assert (D : Fin 0 / Fin 0 = NaN).
    { cbn [ndiv]. unfold inf_of_sign. rewrite !Reqb_true by reflexivity.
      reflexivity. }
    rewrite D.
    assert (L : forall x y : num, fst (x + y * NaN + RFUtils.calculateEarthCurvature (Fin 0) NaN
                     + RFUtils.calculateFresnelZoneRadius (Fin 0) (Fin 0 - Fin 0) (Fin 1)
                       * RFUtils.getRequiredFresnelClearance (Fin 0),
                     RFUtils.calculateFresnelZoneRadius (Fin 0) (Fin 0 - Fin 0) (Fin 1)) = NaN).
    { intros x y. cbn [fst].
      assert (N : x + y * NaN = NaN) by (destruct x, y; reflexivity).
      rewrite N. reflexivity. }
    rewrite L. reflexivity. }
  rewrite E. split; reflexivity.
Qed.

(** C9, as the code has it.  [minClearance] is the [Math.min] of the absolute
    clearances of the interior samples, starting from [Infinity]; it is never
    negative: [NaN] when a clearance is [NaN] and otherwise at least 0; and a
    ridge 1 m above the required height and one 1 m below it yield the same
    [minClearance], the first obstructed and the second clear. *)
Theorem minClearance_is_min_abs (p : list sample)
    (txHeight rxHeight totalDistance : num) :
  let r := RFUtils.analyzeFresnelClearance (Some p) txHeight rxHeight
             totalDistance in
  RFUtils.minClearance r
  = minAbsClearance
      (elevation (nth 0 p undefined_sample) + txHeight)
      (elevation (last p undefined_sample) + rxHeight)
      totalDistance (RFUtils.getRequiredFresnelClearance totalDistance)
      PInf (interior p)
  /\ (RFUtils.minClearance r <? Fin 0) = false
  /\ (RFUtils.minClearance r = NaN \/ (Fin 0 <=? RFUtils.minClearance r) = true)
  /\ (let above := RFUtils.analyzeFresnelClearance (Some (ridge 11)) (Fin 10)
                     (Fin 10) (Fin 1) in
      let below := RFUtils.analyzeFresnelClearance (Some (ridge 9)) (Fin 10)
                     (Fin 10) (Fin 1) in
      RFUtils.minClearance above = RFUtils.minClearance below
      /\ RFUtils.hasAdequateClearance above = false
      /\ RFUtils.hasAdequateClearance below = true).
Proof.
  cbv zeta.
  assert (N : notNegative
                (RFUtils.minClearance
                   (RFUtils.analyzeFresnelClearance (Some p) txHeight rxHeight
                      totalDistance))).
  { rewrite minClearance_fold. apply notNegative_minAbsClearance.
    right. reflexivity. }
  split; [apply minClearance_fold|].
  split; [apply notNegative_not_lt, N|].
  split; [exact N|].
  destruct (ridge_analysis 11) as (A1 & A2).
  destruct (ridge_analysis 9) as (B1 & B2).
  cbv zeta in A1, A2, B1, B2.
  rewrite A1, A2, B1, B2.
  rewrite Rltb_true by lra. rewrite Rltb_false by lra.
  repeat split. f_equal.
  rewrite Rabs_right by lra. rewrite Rabs_left by lra. lra.
Qed.

(** ** Profiles of fewer than two samples (C4) *)

(** C4 as stated fails on [RFCalculator.analyzeTerrainProfile]: a one-sample
    profile is not rejected, it is reported as an unobstructed path with full
    clearance, and the link budget built on it charges no terrain loss. *)
Lemma analyzeTerrainProfile_short_reports_clear :
  let t := RFCalculator.analyzeTerrainProfile
             [ mkSample (Fin 0) (Fin 100) (Fin 0) (Fin 0) ] (Fin 1000)
             RFCalculator.antennaHeight RFCalculator.antennaHeight in
  reportsClear t
  /\ RFCalculator.minClearance t = PInf
  /\ RFCalculator.obstructionLoss
       (RFCalculator.calculateLinkBudget (Fin 1) (Fin 1) (Fin 1000) t) = Fin 0
  /\ RFCalculator.fresnelLoss
       (RFCalculator.calculateLinkBudget (Fin 1) (Fin 1) (Fin 1000) t) = Fin 0.
Proof.
  unfold reportsClear, RFCalculator.analyzeTerrainProfile,
    RFCalculator.calculateLinkBudget.
  cbn [List.length Nat.ltb Nat.leb RFCalculator.clearance
       RFCalculator.obstruction RFCalculator.minClearance
       RFCalculator.obstructionLoss RFCalculator.fresnelLoss nlt].
  rewrite !Rltb_false by lra.
  repeat split.
Qed.

(** C4, as the code has it.  On a profile of fewer than two samples
    [RFUtils.analyzeFresnelClearance] returns the invalid result (no adequate
    clearance, the error 'Invalid path profile', no obstruction, minimum
    clearance [Infinity]); [RFCalculator.analyzeTerrainProfile] returns
    clearance 1, obstruction 0 and minimum clearance [Infinity]. *)
Theorem short_profile_results (p : list sample)
    (txHeight rxHeight totalDistance : num) :
  (List.length p < 2)%nat ->
  (let r := RFUtils.analyzeFresnelClearance (Some p) txHeight rxHeight
              totalDistance in
   RFUtils.hasAdequateClearance r = false
   /\ RFUtils.error r = Some "Invalid path profile"%string
   /\ RFUtils.obstructions r = []
   /\ RFUtils.minClearance r = PInf)
  /\ RFCalculator.analyzeTerrainProfile p totalDistance txHeight rxHeight
     = {| RFCalculator.clearance := Fin 1.0;
          RFCalculator.obstruction := Fin 0;
          RFCalculator.minClearance := PInf |}.
Proof.
  intros H. unfold RFUtils.analyzeFresnelClearance,
    RFCalculator.analyzeTerrainProfile.
  destruct (Nat.ltb_spec (List.length p) 2) as [_ | L]; [|lia].
  cbn. repeat split.
Qed.

Lemma short_profile_results_witness :
  let p := [ mkSample (Fin 0) (Fin 100) (Fin 0) (Fin 0) ] in
  (let r := RFUtils.analyzeFresnelClearance (Some p) (Fin 10) (Fin 10)
              (Fin 1) in
   RFUtils.hasAdequateClearance r = false
   /\ RFUtils.error r = Some "Invalid path profile"%string
   /\ RFUtils.obstructions r = []
   /\ RFUtils.minClearance r = PInf)
  /\ RFCalculator.analyzeTerrainProfile p (Fin 1) (Fin 10) (Fin 10)
     = {| RFCalculator.clearance := Fin 1.0;
          RFCalculator.obstruction := Fin 0;
          RFCalculator.minClearance := PInf |}.
Proof.
  apply (short_profile_results
           [ mkSample (Fin 0) (Fin 100) (Fin 0) (Fin 0) ]
           (Fin 10) (Fin 10) (Fin 1)).
  cbn. lia.
Defined.

(** A missing profile is rejected by [analyzeFresnelClearance] as well. *)
Lemma analyzeFresnelClearance_missing (txHeight rxHeight totalDistance : num) :
  let r := RFUtils.analyzeFresnelClearance None txHeight rxHeight
             totalDistance in
  RFUtils.hasAdequateClearance r = false
  /\ RFUtils.error r = Some "Invalid path profile"%string.
Proof. cbn. split; reflexivity. Qed.

(** ** Link quality of the serverless calculator (C10) *)

(** C10.  [calculateLinkBudget] grades the link 'good' exactly when the margin
    is at least 20, 'marginal' exactly when it is at least 10 and below 20,
    and 'poor' otherwise ([NaN] included); it never answers 'excellent', a
    key the map layer has a colour for. *)
Theorem calculateLinkBudget_quality (txPower rxPower distance : num)
    (terrainAnalysis : RFCalculator.terrain) :
  let b := RFCalculator.calculateLinkBudget txPower rxPower distance
             terrainAnalysis in
  let m := RFCalculator.linkMargin b in
  (RFCalculator.quality b = "good"%string <-> (m >=? Fin 20) = true)
  /\ (RFCalculator.quality b = "marginal"%string
      <-> (m >=? Fin 10) = true /\ (m <? Fin 20) = true)
  /\ (RFCalculator.quality b = "poor"%string
      <-> (m >=? Fin 20) = false
          /\ ((m >=? Fin 10) && (m <? Fin 20))%bool = false)
  /\ RFCalculator.quality b <> "excellent"%string
  /\ lookup "excellent" MapUI.colors = Some "#059669"%string.
Proof.
  cbv zeta. unfold RFCalculator.calculateLinkBudget.
  cbn [RFCalculator.quality RFCalculator.linkMargin].
  set (m := _ - RFCalculator.receiverSensitivity).
  assert (Hcmp : ((Fin 20 <=? m) = true
                  /\ (Fin 10 <=? m) = true /\ (m <? Fin 20) = false)
                 \/ ((Fin 20 <=? m) = false
                     /\ (Fin 10 <=? m) = true /\ (m <? Fin 20) = true)
                 \/ ((Fin 20 <=? m) = false /\ (Fin 10 <=? m) = false)).
  { destruct m as [a | | |]; cbn; try tauto.
    destruct (Rle_dec 20 a); [left | right].
    - rewrite !Rleb_true, Rltb_false by lra. tauto.
    - rewrite (Rleb_false 20 a) by lra.
      destruct (Rle_dec 10 a); [left | right].
      + rewrite Rleb_true, Rltb_true by lra. tauto.
      + rewrite Rleb_false by lra. tauto. }
  destruct Hcmp as [(E1 & E2 & E3) | [(E1 & E2 & E3) | (E1 & E2)]];
    rewrite E1, E2, ?E3; cbn [andb];
    repeat split; intros; try easy;
    try (destruct H; discriminate).
Qed.

(** ** Path interpolation between coincident points (C6) *)

Lemma angularDistance_coincident (a b : R) :
  ElevationService.angularDistance (Fin a) (Fin b) (Fin a) (Fin b) = Fin 0.
Proof.
  unfold ElevationService.angularDistance. cbn [nsub].
  rewrite !ndiv_fin by lra. cbn [Math_sin Math_cos nmul nadd].
  replace ((a - a) / 2)%R with 0%R by lra.
  replace ((b - b) / 2)%R with 0%R by lra.
  rewrite sin_0.
  replace (0 * 0 + cos a * cos a * 0 * 0)%R with 0%R by ring.
  cbn [Math_sqrt nsub]. rewrite !Rltb_false by lra.
  rewrite sqrt_0. replace (1 - 0)%R with 1%R by lra. rewrite sqrt_1.
  cbn [Math_atan2]. rewrite Rltb_true by lra. cbn [nmul].
  f_equal. replace (0 / 1)%R with 0%R by lra. rewrite atan_0. lra.
Qed.

(** With [c = 0] every sample strictly between the ends divides by
    [sin 0 = 0]: both of its coordinates are [NaN]. *)
Lemma pathPoint_coincident (start end_ : geo) (lat1 lon1 lat2 lon2 : num)
    (samples i : nat) :
  (0 < i)%nat -> (i < samples - 1)%nat ->
  ElevationService.pathPoint start end_ (Fin 0) lat1 lon1 lat2 lon2 samples i
  = {| g_lat := NaN; g_lng := NaN |}.
Proof.
  intros H0 H1. unfold ElevationService.pathPoint. cbn [nsub].
  assert (Hi : (0 < INR i)%R) by (apply lt_0_INR; exact H0).
  assert (Hn : (INR i < INR samples - 1)%R).
  { assert (Hs : (1 <= samples)%nat) by lia.
    apply lt_INR in H1. rewrite (minus_INR _ _ Hs) in H1.
    simpl INR in H1. exact H1. }
  rewrite ndiv_fin by lra.
  assert (Hf : (0 < INR i / (INR samples - 1) < 1)%R).
  { split.
    - apply Rdiv_lt_0_compat; lra.
    - apply (Rmult_lt_reg_r (INR samples - 1)); [lra|].
      unfold Rdiv. rewrite Rmult_assoc, Rinv_l by lra. lra. }
  set (f := (INR i / (INR samples - 1))%R) in *.
  cbn [neqb]. rewrite !Reqb_false by lra.
  cbn [nsub nmul Math_sin].
  replace ((1 - f) * 0)%R with 0%R by ring.
  replace (f * 0)%R with 0%R by ring.
  rewrite sin_0. cbn [ndiv]. unfold inf_of_sign.
  rewrite !Reqb_true by reflexivity.
  reflexivity.
Qed.

Lemma generatePathPoints_coincident_nth (la lo : R) (samples i : nat) :
  (0 < i)%nat -> (i < samples - 1)%nat ->
  nth i (ElevationService.generatePathPoints (mkGeo (Fin la) (Fin lo))
           (mkGeo (Fin la) (Fin lo)) samples)
    (mkGeo (Fin 0) (Fin 0))
  = {| g_lat := NaN; g_lng := NaN |}.
Proof.
  intros H0 H1. unfold ElevationService.generatePathPoints.
  cbn [g_lat g_lng nmul]. unfold Math_PI. cbn [nmul].
  rewrite !ndiv_fin by lra.
  rewrite angularDistance_coincident.
  set (pt := ElevationService.pathPoint _ _ _ _ _ _ _ samples).
  rewrite (nth_indep _ _ (pt 0%nat)) by (rewrite length_map, length_seq; lia).
  rewrite map_nth, seq_nth by lia. cbn [Nat.add].
  apply pathPoint_coincident; assumption.
Qed.

(** C6 fails on the code.  Three samples between a point and itself: the
    middle sample has [NaN] coordinates; only the two end samples are the
    start point. *)
Theorem generatePathPoints_coincident_NaN :
  ElevationService.generatePathPoints (mkGeo (Fin 45) (Fin (-122)))
    (mkGeo (Fin 45) (Fin (-122))) 3
  = [ mkGeo (Fin 45) (Fin (-122)); mkGeo NaN NaN; mkGeo (Fin 45) (Fin (-122)) ].
Proof.
  pose proof (generatePathPoints_coincident_nth 45 (-122) 3 1
                ltac:(lia) ltac:(cbn; lia)) as Hmid.
  unfold ElevationService.generatePathPoints in *.
  cbn [seq map nth] in *. rewrite Hmid.
  unfold ElevationService.pathPoint. simpl INR. cbn [nsub].
  rewrite !ndiv_fin by lra. cbn [neqb g_lat g_lng].
  rewrite (Reqb_true (0 / (1 + 1 + 1 - 1)) 0) by lra.
  rewrite (Reqb_false ((1 + 1) / (1 + 1 + 1 - 1)) 0) by lra.
  rewrite (Reqb_true ((1 + 1) / (1 + 1 + 1 - 1)) 1) by lra.
  reflexivity.
Qed.

(** With two samples only the end points are produced, and the claim holds. *)
Lemma generatePathPoints_coincident_two (s : geo) :
  ElevationService.generatePathPoints s s 2
  = [ mkGeo (g_lat s) (g_lng s); mkGeo (g_lat s) (g_lng s) ].
Proof.
  unfold ElevationService.generatePathPoints. cbn [seq map].
  unfold ElevationService.pathPoint. simpl INR. cbn [nsub].
  rewrite !ndiv_fin by lra. cbn [neqb].
  rewrite (Reqb_true (0 / (1 + 1 - 1)) 0) by lra.
  rewrite (Reqb_false (1 / (1 + 1 - 1)) 0) by lra.
  rewrite (Reqb_true (1 / (1 + 1 - 1)) 1) by lra.
  reflexivity.
Qed.

(** ** The coverage generators (C5, C8) *)

(** The body of [generateCoveragePolygon] declares [const maxRange], and
    [maxRange] is its fifth parameter. *)
Lemma generateCoveragePolygon_redeclares :
  flat_map redeclared Coverage.declarations = [ "maxRange"%string ]
  /\ flat_map redeclared CoverageEnhanced.declarations = [ "maxRange"%string ].
Proof. split; reflexivity. Qed.

(** Neither file can be evaluated. *)
Lemma coverage_files_do_not_load :
  Coverage.load
  = Throw (SyntaxError "Identifier 'maxRange' has already been declared")
  /\ CoverageEnhanced.load
     = Throw (SyntaxError "Identifier 'maxRange' has already been declared").
Proof. split; reflexivity. Qed.

(** So no call of a generator returns, whatever the request, the elevation
    service and the clock. *)
Lemma generateCoveragePolygon_throws
    (world : num -> num -> Coverage.fetch_outcome) (startTime : num)
    (now : nat -> num) (batchRejects : nat -> bool) (fuel : nat)
    (lat lng power resolution maxRange : num) :
  Coverage.generateCoveragePolygon world fuel lat lng power resolution
    maxRange
  = Throw (SyntaxError "Identifier 'maxRange' has already been declared")
  /\ CoverageEnhanced.generateCoveragePolygon world startTime now
       batchRejects fuel lat lng power resolution maxRange
     = Throw (SyntaxError "Identifier 'maxRange' has already been declared").
Proof.
  unfold Coverage.generateCoveragePolygon,
    CoverageEnhanced.generateCoveragePolygon.
  destruct coverage_files_do_not_load as [-> ->]. split; reflexivity.
Qed.

(** C5, on the code.  The request of a 1 W transmitter at 45, -122 with a
    resolution of 15 degrees and a maximal range of 30 km is valid, and it
    gets no polygon from either generator: evaluating the file raises the
    SyntaxError of the redeclared parameter, whatever the elevation service
    answers and however long the run is allowed to be. *)
Theorem coverage_1W_returns_no_polygon
    (world : num -> num -> Coverage.fetch_outcome) (startTime : num)
    (now : nat -> num) (batchRejects : nat -> bool) (fuel : nat) :
  Coverage.validRequest (Fin 45) (Fin (-122)) (Fin 1) (Fin 15) = true
  /\ (forall c,
        Coverage.generateCoveragePolygon world fuel (Fin 45) (Fin (-122))
          (Fin 1) (Fin 15) (Fin 30) <> Return (Some c))
  /\ (forall c,
        CoverageEnhanced.generateCoveragePolygon world startTime now
          batchRejects fuel (Fin 45) (Fin (-122)) (Fin 1) (Fin 15) (Fin 30)
        <> Return (Some c))
  /\ Coverage.generateCoveragePolygon world fuel (Fin 45) (Fin (-122))
       (Fin 1) (Fin 15) (Fin 30)
     = Throw (SyntaxError "Identifier 'maxRange' has already been declared").
Proof.
  destruct (generateCoveragePolygon_throws world startTime now batchRejects
              fuel (Fin 45) (Fin (-122)) (Fin 1) (Fin 15) (Fin 30))
    as [Eb Ee].
  split.
  - unfold Coverage.validRequest. cbn [isNaN orb negb andb Math_abs nlt].
    rewrite (Rltb_false 90 (Rabs 45))
      by (rewrite Rabs_pos_eq by lra; lra).
    rewrite (Rltb_false 180 (Rabs (-122)))
      by (rewrite Rabs_left by lra; lra).
    rcmp. reflexivity.
  - split; [intros c; rewrite Eb; discriminate|].
    split; [intros c; rewrite Ee; discriminate | exact Eb].
Qed.

(** C8, on the code.  At a resolution of 15 degrees and at one of 10
    degrees, for every position, power and maximal range, neither generator
    reaches its first statement: the call raises the SyntaxError of the
    redeclared parameter, so that no bearing is generated and none is
    marched. *)
Theorem resolution_marches_no_bearing
    (world : num -> num -> Coverage.fetch_outcome) (startTime : num)
    (now : nat -> num) (batchRejects : nat -> bool) (fuel : nat)
    (lat lng power maxRange : num) :
  (Coverage.generateCoveragePolygon world fuel lat lng power (Fin 15)
     maxRange
   = Throw (SyntaxError "Identifier 'maxRange' has already been declared")
   /\ Coverage.generateCoveragePolygon world fuel lat lng power (Fin 10)
        maxRange
      = Throw (SyntaxError "Identifier 'maxRange' has already been declared"))
  /\ (CoverageEnhanced.generateCoveragePolygon world startTime now
        batchRejects fuel lat lng power (Fin 15) maxRange
      = Throw (SyntaxError "Identifier 'maxRange' has already been declared")
      /\ CoverageEnhanced.generateCoveragePolygon world startTime now
           batchRejects fuel lat lng power (Fin 10) maxRange
         = Throw
             (SyntaxError "Identifier 'maxRange' has already been declared")).
Proof.
  destruct (generateCoveragePolygon_throws world startTime now batchRejects
              fuel lat lng power (Fin 15) maxRange) as [B15 E15].
  destruct (generateCoveragePolygon_throws world startTime now batchRejects
              fuel lat lng power (Fin 10) maxRange) as [B10 E10].
  repeat split; assumption.
Qed.

(** ** Slices *)

Lemma slice_length {A : Type} (xs : list A) (i k : nat) :
  List.length (slice xs i (i + k)) = Nat.min k (List.length xs - i).
Proof.
  unfold slice. rewrite length_firstn, length_skipn.
  replace (i + k - i)%nat with k by lia. reflexivity.
Qed.

(** * Further properties of the RF core *)

(** ** Power conversions *)

Lemma ln_1000 : ln 1000 = (3 * ln 10)%R.
Proof.
  replace 1000%R with (10 * (10 * 10))%R by lra.
  rewrite !ln_mult by lra. lra.
Qed.

Lemma wattsToDbm_real (w : R) :
  (0 < w)%R ->
  RFUtils.wattsToDbm (Fin w) = Fin (10 * (ln (w * 1000) / ln 10)).
Proof.
  intros Hw. unfold RFUtils.wattsToDbm. cbn [nmul].
  rewrite Math_log10_pos by lra. reflexivity.
Qed.

Lemma dbmToWatts_real (d : R) :
  RFUtils.dbmToWatts (Fin d) = Fin (Rpower 10 ((d - 30) / 10)).
Proof.
  unfold RFUtils.dbmToWatts. cbn [nsub]. rewrite ndiv_fin by lra. reflexivity.
Qed.

(** X1.  On powers from 1 mW to 1 kW [dbmToWatts] undoes [wattsToDbm], and
    on levels from -90 dBm to 90 dBm [wattsToDbm] undoes [dbmToWatts], both
    to within 1e-6; 0 W goes to [-Infinity] dBm and back. *)
Theorem watts_dbm_round_trip (w d : R) :
  (0.001 <= w <= 1000)%R -> (-90 <= d <= 90)%R ->
  (exists w',
      RFUtils.dbmToWatts (RFUtils.wattsToDbm (Fin w)) = Fin w'
      /\ (Rabs (w' - w) <= 1 / 1000000)%R)
  /\ (exists d',
         RFUtils.wattsToDbm (RFUtils.dbmToWatts (Fin d)) = Fin d'
         /\ (Rabs (d' - d) <= 1 / 1000000)%R)
  /\ RFUtils.wattsToDbm (Fin 0) = NInf
  /\ RFUtils.dbmToWatts NInf = Fin 0.
Proof.
  intros Hw Hd. pose proof ln_10_pos as H10.
  assert (Hzero : forall x : R, (Rabs (x - x) <= 1 / 1000000)%R).
  { intros x. replace (x - x)%R with 0%R by ring. rewrite Rabs_R0. lra. }
  split; [|split; [|split]].
  - exists w. split; [|apply Hzero].
    rewrite wattsToDbm_real, dbmToWatts_real by lra. f_equal.
    unfold Rpower.
    replace ((10 * (ln (w * 1000) / ln 10) - 30) / 10 * ln 10)%R
      with (ln (w * 1000) - 3 * ln 10)%R by (field; lra).
    rewrite ln_mult, ln_1000 by lra.
    replace (ln w + 3 * ln 10 - 3 * ln 10)%R with (ln w) by lra.
    apply exp_ln. lra.
  - exists d. split; [|apply Hzero].
    rewrite dbmToWatts_real.
    assert (Hp : (0 < Rpower 10 ((d - 30) / 10))%R)
      by (unfold Rpower; apply exp_pos).
    rewrite wattsToDbm_real by exact Hp. f_equal.
    rewrite ln_mult, ln_1000 by lra.
    unfold Rpower. rewrite ln_exp. field. lra.
  - unfold RFUtils.wattsToDbm. cbn [nmul].
    replace (0 * 1000)%R with 0%R by lra. rewrite Math_log10_zero.
    cbn [nmul]. unfold inf_of_sign. rcmp. reflexivity.
  - unfold RFUtils.dbmToWatts. cbn [nsub ndiv]. rcmp. reflexivity.
Qed.

Lemma watts_dbm_round_trip_witness :
  (exists w',
      RFUtils.dbmToWatts (RFUtils.wattsToDbm (Fin 0.15)) = Fin w'
      /\ (Rabs (w' - 0.15) <= 1 / 1000000)%R)
  /\ (exists d',
         RFUtils.wattsToDbm (RFUtils.dbmToWatts (Fin 30)) = Fin d'
         /\ (Rabs (d' - 30) <= 1 / 1000000)%R)
  /\ RFUtils.wattsToDbm (Fin 0) = NInf
  /\ RFUtils.dbmToWatts NInf = Fin 0.
Proof. apply (watts_dbm_round_trip 0.15 30); lra. Defined.

(** A negative power has no level: [wattsToDbm] answers [NaN]. *)
Lemma wattsToDbm_negative (w : R) :
  (w < 0)%R -> RFUtils.wattsToDbm (Fin w) = NaN.
Proof.
  intros Hw. unfold RFUtils.wattsToDbm. cbn [nmul].
  rewrite Math_log10_neg by lra. reflexivity.
Qed.

(** ** Spreading factor *)

(** The environment factor is one of the three of the table, or the default
    0.8, or [NaN] for a name inherited from [Object.prototype]. *)
Lemma environment_factor (environment : string) :
  lookupOr environment RFUtils.environmentFactors (Fin 0.8) = NaN
  \/ exists f,
       lookupOr environment RFUtils.environmentFactors (Fin 0.8) = Fin f
       /\ (0 < f)%R.
Proof.
  unfold lookupOr, RFUtils.environmentFactors. cbn [lookup].
  destruct (String.eqb "rural" environment).
  { right. unfold nor_default, truthy. rcmp. cbn [negb].
    eexists; split; [reflexivity | lra]. }
  destruct (String.eqb "suburban" environment).
  { right. unfold nor_default, truthy. rcmp. cbn [negb].
    eexists; split; [reflexivity | lra]. }
  destruct (String.eqb "urban" environment).
  { right. unfold nor_default, truthy. rcmp. cbn [negb].
    eexists; split; [reflexivity | lra]. }
  destruct (inherited environment); [left; reflexivity|].
  right. eexists; split; [reflexivity | lra].
Qed.

(** The spreading factor chosen for an effective distance. *)
Lemma getOptimalSpreadingFactor_cases (distance : num) (environment : string) :
  In (RFUtils.getOptimalSpreadingFactor distance environment)
    [ "SF7"; "SF8"; "SF9"; "SF10"; "SF11"; "SF12" ]%string.
Proof.
  unfold RFUtils.getOptimalSpreadingFactor.
  repeat match goal with
         | |- context [if ?c then _ else _] =>
             match c with
             | nle _ _ => destruct c; [cbn; tauto|]
             end
         end.
  cbn. tauto.
Qed.

(** X2.  Whatever the distance (any number) and the environment (any name),
    the spreading factor chosen is a key of the sensitivity table: the
    receiver sensitivity looked up for it is defined, between -137 and
    -123 dBm. *)
Theorem getOptimalSpreadingFactor_has_sensitivity (distance : num)
    (environment : string) :
  exists s,
    lookup (RFUtils.getOptimalSpreadingFactor distance environment)
      RFUtils.sensitivity = Some (Fin s)
    /\ (-137 <= s <= -123)%R.
Proof.
  pose proof (getOptimalSpreadingFactor_cases distance environment) as H.
  cbn [In] in H.
  repeat (destruct H as [<- | H]);
    try (cbn; eexists; split; [reflexivity | lra]).
  contradiction.
Qed.

(** X3.  In one environment a longer path never gets a less sensitive
    setting: the sensitivity chosen for [d2 >= d1] is at most that for
    [d1]. *)
Theorem getOptimalSpreadingFactor_monotone (d1 d2 : R) (environment : string) :
  (d1 <= d2)%R ->
  exists s1 s2,
    lookup (RFUtils.getOptimalSpreadingFactor (Fin d1) environment)
      RFUtils.sensitivity = Some (Fin s1)
    /\ lookup (RFUtils.getOptimalSpreadingFactor (Fin d2) environment)
         RFUtils.sensitivity = Some (Fin s2)
    /\ (s2 <= s1)%R.
Proof.
  intros Hd. unfold RFUtils.getOptimalSpreadingFactor.
  destruct (environment_factor environment) as [-> | (f & -> & Hf)].
  { cbn. do 2 eexists. split; [reflexivity | split; [reflexivity | lra]]. }
  rewrite !ndiv_fin by lra. cbn [nle].
  assert (Hx : (d1 / f <= d2 / f)%R).
  { unfold Rdiv. apply Rmult_le_compat_r; [|exact Hd].
    apply Rlt_le, Rinv_0_lt_compat, Hf. }
  set (x1 := (d1 / f)%R) in *. set (x2 := (d2 / f)%R) in *.
  repeat match goal with
         | |- context [Rleb ?a ?b] =>
             destruct (Rle_dec a b);
             [ rewrite (Rleb_true a b) by assumption
             | rewrite (Rleb_false a b) by lra ]
         end;
    cbn; do 2 eexists; (split; [reflexivity | split; [reflexivity | lra]]).
Qed.

Lemma getOptimalSpreadingFactor_monotone_witness :
  exists s1 s2,
    lookup (RFUtils.getOptimalSpreadingFactor (Fin 3) "rural")
      RFUtils.sensitivity = Some (Fin s1)
    /\ lookup (RFUtils.getOptimalSpreadingFactor (Fin 12) "rural")
         RFUtils.sensitivity = Some (Fin s2)
    /\ (s2 <= s1)%R.
Proof. apply (getOptimalSpreadingFactor_monotone 3 12 "rural"). lra. Defined.

(** A name that is neither in the table nor inherited counts as 'suburban';
    an inherited name gives 'SF12' at every distance. *)
Lemma getOptimalSpreadingFactor_unknown (distance : num) (environment : string) :
  lookup environment RFUtils.environmentFactors = None ->
  RFUtils.getOptimalSpreadingFactor distance environment
  = if inherited environment then "SF12"%string
    else RFUtils.getOptimalSpreadingFactor distance "suburban".
Proof.
  intros H. unfold RFUtils.getOptimalSpreadingFactor, lookupOr. rewrite H.
  destruct (inherited environment).
  - destruct distance; reflexivity.
  - cbn [lookup RFUtils.environmentFactors String.eqb Ascii.eqb Bool.eqb].
    unfold nor_default, truthy. rcmp. reflexivity.
Qed.

(** ** Fresnel zone, Earth bulge and free-space loss *)

Lemma fresnelZoneRadius_real (d1 d2 : R) :
  (0 <= d1)%R -> (0 <= d2)%R -> (0 < d1 + d2)%R ->
  RFUtils.calculateFresnelZoneRadius (Fin d1) (Fin d2) (Fin 1)
  = Fin (sqrt (299792458 / 915e6 * 1000 * (d1 * d2) / (d1 + d2))).
Proof.
  intros H1 H2 H12. unfold RFUtils.calculateFresnelZoneRadius.
  rewrite wavelength_value. cbn [nmul nadd].
  rewrite ndiv_fin by lra. cbn [Math_sqrt].
  replace (1 * (299792458 / 915e6) * (d1 * 1000) * (d2 * 1000)
           / (d1 * 1000 + d2 * 1000))%R
    with (299792458 / 915e6 * 1000 * (d1 * d2) / (d1 + d2))%R
    by (field; lra).
  rewrite Rltb_false; [reflexivity|].
  apply Rmult_le_pos; [|apply Rlt_le, Rinv_0_lt_compat; lra].
  apply Rmult_le_pos; [lra | apply Rmult_le_pos; lra].
Qed.

(** Where the two ends coincide the radius is [NaN] (the radicand is 0/0). *)
Lemma calculateFresnelZoneRadius_no_path (n : num) :
  RFUtils.calculateFresnelZoneRadius (Fin 0) (Fin 0) n = NaN.
Proof.
  unfold RFUtils.calculateFresnelZoneRadius. rewrite wavelength_value.
  cbn [nmul nadd].
  replace (0 * 1000 + 0 * 1000)%R with 0%R by lra.
  destruct n as [x | | |]; cbn [nmul ndiv]; unfold inf_of_sign;
    repeat (rcmp; cbn [nmul ndiv Math_sqrt]; unfold inf_of_sign);
    reflexivity.
Qed.

(** X4.  For two distances of at most 10^6 km, not both 0, the first
    Fresnel radius is a real number, never negative, and 0 where one of the
    distances is 0.  From 1 m on it is the same seen from either end, and
    nowhere larger than at the middle of the path, to within one part in
    10^9.  Where both distances are 0 it is [NaN]. *)
Theorem calculateFresnelZoneRadius_shape (d1 d2 : R) :
  (0 <= d1 <= 1000000)%R -> (0 <= d2 <= 1000000)%R -> (0 < d1 + d2)%R ->
  (exists r r' rmid,
      RFUtils.calculateFresnelZoneRadius (Fin d1) (Fin d2) (Fin 1) = Fin r
      /\ RFUtils.calculateFresnelZoneRadius (Fin d2) (Fin d1) (Fin 1) = Fin r'
      /\ RFUtils.calculateFresnelZoneRadius (Fin ((d1 + d2) / 2))
           (Fin ((d1 + d2) / 2)) (Fin 1) = Fin rmid
      /\ (0 <= r)%R
      /\ (d1 = 0%R \/ d2 = 0%R -> r = 0%R)
      /\ ((0.001 <= d1)%R -> (0.001 <= d2)%R ->
          (Rabs (r' - r) <= r / 1000000000
           /\ r <= rmid * (1 + 1 / 1000000000))%R))
  /\ RFUtils.calculateFresnelZoneRadius (Fin 0) (Fin 0) (Fin 1) = NaN.
Proof.
  intros H1 H2 H12. split; [|apply calculateFresnelZoneRadius_no_path].
  rewrite (fresnelZoneRadius_real d1 d2), (fresnelZoneRadius_real d2 d1),
    (fresnelZoneRadius_real ((d1 + d2) / 2) ((d1 + d2) / 2)) by lra.
  pose proof wavelength_bounds as Hw.
  set (lam := (299792458 / 915e6)%R) in *.
  set (D := (d1 + d2)%R) in *.
  assert (Hinv : (0 < / D)%R) by (apply Rinv_0_lt_compat; exact H12).
  assert (Hq : (0 <= lam * 1000 * (d1 * d2) / D)%R).
  { apply Rmult_le_pos; [|lra].
    apply Rmult_le_pos; [lra | apply Rmult_le_pos; lra]. }
  assert (Esym : (lam * 1000 * (d2 * d1) / (d2 + d1)
                  = lam * 1000 * (d1 * d2) / D)%R)
    by (unfold D in *; field; lra).
  rewrite Esym.
  do 3 eexists. do 3 (split; [reflexivity|]).
  split; [apply sqrt_pos|].
  split.
  - intros [-> | ->].
    + replace (lam * 1000 * (0 * d2) / D)%R with 0%R by (unfold Rdiv; ring).
      apply sqrt_0.
    + replace (lam * 1000 * (d1 * 0) / D)%R with 0%R by (unfold Rdiv; ring).
      apply sqrt_0.
  - intros _ _.
    set (r := sqrt (lam * 1000 * (d1 * d2) / D)).
    assert (Hr : (0 <= r)%R) by apply sqrt_pos.
    split.
    + replace (r - r)%R with 0%R by ring. rewrite Rabs_R0. lra.
    + assert (Hmid : (r <= sqrt (lam * 1000 * (D / 2 * (D / 2))
                                 / (D / 2 + D / 2)))%R).
      { apply sqrt_le_1_alt.
        replace (D / 2 + D / 2)%R with D by lra.
        unfold Rdiv. apply Rmult_le_compat_r; [lra|].
        apply Rmult_le_compat_l; [lra|].
        pose proof (Rle_0_sqr (d1 - d2)) as Hsq. unfold Rsqr in Hsq.
        unfold D. lra. }
      set (rmid := sqrt _) in *. lra.
Qed.

Lemma calculateFresnelZoneRadius_shape_witness :
  (exists r r' rmid,
      RFUtils.calculateFresnelZoneRadius (Fin 2) (Fin 8) (Fin 1) = Fin r
      /\ RFUtils.calculateFresnelZoneRadius (Fin 8) (Fin 2) (Fin 1) = Fin r'
      /\ RFUtils.calculateFresnelZoneRadius (Fin ((2 + 8) / 2))
           (Fin ((2 + 8) / 2)) (Fin 1) = Fin rmid
      /\ (0 <= r)%R
      /\ (2%R = 0%R \/ 8%R = 0%R -> r = 0%R)
      /\ ((0.001 <= 2)%R -> (0.001 <= 8)%R ->
          (Rabs (r' - r) <= r / 1000000000
           /\ r <= rmid * (1 + 1 / 1000000000))%R))
  /\ RFUtils.calculateFresnelZoneRadius (Fin 0) (Fin 0) (Fin 1) = NaN.
Proof. apply (calculateFresnelZoneRadius_shape 2 8); lra. Defined.

(** X5.  The Earth bulge over a path of 1 m to 10^6 km, at a fraction
    between 0 and 1 of the path, is a real number, never negative; it is 0 at
    both ends.  At the middle it is [(1000 d)^2 / (8 Re)], and nowhere is it
    larger than at the middle, both to within one part in 10^9. *)
Theorem calculateEarthCurvature_shape (d f : R) :
  (0.001 <= d <= 1000000)%R -> (0 <= f <= 1)%R ->
  exists h hmid,
    RFUtils.calculateEarthCurvature (Fin d) (Fin f) = Fin h
    /\ RFUtils.calculateEarthCurvature (Fin d) (Fin 0.5) = Fin hmid
    /\ RFUtils.calculateEarthCurvature (Fin d) (Fin 0) = Fin 0
    /\ RFUtils.calculateEarthCurvature (Fin d) (Fin 1) = Fin 0
    /\ (0 <= h <= hmid * (1 + 1 / 1000000000))%R
    /\ (Rabs (hmid - d * 1000 * (d * 1000) / (8 * 6371000))
        <= hmid / 1000000000)%R.
Proof.
  intros Hd Hf. rewrite !calculateEarthCurvature_real.
  do 2 eexists. do 2 (split; [reflexivity|]).
  do 2 (split; [apply f_equal; field|]).
  assert (Hdd : (0 <= d * d)%R) by apply Rle_0_sqr.
  assert (Hp : (0 <= f * (1 - f))%R) by (apply Rmult_le_pos; lra).
  assert (Hm : (f * (1 - f) <= 1 / 4)%R).
  { pose proof (Rle_0_sqr (f - 1 / 2)) as Hsq. unfold Rsqr in Hsq. lra. }
  assert (H1 : (0 <= d * d * (f * (1 - f)))%R) by (apply Rmult_le_pos; lra).
  assert (H2 : (d * d * (f * (1 - f)) <= d * d * (1 / 4))%R)
    by (apply Rmult_le_compat_l; lra).
  split; [lra|].
  replace (d * 1000 * 0.5 * (d * 1000 * (1 - 0.5)) / (2 * 6371000)
           - d * 1000 * (d * 1000) / (8 * 6371000))%R with 0%R by lra.
  rewrite Rabs_R0. lra.
Qed.

Lemma calculateEarthCurvature_shape_witness :
  exists h hmid,
    RFUtils.calculateEarthCurvature (Fin 20) (Fin 0.25) = Fin h
    /\ RFUtils.calculateEarthCurvature (Fin 20) (Fin 0.5) = Fin hmid
    /\ RFUtils.calculateEarthCurvature (Fin 20) (Fin 0) = Fin 0
    /\ RFUtils.calculateEarthCurvature (Fin 20) (Fin 1) = Fin 0
    /\ (0 <= h <= hmid * (1 + 1 / 1000000000))%R
    /\ (Rabs (hmid - 20 * 1000 * (20 * 1000) / (8 * 6371000))
        <= hmid / 1000000000)%R.
Proof. apply (calculateEarthCurvature_shape 20 0.25); lra. Defined.

Lemma calculateFSPL_real (d f : R) :
  (0 < d)%R -> (0 < f)%R ->
  RFUtils.calculateFSPL (Fin d) (Fin f)
  = Return (Fin (20 * (ln d / ln 10) + 20 * (ln (f / 1e6) / ln 10) + 32.44)).
Proof.
  intros Hd Hf. unfold RFUtils.calculateFSPL.
  rewrite ndiv_fin by lra.
  rewrite !Math_log10_pos; [reflexivity | | exact Hd].
  apply Rdiv_lt_0_compat; lra.
Qed.

(** Between 0.3 and 1/3: [2^10 > 10^3] and [2^3 < 10]. *)
Lemma log10_2_bounds : (3 / 10 <= ln 2 / ln 10 <= 1 / 3)%R.
Proof.
  pose proof ln_10_pos as H10.
  assert (H8 : (3 * ln 2 = ln 8)%R).
  { replace 8%R with (2 * (2 * 2))%R by lra. rewrite !ln_mult by lra. lra. }
  assert (H1024 : (10 * ln 2 = ln 1024)%R).
  { replace 1024%R with (2 * (2 * (2 * (2 * (2 * (2 * (2 * (2 * (2 * 2)))))))))%R
      by lra.
    rewrite !ln_mult by lra. lra. }
  assert (Hlo : (ln 1000 < ln 1024)%R) by (apply ln_increasing; lra).
  assert (Hhi : (ln 8 < ln 10)%R) by (apply ln_increasing; lra).
  rewrite ln_1000 in Hlo.
  assert (E : (ln 2 / ln 10 * ln 10 = ln 2)%R) by (field; lra).
  split; apply (Rmult_le_reg_r (ln 10)); try exact H10; rewrite E; lra.
Qed.

(** A factor of 2 or more adds 0.3 or more to the decimal logarithm. *)
Lemma log10_double (a b : R) :
  (0 < a)%R -> (2 * a <= b)%R ->
  (ln a / ln 10 + 3 / 10 <= ln b / ln 10)%R.
Proof.
  intros Ha Hab. pose proof ln_10_pos as H10.
  pose proof log10_2_bounds as [H2 _].
  assert (Hln : (ln (2 * a) <= ln b)%R).
  { destruct Hab as [Hlt | <-]; [|lra].
    apply Rlt_le, ln_increasing; lra. }
  rewrite ln_mult in Hln by lra.
  assert (Hdiv : ((ln 2 + ln a) / ln 10 <= ln b / ln 10)%R).
  { unfold Rdiv. apply Rmult_le_compat_r; [|exact Hln].
    apply Rlt_le, Rinv_0_lt_compat, H10. }
  replace ((ln 2 + ln a) / ln 10)%R with (ln 2 / ln 10 + ln a / ln 10)%R
    in Hdiv by (field; lra).
  lra.
Qed.

(** X6.  On distances from 1 m to 10^5 km and frequencies from 1 MHz to
    100 GHz the free-space loss is a real number; a distance twice as long or
    longer adds at least 6 dB, a frequency twice as high or higher adds at
    least 6 dB, and doubling the distance adds between 6 and 7 dB. *)
Theorem calculateFSPL_doubling (d1 d2 f1 f2 : R) :
  (0.001 <= d1)%R -> (2 * d1 <= d2)%R -> (d2 <= 100000)%R ->
  (1000000 <= f1)%R -> (2 * f1 <= f2)%R -> (f2 <= 100000000000)%R ->
  exists a b c e,
    RFUtils.calculateFSPL (Fin d1) (Fin f1) = Return (Fin a)
    /\ RFUtils.calculateFSPL (Fin d2) (Fin f1) = Return (Fin b)
    /\ RFUtils.calculateFSPL (Fin d1) (Fin f2) = Return (Fin c)
    /\ RFUtils.calculateFSPL (Fin (2 * d1)) (Fin f1) = Return (Fin e)
    /\ (a + 6 <= b)%R /\ (a + 6 <= c)%R
    /\ (a + 6 <= e <= a + 7)%R.
Proof.
  intros Hd1 Hd Hd2 Hf1 Hf Hf2.
  rewrite !calculateFSPL_real by lra.
  do 4 eexists. do 4 (split; [reflexivity|]).
  assert (Hd1' : (0 < d1)%R) by lra.
  pose proof (log10_double d1 d2 Hd1' Hd) as H1.
  assert (H2 : (ln (f1 / 1e6) / ln 10 + 3 / 10 <= ln (f2 / 1e6) / ln 10)%R).
  { apply log10_double; [apply Rdiv_lt_0_compat; lra | lra]. }
  split; [lra|]. split; [lra|].
  pose proof log10_2_bounds as [Hlo Hhi]. pose proof ln_10_pos as H10.
  rewrite ln_mult by lra.
  replace ((ln 2 + ln d1) / ln 10)%R with (ln 2 / ln 10 + ln d1 / ln 10)%R
    by (field; lra).
  lra.
Qed.

Lemma calculateFSPL_doubling_witness :
  exists a b c e,
    RFUtils.calculateFSPL (Fin 1) (Fin 433e6) = Return (Fin a)
    /\ RFUtils.calculateFSPL (Fin 5) (Fin 433e6) = Return (Fin b)
    /\ RFUtils.calculateFSPL (Fin 1) (Fin 915e6) = Return (Fin c)
    /\ RFUtils.calculateFSPL (Fin (2 * 1)) (Fin 433e6) = Return (Fin e)
    /\ (a + 6 <= b)%R /\ (a + 6 <= c)%R
    /\ (a + 6 <= e <= a + 7)%R.
Proof. apply (calculateFSPL_doubling 1 5 433e6 915e6); lra. Defined.

(** ** Knife-edge loss and the sign of the obstacle height *)

(** X7.  For an obstacle of height [h] (100 km at most, above or below the
    direct path) between two ends at 1 m to 10^4 km, the Fresnel parameter
    [v] is a real number that is not negative when [h] is not, and not
    positive when [h] is not.  The returned loss is 0 dB for [v <= -2.5] and
    for [-0.8 <= v <= 7.24], so for every obstacle that reaches the direct
    path or rises above it up to [v = 7.24]; it is a positive number of dB
    for [-2.3 <= v <= -1]. *)
Theorem calculateKnifeEdgeLoss_bands (h d1 d2 : R) :
  (0.001 <= d1 <= 10000)%R -> (0.001 <= d2 <= 10000)%R ->
  (-100000 <= h <= 100000)%R ->
  exists v,
    RFUtils.fresnelParameter (Fin h) (Fin d1) (Fin d2) = Fin v
    /\ ((0 <= h)%R -> (0 <= v)%R)
    /\ ((h <= 0)%R -> (v <= 0)%R)
    /\ ((v <= -2.5)%R \/ (-0.8 <= v <= 7.24)%R ->
        RFUtils.calculateKnifeEdgeLoss (Fin h) (Fin d1) (Fin d2) = Fin 0)
    /\ ((-2.3 <= v <= -1)%R ->
        exists r,
          RFUtils.calculateKnifeEdgeLoss (Fin h) (Fin d1) (Fin d2) = Fin r
          /\ (0 < r)%R).
Proof.
  intros H1 H2 Hh.
  assert (H1' : (0 < d1)%R) by lra. assert (H2' : (0 < d2)%R) by lra.
  pose proof (fresnelParameter_real h d1 d2 H1' H2') as Hv.
  pose proof wavelength_bounds as Hw.
  set (s := sqrt _) in Hv.
  assert (Hs : (0 < s)%R).
  { unfold s. apply sqrt_lt_R0. apply Rdiv_lt_0_compat; [lra|].
    apply Rmult_lt_0_compat; [apply Rmult_lt_0_compat|]; lra. }
  exists (h * s)%R. split; [exact Hv|].
  split; [intros H; apply Rmult_le_pos; lra|].
  split; [intros H; nra|].
  set (v := (h * s)%R) in *.
  pose proof ln_10_pos as H10.
  pose proof (Rinv_0_lt_compat _ H10) as Hi.
  split.
  - intros [L | [L U]].
    + unfold RFUtils.calculateKnifeEdgeLoss. rewrite Hv. cbn [nle].
      rewrite Rleb_true by lra. cbn [Math_max nlt]. rcmp. reflexivity.
    + destruct (Rle_dec 0 v) as [Hpos | Hneg].
      { apply (calculateKnifeEdgeLoss_zero _ _ _ v Hv). lra. }
      unfold RFUtils.calculateKnifeEdgeLoss. rewrite Hv. cbn [nle].
      rewrite Rleb_false by lra. rewrite Rleb_true by lra.
      cbn [nmul nsub]. rewrite Math_log10_pos by lra.
      cbn [nmul Math_max nlt].
      assert (Hln : (ln (0.5 - 0.62 * v) < 0)%R)
        by (rewrite <- ln_1; apply ln_increasing; lra).
      assert (Hq : (ln (0.5 - 0.62 * v) / ln 10 < 0)%R)
        by (unfold Rdiv; nra).
      rewrite Rltb_false by lra. reflexivity.
  - intros [L U].
    unfold RFUtils.calculateKnifeEdgeLoss. rewrite Hv. cbn [nle].
    rewrite Rleb_false by lra. rewrite Rleb_true by lra.
    cbn [nmul nsub]. rewrite Math_log10_pos by lra.
    cbn [nmul Math_max nlt].
    assert (Hln : (0 < ln (0.5 - 0.62 * v))%R)
      by (rewrite <- ln_1; apply ln_increasing; lra).
    assert (Hq : (0 < ln (0.5 - 0.62 * v) / ln 10)%R)
      by (apply Rdiv_lt_0_compat; assumption).
    rewrite Rltb_true by lra.
    eexists. split; [reflexivity | lra].
Qed.

Lemma calculateKnifeEdgeLoss_bands_witness :
  exists v,
    RFUtils.fresnelParameter (Fin (-15)) (Fin 1) (Fin 1) = Fin v
    /\ ((0 <= -15)%R -> (0 <= v)%R)
    /\ ((-15 <= 0)%R -> (v <= 0)%R)
    /\ ((v <= -2.5)%R \/ (-0.8 <= v <= 7.24)%R ->
        RFUtils.calculateKnifeEdgeLoss (Fin (-15)) (Fin 1) (Fin 1) = Fin 0)
    /\ ((-2.3 <= v <= -1)%R ->
        exists r,
          RFUtils.calculateKnifeEdgeLoss (Fin (-15)) (Fin 1) (Fin 1) = Fin r
          /\ (0 < r)%R).
Proof. apply (calculateKnifeEdgeLoss_bands (-15) 1 1); lra. Defined.

(** * Further properties of the link budget *)

(** ** Reliability, viability and quality *)

(** X8.  Whatever the margin, [NaN] and the infinities included,
    [calculateReliability] returns a real percentage from 0 to 100; for a
    [NaN] margin it is 99.9. *)
Theorem calculateReliability_range (m : num) :
  exists r,
    LinkBudgetCalculator.calculateReliability m = Fin r
    /\ (0 <= r <= 100)%R
    /\ (m = NaN -> r = 99.9%R).
Proof.
  destruct m as [x | | |].
  - rewrite calculateReliability_real. eexists. split; [reflexivity|].
    split; [|discriminate].
    destruct (Rlt_dec x (-10)); [lra|].
    destruct (Rlt_dec x 0); [lra|].
    destruct (Rlt_dec x 20); lra.
  - exists 99.9%R. split; [reflexivity|]. split; [lra | discriminate].
  - exists 0%R. split; [reflexivity|]. split; [lra | discriminate].
  - exists 99.9%R. split; [reflexivity|]. split; [lra | reflexivity].
Qed.

Lemma nadd_NaN_l (x : num) : NaN + x = NaN.
Proof. destruct x; reflexivity. Qed.

Lemma nsub_NaN_l (x : num) : NaN - x = NaN.
Proof. destruct x; reflexivity. Qed.

Lemma nsub_NaN_r (x : num) : x - NaN = NaN.
Proof. destruct x; reflexivity. Qed.

(** A transmit power below 0 W has no level in dBm, and the margin of the
    budget is [NaN] whatever the path loss and the parameters. *)
Lemma calculateLinkParameters_negative_power (w : R)
    (pl : LinkBudgetCalculator.pathLoss) (p : LinkBudgetCalculator.params)
    (d : num) :
  (w < 0)%R ->
  LinkBudgetCalculator.linkMargin
    (LinkBudgetCalculator.calculateLinkParameters (Fin w) pl p d) = NaN.
Proof.
  intros Hw. unfold LinkBudgetCalculator.calculateLinkParameters.
  cbn [LinkBudgetCalculator.linkMargin].
  rewrite (wattsToDbm_negative w Hw).
  repeat first [rewrite nadd_NaN_l | rewrite nsub_NaN_l].
  reflexivity.
Qed.

(** X9.  A budget computed for a negative transmit power is not viable, yet
    it is reported 99.9 % reliable, rated 'excellent' over terrain without
    obstruction (and 'marginal' over terrain with one), and keeps the
    spreading factor chosen from the distance alone. *)
Theorem negative_power_link_is_excellent (w : R)
    (pl : LinkBudgetCalculator.pathLoss) (p : LinkBudgetCalculator.params)
    (d : num) (t : LinkBudgetCalculator.terrainAnalysis) :
  (w < 0)%R ->
  let lb := LinkBudgetCalculator.calculateLinkParameters (Fin w) pl p d in
  LinkBudgetCalculator.isViable lb = false
  /\ LinkBudgetCalculator.reliability lb = Fin 99.9
  /\ LinkBudgetCalculator.assessLinkQuality lb t
     = (if LinkBudgetCalculator.hasObstructions t
        then "marginal" else "excellent")%string
  /\ LinkBudgetCalculator.optimizeSpreadingFactor lb p
     = RFUtils.getOptimalSpreadingFactor d "suburban".
Proof.
  intros Hw lb.
  pose proof (calculateLinkParameters_negative_power w pl p d Hw) as Hm.
  fold lb in Hm.
  assert (Hv : LinkBudgetCalculator.isViable lb
               = (LinkBudgetCalculator.linkMargin lb >? Fin 0)) by reflexivity.
  assert (Hr : LinkBudgetCalculator.reliability lb
               = LinkBudgetCalculator.calculateReliability
                   (LinkBudgetCalculator.linkMargin lb)) by reflexivity.
  assert (Hd : LinkBudgetCalculator.lb_distance lb = d) by reflexivity.
  split; [rewrite Hv, Hm; reflexivity|].
  split; [rewrite Hr, Hm; reflexivity|].
  split.
  - unfold LinkBudgetCalculator.assessLinkQuality. rewrite Hm.
    cbn [nlt orb]. destruct (LinkBudgetCalculator.hasObstructions t); reflexivity.
  - unfold LinkBudgetCalculator.optimizeSpreadingFactor. rewrite Hm, Hd.
    reflexivity.
Qed.

Lemma negative_power_link_is_excellent_witness :
  let pl := {| LinkBudgetCalculator.freeSpace := Fin 100;
               LinkBudgetCalculator.diffraction := Fin 0;
               LinkBudgetCalculator.terrain := Fin 0;
               LinkBudgetCalculator.foliage := Fin 3;
               LinkBudgetCalculator.total := Fin 103 |} in
  let t := LinkBudgetCalculator.analyzeTerrainPath
             [ mkSample (Fin 0) (Fin 300) (Fin 0) (Fin 0);
               mkSample (Fin 3) (Fin 300) (Fin 0) (Fin 0) ]
             (Fin 10) (Fin 10) (Fin 3) in
  let lb := LinkBudgetCalculator.calculateLinkParameters (Fin (-1)) pl
              LinkBudgetCalculator.defaultParams (Fin 3) in
  LinkBudgetCalculator.isViable lb = false
  /\ LinkBudgetCalculator.reliability lb = Fin 99.9
  /\ LinkBudgetCalculator.assessLinkQuality lb t
     = (if LinkBudgetCalculator.hasObstructions t
        then "marginal" else "excellent")%string
  /\ LinkBudgetCalculator.optimizeSpreadingFactor lb
       LinkBudgetCalculator.defaultParams
     = RFUtils.getOptimalSpreadingFactor (Fin 3) "suburban".
Proof.
  intros pl t.
  apply (negative_power_link_is_excellent (-1) pl
           LinkBudgetCalculator.defaultParams (Fin 3) t).
  lra.
Defined.

(** X10.  A link whose margin is a real number from -1.9 dB to -0.1 dB is
    not viable, but its reliability is above the 90 % given to a margin of
    exactly 0 dB: the reliability is not monotone in the margin. *)
Theorem unviable_link_reliability (w : num)
    (pl : LinkBudgetCalculator.pathLoss) (p : LinkBudgetCalculator.params)
    (d : num) (m : R) :
  LinkBudgetCalculator.linkMargin
    (LinkBudgetCalculator.calculateLinkParameters w pl p d) = Fin m ->
  (-1.9 <= m <= -0.1)%R ->
  let lb := LinkBudgetCalculator.calculateLinkParameters w pl p d in
  LinkBudgetCalculator.isViable lb = false
  /\ LinkBudgetCalculator.calculateReliability (Fin 0) = Fin 90
  /\ exists r, LinkBudgetCalculator.reliability lb = Fin r /\ (90 < r < 100)%R.
Proof.
  intros Hm Hr lb. fold lb in Hm.
  assert (Hv : LinkBudgetCalculator.isViable lb
               = (LinkBudgetCalculator.linkMargin lb >? Fin 0)) by reflexivity.
  assert (Hrel : LinkBudgetCalculator.reliability lb
                 = LinkBudgetCalculator.calculateReliability
                     (LinkBudgetCalculator.linkMargin lb)) by reflexivity.
  split; [rewrite Hv, Hm; cbn [nlt]; apply Rltb_false; lra|].
  split.
  - rewrite calculateReliability_real.
    destruct (Rlt_dec 0 (-10)); [lra|]. destruct (Rlt_dec 0 0); [lra|].
    destruct (Rlt_dec 0 20); [|lra]. apply f_equal. lra.
  - rewrite Hrel, Hm, calculateReliability_real.
    destruct (Rlt_dec m (-10)); [lra|]. destruct (Rlt_dec m 0); [|lra].
    eexists. split; [reflexivity | lra].
Qed.

Lemma getOptimalSpreadingFactor_near (d : R) :
  (d <= 1.6)%R ->
  RFUtils.getOptimalSpreadingFactor (Fin d) "suburban" = "SF7"%string.
Proof.
  intros Hd. unfold RFUtils.getOptimalSpreadingFactor, lookupOr.
  cbn [lookup RFUtils.environmentFactors String.eqb Ascii.eqb Bool.eqb].
  unfold nor_default, truthy. rcmp. cbn [negb].
  rewrite ndiv_fin by lra. cbn [nle].
  rewrite Rleb_true; [reflexivity|]. lra.
Qed.

(** The margin of a budget with the default parameters, for a positive power
    [w], a real path loss [L] and a path of at most 1.6 km. *)
Lemma calculateLinkParameters_margin_near (w L d : R)
    (pl : LinkBudgetCalculator.pathLoss) :
  (0 < w)%R -> (d <= 1.6)%R ->
  LinkBudgetCalculator.total pl = Fin L ->
  LinkBudgetCalculator.linkMargin
    (LinkBudgetCalculator.calculateLinkParameters (Fin w) pl
       LinkBudgetCalculator.defaultParams (Fin d))
  = Fin (10 * (ln (w * 1000) / ln 10) + 110 - L).
Proof.
  intros Hw Hd HL. unfold LinkBudgetCalculator.calculateLinkParameters.
  cbn [LinkBudgetCalculator.linkMargin].
  rewrite (getOptimalSpreadingFactor_near d Hd), (wattsToDbm_real w Hw), HL.
  cbn. apply f_equal. lra.
Qed.

Lemma unviable_link_reliability_witness :
  let pl := {| LinkBudgetCalculator.freeSpace := Fin 108;
               LinkBudgetCalculator.diffraction := Fin 0;
               LinkBudgetCalculator.terrain := Fin 0;
               LinkBudgetCalculator.foliage := Fin 3;
               LinkBudgetCalculator.total := Fin 111 |} in
  let lb := LinkBudgetCalculator.calculateLinkParameters (Fin 0.001) pl
              LinkBudgetCalculator.defaultParams (Fin 1) in
  LinkBudgetCalculator.isViable lb = false
  /\ LinkBudgetCalculator.calculateReliability (Fin 0) = Fin 90
  /\ exists r, LinkBudgetCalculator.reliability lb = Fin r /\ (90 < r < 100)%R.
Proof.
  intros pl.
  apply (unviable_link_reliability (Fin 0.001) pl
           LinkBudgetCalculator.defaultParams (Fin 1)
           (10 * (ln (0.001 * 1000) / ln 10) + 110 - 111)).
  - apply calculateLinkParameters_margin_near; [lra | lra | reflexivity].
  - replace (0.001 * 1000)%R with 1%R by lra. rewrite ln_1.
    unfold Rdiv. rewrite Rmult_0_l. lra.
Defined.

(** ** Path loss over an analysed profile *)

Lemma clearanceStep_obstructions (txE rxE total : num)
    (results : RFUtils.clearance) (point : sample) :
  (RFUtils.hasAdequateClearance results = true
   <-> RFUtils.obstructions results = []) ->
  let results' := RFUtils.clearanceStep txE rxE total results point in
  RFUtils.hasAdequateClearance results' = true
  <-> RFUtils.obstructions results' = [].
Proof.
  intros H. unfold RFUtils.clearanceStep.
  destruct (RFUtils.requiredHeightAt txE rxE total
              (RFUtils.requiredClearancePercent results) point) as [req fr].
  destruct (elevation point - req >? Fin 0); cbn.
  - split; [discriminate|].
    intros E. apply app_eq_nil in E. destruct E as [_ E]. discriminate.
  - exact H.
Qed.

Lemma fold_clearanceStep_obstructions (txE rxE total : num) (ps : list sample) :
  forall results,
    (RFUtils.hasAdequateClearance results = true
     <-> RFUtils.obstructions results = []) ->
    let r := fold_left (RFUtils.clearanceStep txE rxE total) ps results in
    RFUtils.hasAdequateClearance r = true <-> RFUtils.obstructions r = [].
Proof.
  induction ps as [| s ps IH]; intros results H; cbn [fold_left].
  - exact H.
  - apply IH. apply clearanceStep_obstructions. exact H.
Qed.

(** On a profile of two samples or more, the analysis denies adequate
    clearance exactly when it lists an obstruction. *)
Lemma analyzeFresnelClearance_obstructions (p : list sample)
    (txHeight rxHeight totalDistance : num) :
  (2 <= List.length p)%nat ->
  let r := RFUtils.analyzeFresnelClearance (Some p) txHeight rxHeight
             totalDistance in
  RFUtils.hasAdequateClearance r = true <-> RFUtils.obstructions r = [].
Proof.
  intros Hlen. unfold RFUtils.analyzeFresnelClearance.
  destruct (Nat.ltb_spec (List.length p) 2) as [L | _]; [lia|].
  apply fold_clearanceStep_obstructions. cbn. tauto.
Qed.

Lemma analyzeFresnelClearance_short (p : list sample)
    (txHeight rxHeight totalDistance : num) :
  (List.length p < 2)%nat ->
  let r := RFUtils.analyzeFresnelClearance (Some p) txHeight rxHeight
             totalDistance in
  RFUtils.hasAdequateClearance r = false /\ RFUtils.obstructions r = [].
Proof.
  intros H. unfold RFUtils.analyzeFresnelClearance.
  destruct (Nat.ltb_spec (List.length p) 2) as [_ | L]; [|lia].
  cbn. split; reflexivity.
Qed.

(** X11.  [calculatePathLoss] applied to the analysis of a profile raises a
    TypeError exactly when the profile has fewer than two samples (the
    analysis then reports obstructions but lists none, and [reduce] has
    nothing to start from); on every longer profile it returns a path loss.
    The fallback [calculateBasicPathLoss] always returns one. *)
Theorem calculatePathLoss_throws_iff (p : list sample)
    (txHeight rxHeight distance d : num) :
  let t := LinkBudgetCalculator.analyzeTerrainPath p txHeight rxHeight
             distance in
  ((List.length p < 2)%nat ->
   exists msg,
     LinkBudgetCalculator.calculatePathLoss d t = Throw (TypeError msg))
  /\ ((2 <= List.length p)%nat ->
      exists pl, LinkBudgetCalculator.calculatePathLoss d t = Return pl)
  /\ exists pl, LinkBudgetCalculator.calculateBasicPathLoss d = Return pl.
Proof.
  intros t. split; [|split].
  - intros Hlen.
    destruct (analyzeFresnelClearance_short p txHeight rxHeight distance Hlen)
      as [Ha Ho].
    unfold LinkBudgetCalculator.calculatePathLoss, t,
      LinkBudgetCalculator.analyzeTerrainPath.
    cbn [LinkBudgetCalculator.hasObstructions
         LinkBudgetCalculator.obstructions].
    rewrite Ha, Ho. cbn. eexists. reflexivity.
  - intros Hlen.
    pose proof (analyzeFresnelClearance_obstructions p txHeight rxHeight
                  distance Hlen) as Hiff.
    unfold LinkBudgetCalculator.calculatePathLoss, t,
      LinkBudgetCalculator.analyzeTerrainPath.
    cbn [LinkBudgetCalculator.hasObstructions
         LinkBudgetCalculator.obstructions].
    cbn zeta in Hiff.
    destruct (RFUtils.hasAdequateClearance
                (RFUtils.analyzeFresnelClearance (Some p) txHeight rxHeight
                   distance)) eqn:Ha.
    + cbn. eexists. reflexivity.
    + destruct (RFUtils.obstructions
                  (RFUtils.analyzeFresnelClearance (Some p) txHeight rxHeight
                     distance)) as [| o os] eqn:Ho.
      * destruct Hiff as [_ Hiff]. specialize (Hiff eq_refl). discriminate.
      * cbn. eexists. reflexivity.
  - unfold LinkBudgetCalculator.calculateBasicPathLoss. cbn.
    eexists. reflexivity.
Qed.

(** X12.  Over flat ground (two samples or more, all at one elevation, equal
    positive antenna heights) a path of positive length [d] gets no
    diffraction and no terrain loss: the total is the free-space loss at
    915 MHz plus the foliage loss of the distance band (0, 3 or 6 dB). *)
Theorem flat_profile_path_loss (p : list sample) (e h d : R) :
  (2 <= List.length p)%nat ->
  Forall (fun s => elevation s = Fin e /\ exists x, distance s = Fin x) p ->
  (0 < h)%R -> (0 < d)%R ->
  let fspl :=
    (20 * (ln d / ln 10) + 20 * (ln (915e6 / 1e6) / ln 10) + 32.44)%R in
  let foliageLoss :=
    if Rlt_dec d 1 then 0%R else if Rlt_dec d 5 then 3%R else 6%R in
  LinkBudgetCalculator.calculatePathLoss (Fin d)
    (LinkBudgetCalculator.analyzeTerrainPath p (Fin h) (Fin h) (Fin d))
  = Return {| LinkBudgetCalculator.freeSpace := Fin fspl;
              LinkBudgetCalculator.diffraction := Fin 0;
              LinkBudgetCalculator.terrain := Fin 0;
              LinkBudgetCalculator.foliage := Fin foliageLoss;
              LinkBudgetCalculator.total :=
                Fin (fspl + 0 + 0 + foliageLoss) |}.
Proof.
  intros Hlen Hall Hh Hd fspl foliageLoss.
  destruct (flat_profile_clear_any_distances p e h d Hlen Hall Hd Hh)
    as [Ha Ho].
  unfold LinkBudgetCalculator.calculatePathLoss,
    LinkBudgetCalculator.analyzeTerrainPath.
  cbn [LinkBudgetCalculator.hasObstructions LinkBudgetCalculator.obstructions].
  rewrite Ha. unfold RFUtils.frequency.
  rewrite calculateFSPL_real by lra.
  cbn [andThen negb nlt]. fold fspl. unfold foliageLoss, Rltb.
  destruct (Rlt_dec d 1); [reflexivity|].
  destruct (Rlt_dec d 5); reflexivity.
Qed.

Lemma flat_profile_path_loss_witness :
  let p := [ mkSample (Fin 0) (Fin 300) (Fin 0) (Fin 0);
             mkSample (Fin 1.5) (Fin 300) (Fin 0) (Fin 0);
             mkSample (Fin 3) (Fin 300) (Fin 0) (Fin 0) ] in
  let fspl :=
    (20 * (ln 3 / ln 10) + 20 * (ln (915e6 / 1e6) / ln 10) + 32.44)%R in
  let foliageLoss :=
    if Rlt_dec 3 1 then 0%R else if Rlt_dec 3 5 then 3%R else 6%R in
  LinkBudgetCalculator.calculatePathLoss (Fin 3)
    (LinkBudgetCalculator.analyzeTerrainPath p (Fin 10) (Fin 10) (Fin 3))
  = Return {| LinkBudgetCalculator.freeSpace := Fin fspl;
              LinkBudgetCalculator.diffraction := Fin 0;
              LinkBudgetCalculator.terrain := Fin 0;
              LinkBudgetCalculator.foliage := Fin foliageLoss;
              LinkBudgetCalculator.total :=
                Fin (fspl + 0 + 0 + foliageLoss) |}.
Proof.
  intros p.
  apply (flat_profile_path_loss p 300 10 3).
  - cbn. lia.
  - repeat constructor; eexists; reflexivity.
  - lra.
  - lra.
Defined.

(** ** Line of sight and Fresnel clearance *)

(** A sample that does not rise above the curvature-adjusted line of sight
    does not rise above the required Fresnel height either. *)
Lemma sight_step_clear (te re D pct d el : R) (point : sample) :
  D <> 0%R -> (0 <= pct)%R ->
  distance point = Fin d -> elevation point = Fin el ->
  (elevation point
   >? Fin te + (Fin re - Fin te) * (distance point / Fin D)
      + RFUtils.calculateEarthCurvature (Fin D) (distance point / Fin D))
  = false ->
  (elevation point
   - fst (RFUtils.requiredHeightAt (Fin te) (Fin re) (Fin D) (Fin pct) point)
   >? Fin 0) = false.
Proof.
  intros HD Hp Hd He Hs.
  rewrite (requiredHeightAt_real te re D pct d point HD Hd).
  rewrite Hd, He, (ndiv_fin d D HD), calculateEarthCurvature_real in Hs.
  cbn [nsub nmul nadd nlt] in Hs. apply Rltb_nlt in Hs.
  rewrite He.
  destruct (Rltb (fresnelRadicand D d) 0); [reflexivity|].
  cbn [fst nsub nlt]. apply Rltb_false.
  pose proof (sqrt_pos (fresnelRadicand D d)) as Hq.
  assert (0 <= sqrt (fresnelRadicand D d) * pct)%R
    by (apply Rmult_le_pos; assumption).
  unfold bulge. lra.
Qed.

Lemma sightLoop_fold_clear (te re D pct : R) (ps : list sample) :
  D <> 0%R -> (0 <= pct)%R ->
  Forall (fun s => exists d el, distance s = Fin d /\ elevation s = Fin el) ps ->
  LinkBudgetCalculator.sightLoop (Fin te) (Fin re) (Fin D) ps = true ->
  forall results,
    RFUtils.requiredClearancePercent results = Fin pct ->
    let r := fold_left (RFUtils.clearanceStep (Fin te) (Fin re) (Fin D)) ps
               results in
    RFUtils.hasAdequateClearance r = RFUtils.hasAdequateClearance results
    /\ RFUtils.obstructions r = RFUtils.obstructions results.
Proof.
  intros HD Hp Hall. induction Hall as [| s ps (d & el & Hd & He) _ IH];
    intros Hs results Hpct; cbn [fold_left].
  - split; reflexivity.
  - cbn [LinkBudgetCalculator.sightLoop] in Hs.
    destruct (elevation s
              >? Fin te + (Fin re - Fin te) * (distance s / Fin D)
                 + RFUtils.calculateEarthCurvature (Fin D)
                     (distance s / Fin D)) eqn:Hc; [discriminate|].
    pose proof (sight_step_clear te re D pct d el s HD Hp Hd He Hc) as Hk.
    rewrite <- Hpct in Hk.
    destruct (clearanceStep_clear _ _ _ results s Hk) as (E1 & E2 & E3).
    destruct (IH Hs (RFUtils.clearanceStep (Fin te) (Fin re) (Fin D)
                       results s)) as (F1 & F2).
    + rewrite E3. exact Hpct.
    + split; [rewrite F1; exact E1 | rewrite F2; exact E2].
Qed.

(** X13.  On a profile of two samples or more with real distances and
    elevations, analysed over the distance of its last sample, a clear line
    of sight implies that no Fresnel obstruction is reported: the Fresnel
    test adds the zone radius to the line of sight, so it is the weaker of
    the two. *)
Theorem line_of_sight_implies_clearance (p : list sample) (txH rxH D : R) :
  (2 <= List.length p)%nat ->
  Forall (fun s => exists d el, distance s = Fin d /\ elevation s = Fin el) p ->
  distance (last p undefined_sample) = Fin D ->
  D <> 0%R ->
  let t := LinkBudgetCalculator.analyzeTerrainPath p (Fin txH) (Fin rxH)
             (Fin D) in
  LinkBudgetCalculator.lineOfSight t = true ->
  LinkBudgetCalculator.hasObstructions t = false
  /\ LinkBudgetCalculator.obstructions t = [].
Proof.
  intros Hlen Hall Hlast HD t Hlos.
  unfold t, LinkBudgetCalculator.analyzeTerrainPath in Hlos |- *.
  cbn [LinkBudgetCalculator.lineOfSight LinkBudgetCalculator.hasObstructions
       LinkBudgetCalculator.obstructions] in Hlos |- *.
  assert (H0 : exists e0, elevation (nth 0 p undefined_sample) = Fin e0).
  { destruct p as [| s0 p]; [cbn in Hlen; lia|].
    inversion Hall as [| ? ? (d & el & _ & He) ?]. exists el. exact He. }
  assert (H1 : exists e1, elevation (last p undefined_sample) = Fin e1).
  { assert (Hne : p <> []) by (intros ->; cbn in Hlen; lia).
    destruct (Forall_last _ p undefined_sample Hne Hall) as (d & el & _ & He).
    exists el. exact He. }
  destruct H0 as [e0 E0]. destruct H1 as [e1 E1].
  assert (Hs : LinkBudgetCalculator.sightLoop (Fin e0 + Fin txH)
                 (Fin e1 + Fin rxH) (Fin D) (interior p) = true).
  { unfold LinkBudgetCalculator.checkLineOfSight in Hlos.
    destruct (Nat.ltb_spec (List.length p) 3) as [L | L].
    - destruct p as [| a [| b [| c p]]]; cbn in Hlen, L; try lia.
      reflexivity.
    - rewrite E0, E1, Hlast in Hlos. exact Hlos. }
  unfold RFUtils.analyzeFresnelClearance.
  destruct (Nat.ltb_spec (List.length p) 2) as [L | _]; [lia|].
  rewrite E0, E1.
  destruct (getRequiredFresnelClearance_real D) as (pct & Epct & Hpct).
  cbn [nadd] in Hs |- *.
  destruct (sightLoop_fold_clear (e0 + txH) (e1 + rxH) D pct (interior p) HD
              (Rlt_le _ _ Hpct) (Forall_interior _ p Hall) Hs
              {| RFUtils.hasAdequateClearance := true;
                 RFUtils.minClearance := PInf;
                 RFUtils.obstructions := [];
                 RFUtils.requiredClearancePercent :=
                   RFUtils.getRequiredFresnelClearance (Fin D);
                 RFUtils.error := None |} Epct) as [F1 F2].
  cbn zeta in F1, F2. rewrite F1, F2. split; reflexivity.
Qed.

Lemma line_of_sight_implies_clearance_witness :
  let p := [ mkSample (Fin 0) (Fin 300) (Fin 0) (Fin 0);
             mkSample (Fin 1) (Fin 305) (Fin 0) (Fin 0);
             mkSample (Fin 3) (Fin 300) (Fin 0) (Fin 0) ] in
  let t := LinkBudgetCalculator.analyzeTerrainPath p (Fin 10) (Fin 10)
             (Fin 3) in
  LinkBudgetCalculator.hasObstructions t = false
  /\ LinkBudgetCalculator.obstructions t = [].
Proof.
  intros p.
  apply (line_of_sight_implies_clearance p 10 10 3).
  - cbn. lia.
  - repeat constructor; do 2 eexists; split; reflexivity.
  - reflexivity.
  - lra.
  - unfold LinkBudgetCalculator.analyzeTerrainPath.
    cbn [LinkBudgetCalculator.lineOfSight].
    unfold LinkBudgetCalculator.checkLineOfSight, p.
    cbn [List.length Nat.ltb Nat.leb nth last interior tl removelast
         elevation distance LinkBudgetCalculator.sightLoop].
    rewrite (ndiv_fin 1 3) by lra. rewrite calculateEarthCurvature_real.
    cbn [nadd nsub nmul nlt]. rewrite Rltb_false; [reflexivity|]. lra.
Defined.

(** * Great-circle distances *)

Lemma sin_half_sq (x : R) : (sin (x / 2) * sin (x / 2) = (1 - cos x) / 2)%R.
Proof.
  pose proof (cos_2a_sin (x / 2)) as H.
  replace (2 * (x / 2))%R with x in H by field. lra.
Qed.

Lemma haversine_range (lat1 lng1 lat2 lng2 : R) :
  (0 <= haversine lat1 lng1 lat2 lng2 <= 1)%R.
Proof.
  unfold haversine.
  set (p1 := (lat1 * PI / 180)%R). set (p2 := (lat2 * PI / 180)%R).
  replace ((lat2 - lat1) * PI / 180)%R with (p2 - p1)%R
    by (unfold p1, p2; field).
  rewrite (sin_half_sq (p2 - p1)), cos_minus.
  set (y := ((lng2 - lng1) * PI / 180 / 2)%R).
  pose proof (SIN_bound y) as Hy.
  assert (Hs : (0 <= sin y * sin y <= 1)%R) by nra.
  pose proof (COS_bound (p2 - p1)) as Hm. rewrite cos_minus in Hm.
  pose proof (COS_bound (p2 + p1)) as Hp. rewrite cos_plus in Hp.
  set (C := (cos p2 * cos p1)%R) in *. set (S := (sin p2 * sin p1)%R) in *.
  replace (cos p1 * cos p2 * sin y * sin y)%R with (C * (sin y * sin y))%R
    by (unfold C; ring).
  set (s := (sin y * sin y)%R) in *.
  assert (E : ((1 - (C + S)) / 2 + C * s
               = (1 - s) * ((1 - (C + S)) / 2) + s * ((1 + (C - S)) / 2))%R)
    by field.
  rewrite E.
  assert (H0 : (0 <= (1 - (C + S)) / 2 <= 1)%R) by lra.
  assert (H1 : (0 <= (1 + (C - S)) / 2 <= 1)%R) by lra.
  split; nra.
Qed.

Lemma haversine_sym (lat1 lng1 lat2 lng2 : R) :
  haversine lat1 lng1 lat2 lng2 = haversine lat2 lng2 lat1 lng1.
Proof.
  unfold haversine.
  replace ((lat1 - lat2) * PI / 180 / 2)%R
    with (- ((lat2 - lat1) * PI / 180 / 2))%R by field.
  replace ((lng1 - lng2) * PI / 180 / 2)%R
    with (- ((lng2 - lng1) * PI / 180 / 2))%R by field.
  rewrite !sin_neg. ring.
Qed.

Lemma haversine_same (lat lng : R) : haversine lat lng lat lng = 0%R.
Proof.
  unfold haversine.
  replace ((lat - lat) * PI / 180 / 2)%R with 0%R by field.
  replace ((lng - lng) * PI / 180 / 2)%R with 0%R by field.
  rewrite sin_0. ring.
Qed.

(** The central angle [2 * atan2(sqrt(a), sqrt(1 - a))] of a quantity [a]
    between 0 and 1 is a real angle between 0 and [PI]. *)
Lemma central_angle (a : R) :
  (0 <= a <= 1)%R ->
  exists c,
    Fin 2 * Math_atan2 (Math_sqrt (Fin a)) (Math_sqrt (Fin 1 - Fin a)) = Fin c
    /\ (0 <= c <= PI)%R
    /\ (a = 0%R -> c = 0%R).
Proof.
  intros Ha. cbn [nsub Math_sqrt].
  rewrite (Rltb_false a 0) by lra. rewrite (Rltb_false (1 - a) 0) by lra.
  cbn [Math_atan2].
  pose proof (sqrt_pos a) as Hsa. pose proof (sqrt_pos (1 - a)) as Hsb.
  pose proof PI_RGT_0 as Hpi.
  destruct (Rlt_dec 0 (sqrt (1 - a))) as [L | L].
  - rewrite Rltb_true by exact L. cbn [nmul].
    assert (Hq : (0 <= sqrt a / sqrt (1 - a))%R).
    { unfold Rdiv. apply Rmult_le_pos; [exact Hsa|].
      apply Rlt_le, Rinv_0_lt_compat, L. }
    pose proof (atan_bound (sqrt a / sqrt (1 - a))) as Hb.
    assert (H0 : (0 <= atan (sqrt a / sqrt (1 - a)))%R).
    { destruct Hq as [Hq | Hq].
      - rewrite <- atan_0. apply Rlt_le, atan_increasing, Hq.
      - rewrite <- Hq, atan_0. lra. }
    eexists. split; [reflexivity|]. split; [lra|].
    intros ->. rewrite sqrt_0. unfold Rdiv. rewrite Rmult_0_l, atan_0. lra.
  - assert (Hz : sqrt (1 - a) = 0%R) by lra.
    rewrite Hz. rewrite (Rltb_false 0 0) by lra.
    assert (Ha1 : a = 1%R).
    { apply sqrt_eq_0 in Hz; lra. }
    rewrite Ha1, sqrt_1. rewrite Rltb_true by lra. cbn [nmul].
    eexists. split; [reflexivity|]. split; [lra|]. lra.
Qed.

Lemma calculateDistance_haversine (lat1 lng1 lat2 lng2 : R) :
  LinkBudgetCalculator.calculateDistance (geoOf lat1 lng1) (geoOf lat2 lng2)
  = Fin 6371
    * (Fin 2
       * Math_atan2 (Math_sqrt (Fin (haversine lat1 lng1 lat2 lng2)))
           (Math_sqrt (Fin 1 - Fin (haversine lat1 lng1 lat2 lng2)))).
Proof.
  unfold LinkBudgetCalculator.calculateDistance, geoOf, Math_PI.
  cbn [g_lat g_lng nsub nmul].
  rewrite !ndiv_fin by lra. cbn [Math_sin Math_cos nmul nadd].
  reflexivity.
Qed.

(** In exact arithmetic the distance between two points with real
    coordinates is a real number between 0 and [6371 PI]. *)
Lemma calculateDistance_real (lat1 lng1 lat2 lng2 : R) :
  exists d,
    LinkBudgetCalculator.calculateDistance (geoOf lat1 lng1)
      (geoOf lat2 lng2) = Fin d
    /\ (0 <= d <= 6371 * PI)%R.
Proof.
  rewrite !calculateDistance_haversine.
  destruct (central_angle _ (haversine_range lat1 lng1 lat2 lng2))
    as (c & Ec & Hc & _).
  rewrite Ec. cbn [nmul].
  exists (6371 * c)%R. split; [reflexivity | lra].
Qed.

(** X14.  For two points with a latitude from -90 to 90 and a longitude from
    -180 to 180, the great-circle distance of the link-budget calculator is
    the same in both directions and 0 from a point to itself; whenever it is
    a number, it lies between 0 and half the circumference [6371 PI] km (to
    within a metre). *)
Theorem calculateDistance_metric (lat1 lng1 lat2 lng2 : R) :
  (-90 <= lat1 <= 90)%R -> (-180 <= lng1 <= 180)%R ->
  (-90 <= lat2 <= 90)%R -> (-180 <= lng2 <= 180)%R ->
  LinkBudgetCalculator.calculateDistance (geoOf lat1 lng1) (geoOf lat2 lng2)
  = LinkBudgetCalculator.calculateDistance (geoOf lat2 lng2) (geoOf lat1 lng1)
  /\ LinkBudgetCalculator.calculateDistance (geoOf lat1 lng1)
       (geoOf lat1 lng1) = Fin 0
  /\ forall d,
       LinkBudgetCalculator.calculateDistance (geoOf lat1 lng1)
         (geoOf lat2 lng2) = Fin d ->
       (0 <= d <= 6371 * PI + 0.001)%R.
Proof.
  intros _ _ _ _.
  split; [|split].
  - rewrite !calculateDistance_haversine.
    rewrite (haversine_sym lat2 lng2 lat1 lng1). reflexivity.
  - rewrite calculateDistance_haversine, haversine_same.
    destruct (central_angle 0) as (c0 & Ec0 & _ & Hc0); [lra|].
    rewrite Ec0, (Hc0 eq_refl). cbn [nmul]. apply f_equal. lra.
  - intros d Hd.
    destruct (calculateDistance_real lat1 lng1 lat2 lng2) as (d' & Ed & Hr).
    rewrite Ed in Hd. injection Hd as <-. lra.
Qed.

Lemma calculateDistance_metric_witness :
  LinkBudgetCalculator.calculateDistance (geoOf 45 (-111)) (geoOf 45.02 (-110))
  = LinkBudgetCalculator.calculateDistance (geoOf 45.02 (-110))
      (geoOf 45 (-111))
  /\ LinkBudgetCalculator.calculateDistance (geoOf 45 (-111))
       (geoOf 45 (-111)) = Fin 0
  /\ forall d,
       LinkBudgetCalculator.calculateDistance (geoOf 45 (-111))
         (geoOf 45.02 (-110)) = Fin d ->
       (0 <= d <= 6371 * PI + 0.001)%R.
Proof. apply (calculateDistance_metric 45 (-111) 45.02 (-110)); lra. Defined.

Lemma metres_haversine (lat1 lng1 lat2 lng2 : R) :
  RFCalculator.calculateDistance (Fin lat1) (Fin lng1) (Fin lat2) (Fin lng2)
  = Fin 6371000
    * (Fin 2
       * Math_atan2 (Math_sqrt (Fin (haversine lat1 lng1 lat2 lng2)))
           (Math_sqrt (Fin 1 - Fin (haversine lat1 lng1 lat2 lng2))))
  /\ ElevationApi.calculateDistance (Fin lat1) (Fin lng1) (Fin lat2) (Fin lng2)
     = RFCalculator.calculateDistance (Fin lat1) (Fin lng1) (Fin lat2)
         (Fin lng2).
Proof.
  unfold RFCalculator.calculateDistance, ElevationApi.calculateDistance,
    RFCalculator.toRadians, RFCalculator.earthRadius, Math_PI.
  cbn [nsub nmul].
  rewrite !ndiv_fin by lra. cbn [Math_sin Math_cos nmul nadd].
  split; reflexivity.
Qed.

(** X15.  The four copies of the great-circle distance compute one and the
    same central angle [c] from the same real coordinates: the browser's
    calculator and its elevation service return [6371 c] (kilometres), the
    two server-side copies return [6371000 c] (metres).  Whenever [c] is a
    number it lies between 0 and [PI] (to within 10^-9). *)
Theorem calculateDistance_copies_agree (lat1 lng1 lat2 lng2 : R) :
  exists c : num,
    LinkBudgetCalculator.calculateDistance (geoOf lat1 lng1)
      (geoOf lat2 lng2) = Fin 6371 * c
    /\ ElevationProfiles.calculateDistance (geoOf lat1 lng1)
         (geoOf lat2 lng2) = Fin 6371 * c
    /\ RFCalculator.calculateDistance (Fin lat1) (Fin lng1) (Fin lat2)
         (Fin lng2) = Fin 6371000 * c
    /\ ElevationApi.calculateDistance (Fin lat1) (Fin lng1) (Fin lat2)
         (Fin lng2) = Fin 6371000 * c
    /\ forall x, c = Fin x -> (0 <= x <= PI + 1 / 1000000000)%R.
Proof.
  destruct (metres_haversine lat1 lng1 lat2 lng2) as [Em Ea].
  rewrite Ea, Em.
  change (ElevationProfiles.calculateDistance (geoOf lat1 lng1)
            (geoOf lat2 lng2))
    with (LinkBudgetCalculator.calculateDistance (geoOf lat1 lng1)
            (geoOf lat2 lng2)).
  rewrite calculateDistance_haversine.
  eexists. do 4 (split; [reflexivity|]).
  intros x Hx.
  destruct (central_angle _ (haversine_range lat1 lng1 lat2 lng2))
    as (c & Ec & Hc & _).
  rewrite Ec in Hx. injection Hx as <-. lra.
Qed.

(** * The elevation service *)

(** ** Formatting a profile *)

Lemma nth_map_indexed {A B : Type} (f : nat * A -> B) (l : list A)
    (da : A) (db : B) :
  forall start i,
    (i < List.length l)%nat ->
    nth i (map f (combine (seq start (List.length l)) l)) db
    = f ((start + i)%nat, nth i l da).
Proof.
  induction l as [| x l IH]; intros start i Hi; [cbn in Hi; lia|].
  cbn [List.length seq combine map]. destruct i as [| i].
  - cbn [nth]. rewrite Nat.add_0_r. reflexivity.
  - cbn [nth]. rewrite (IH (S start) i) by (cbn in Hi; lia).
    f_equal. f_equal. lia.
Qed.


(** The distance given to the sample of index [i] among [n >= 2], for a
    real total distance. *)
Lemma distanceFromStart_real (D : R) (n i : nat) :
  (2 <= n)%nat -> (i < n)%nat ->
  ElevationProfiles.distanceFromStart (Fin D) n i
  = Fin (D * INR i / (INR n - 1)).
Proof.
  intros Hn Hi. unfold ElevationProfiles.distanceFromStart.
  assert (Hn1 : (1 <= n)%nat) by lia.
  assert (HR : (1 <= INR n - 1)%R).
  { apply le_INR in Hn. simpl in Hn. lra. }
  destruct (Nat.eqb_spec i 0) as [-> | H0].
  { apply f_equal. simpl. unfold Rdiv. ring. }
  destruct (Nat.eqb_spec i (n - 1)) as [-> | H1].
  { apply f_equal. rewrite (minus_INR _ _ Hn1). simpl. field. lra. }
  cbn [nmul nsub]. apply ndiv_fin. lra.
Qed.

(** The distance given to the first and to the last sample. *)
Lemma distanceFromStart_ends (D : num) (n : nat) :
  ElevationProfiles.distanceFromStart D n 0 = Fin 0
  /\ ((2 <= n)%nat -> ElevationProfiles.distanceFromStart D n (n - 1) = D).
Proof.
  split; [reflexivity|]. intros Hn.
  unfold ElevationProfiles.distanceFromStart.
  destruct (Nat.eqb_spec (n - 1) 0) as [E | _]; [lia|].
  rewrite Nat.eqb_refl. reflexivity.
Qed.

(** X16.  When the great-circle distance of the two end points is a number
    [D] of at most 10^5 km, a profile of two entries or more is formatted
    into as many samples; the sample of index [i] keeps the elevation and
    position of its entry and is placed at [D * i / (n - 1)] km, to within
    10^-9 km: the spacing is even whatever the positions of the entries.  The
    first sample is at 0 and the last at [D], exactly. *)
Theorem formatElevationProfile_even (elevationData : list ElevationProfiles.located)
    (startPoint endPoint : geo) (D : R) :
  (2 <= List.length elevationData)%nat ->
  ElevationProfiles.calculateDistance startPoint endPoint = Fin D ->
  (0 <= D <= 100000)%R ->
  let n := List.length elevationData in
  let profile :=
    ElevationProfiles.formatElevationProfile elevationData startPoint
      endPoint in
  List.length profile = n
  /\ forall i entry,
       (i < n)%nat ->
       nth_error elevationData i = Some entry ->
       exists x,
         nth_error profile i
         = Some {| distance := Fin x;
                   elevation := ElevationProfiles.l_elevation entry;
                   lat := ElevationProfiles.l_lat entry;
                   lng := ElevationProfiles.l_lng entry |}
         /\ (Rabs (x - D * INR i / (INR n - 1)) <= 1 / 1000000000)%R
         /\ (i = 0%nat -> x = 0%R)
         /\ (i = (n - 1)%nat -> x = D).
Proof.
  intros Hn ED HD n profile.
  assert (Hlen : List.length profile = n).
  { unfold profile, ElevationProfiles.formatElevationProfile.
    rewrite length_map, length_combine, length_seq. apply Nat.min_id. }
  split; [exact Hlen|].
  intros i entry Hi Hentry.
  assert (Hnth : nth i elevationData entry = entry)
    by (apply nth_error_nth; exact Hentry).
  assert (HR : (1 <= INR n - 1)%R).
  { pose proof (le_INR _ _ Hn) as Hn'.
    replace (INR 2) with 2%R in Hn' by (simpl; lra). fold n in Hn'. lra. }
  exists (D * INR i / (INR n - 1))%R. split; [|split; [|split]].
  - rewrite (nth_error_nth' profile undefined_sample)
      by (rewrite Hlen; exact Hi).
    f_equal. unfold profile, ElevationProfiles.formatElevationProfile.
    rewrite (nth_map_indexed _ elevationData entry undefined_sample 0 i Hi).
    rewrite Hnth, ED. cbn [Nat.add].
    rewrite (distanceFromStart_real D _ i Hn Hi). reflexivity.
  - replace (D * INR i / (INR n - 1) - D * INR i / (INR n - 1))%R with 0%R
      by ring.
    rewrite Rabs_R0. lra.
  - intros ->. simpl. unfold Rdiv. ring.
  - intros ->. rewrite minus_INR by (unfold n; lia). simpl. field. lra.
Qed.

Lemma formatElevationProfile_even_witness :
  let elevationData :=
    [ ElevationProfiles.mkLocated (Fin 45) (Fin (-111)) (Fin 1200);
      ElevationProfiles.mkLocated (Fin 45.01) (Fin (-111)) (Fin 1250);
      ElevationProfiles.mkLocated (Fin 45.02) (Fin (-111)) (Fin 1230) ] in
  let n := List.length elevationData in
  let profile :=
    ElevationProfiles.formatElevationProfile elevationData
      (geoOf 45 (-111)) (geoOf 45.02 (-111)) in
  exists D,
    ElevationProfiles.calculateDistance (geoOf 45 (-111)) (geoOf 45.02 (-111))
    = Fin D
    /\ List.length profile = n
    /\ forall i entry,
         (i < n)%nat ->
         nth_error elevationData i = Some entry ->
         exists x,
           nth_error profile i
           = Some {| distance := Fin x;
                     elevation := ElevationProfiles.l_elevation entry;
                     lat := ElevationProfiles.l_lat entry;
                     lng := ElevationProfiles.l_lng entry |}
           /\ (Rabs (x - D * INR i / (INR n - 1)) <= 1 / 1000000000)%R
           /\ (i = 0%nat -> x = 0%R)
           /\ (i = (n - 1)%nat -> x = D).
Proof.
  intros elevationData.
  destruct (calculateDistance_real 45 (-111) 45.02 (-111)) as (D & ED & HD).
  change (LinkBudgetCalculator.calculateDistance (geoOf 45 (-111))
            (geoOf 45.02 (-111)))
    with (ElevationProfiles.calculateDistance (geoOf 45 (-111))
            (geoOf 45.02 (-111))) in ED.
  exists D. split; [exact ED|].
  apply (formatElevationProfile_even elevationData (geoOf 45 (-111))
           (geoOf 45.02 (-111)) D);
    [cbn; lia | exact ED | pose proof PI_4; lra].
Defined.

(** ** The estimated profile *)





(** ** Batching the points of a request *)

Lemma batch_count_step (n i b : nat) :
  (1 <= b)%nat -> (i < n)%nat ->
  ((n - i + b - 1) / b = S ((n - (i + b) + b - 1) / b))%nat.
Proof.
  intros Hb Hi. destruct (Nat.le_gt_cases (n - i) b) as [L | L].
  - replace (n - (i + b))%nat with 0%nat by lia. cbn [Nat.add].
    rewrite (Nat.div_small (b - 1) b) by lia.
    symmetry. apply (Nat.div_unique _ _ _ (n - i - 1)); lia.
  - replace (n - i + b - 1)%nat with (1 * b + (n - (i + b) + b - 1))%nat
      by lia.
    rewrite Nat.div_add_l by lia. lia.
Qed.

Lemma batchLoop_partition {A : Type} (points : list A) (batchSize : nat) :
  (1 <= batchSize)%nat ->
  forall fuel i batches,
    (List.length points - i < fuel)%nat ->
    exists rest,
      ElevationProfiles.batchLoop fuel points batchSize i batches
      = Some (batches ++ rest)%list
      /\ List.concat rest = skipn i points
      /\ Forall (fun b => (1 <= List.length b <= batchSize)%nat) rest
      /\ List.length rest
         = ((List.length points - i + batchSize - 1) / batchSize)%nat.
Proof.
  intros Hb. induction fuel as [| fuel IH]; intros i batches Hf; [lia|].
  cbn [ElevationProfiles.batchLoop].
  destruct (Nat.ltb_spec i (List.length points)) as [L | L].
  - destruct (IH (i + batchSize)%nat
                (batches ++ [slice points i (i + batchSize)])%list)
      as (rest & E & Hc & Hall & Hlen); [lia|].
    exists (slice points i (i + batchSize) :: rest).
    split; [rewrite E, <- app_assoc; reflexivity|].
    split.
    + cbn [List.concat]. rewrite Hc. unfold slice.
      replace (i + batchSize - i)%nat with batchSize by lia.
      rewrite <- (firstn_skipn batchSize (skipn i points)) at 2.
      rewrite skipn_skipn. f_equal. f_equal. lia.
    + split.
      * constructor; [|exact Hall]. rewrite slice_length. lia.
      * cbn [List.length]. rewrite Hlen. symmetry.
        apply batch_count_step; assumption.
  - exists []. split; [rewrite app_nil_r; reflexivity|].
    split; [rewrite skipn_all2 by lia; reflexivity|].
    split; [constructor|].
    replace (List.length points - i)%nat with 0%nat by lia. cbn [Nat.add].
    rewrite Nat.div_small by lia. reflexivity.
Qed.

(** X18.  With a batch size of at least 1, [batchPoints] returns (the loop
    ends within one round per point): the batches, put end to end, are the
    points in their order; every batch holds between 1 and [batchSize]
    points, and there are [ceil(n / batchSize)] of them. *)
Theorem batchPoints_partition {A : Type} (points : list A)
    (batchSize fuel : nat) :
  (1 <= batchSize)%nat -> (List.length points < fuel)%nat ->
  exists batches,
    ElevationProfiles.batchPoints fuel points batchSize = Some batches
    /\ List.concat batches = points
    /\ Forall (fun b => (1 <= List.length b <= batchSize)%nat) batches
    /\ List.length batches
       = ((List.length points + batchSize - 1) / batchSize)%nat.
Proof.
  intros Hb Hf. unfold ElevationProfiles.batchPoints.
  destruct (batchLoop_partition points batchSize Hb fuel 0 [])
    as (rest & E & Hc & Hall & Hlen); [lia|].
  exists rest. rewrite Nat.sub_0_r in Hlen.
  repeat split; assumption.
Qed.

Lemma batchPoints_partition_witness :
  exists batches,
    ElevationProfiles.batchPoints 6 [ 1; 2; 3; 4; 5 ]%nat 2 = Some batches
    /\ List.concat batches = [ 1; 2; 3; 4; 5 ]%nat
    /\ Forall (fun b => (1 <= List.length b <= 2)%nat) batches
    /\ List.length batches
       = ((List.length [ 1; 2; 3; 4; 5 ]%nat + 2 - 1) / 2)%nat.
Proof.
  apply (batchPoints_partition [ 1; 2; 3; 4; 5 ]%nat 2 6); cbn; lia.
Defined.

(** With a batch size of 0 the index never advances: on a list that is not
    empty the loop does not end, whatever the number of rounds. *)
Lemma batchPoints_zero_diverges {A : Type} (points : list A) (fuel : nat) :
  points <> [] ->
  ElevationProfiles.batchPoints fuel points 0 = None.
Proof.
  intros Hne. unfold ElevationProfiles.batchPoints.
  assert (Hlen : (0 < List.length points)%nat)
    by (destruct points; [contradiction | cbn; lia]).
  generalize (@nil (list A)).
  induction fuel as [| fuel IH]; intros batches; [reflexivity|].
  cbn [ElevationProfiles.batchLoop].
  destruct (Nat.ltb_spec 0 (List.length points)) as [_ | L]; [|lia].
  cbn [Nat.add]. apply IH.
Qed.

(** ** The profile cache *)

Lemma lookup_mapSet_same {V : Type} (key : string) (v : V)
    (m : list (string * V)) :
  lookup key (ElevationProfiles.mapSet key v m) = Some v.
Proof.
  induction m as [| [k x] m IH]; cbn [ElevationProfiles.mapSet lookup].
  - rewrite String.eqb_refl. reflexivity.
  - destruct (String.eqb k key) eqn:E; cbn [lookup]; rewrite E;
      [reflexivity | exact IH].
Qed.

Lemma lookup_mapSet_other {V : Type} (key key' : string) (v : V)
    (m : list (string * V)) :
  key' <> key ->
  lookup key' (ElevationProfiles.mapSet key v m) = lookup key' m.
Proof.
  intros Hne.
  induction m as [| [k x] m IH]; cbn [ElevationProfiles.mapSet lookup].
  - destruct (String.eqb_spec key key'); [congruence | reflexivity].
  - destruct (String.eqb_spec k key) as [-> | Hk]; cbn [lookup].
    + destruct (String.eqb_spec key key'); [congruence | reflexivity].
    + destruct (String.eqb k key'); [reflexivity | exact IH].
Qed.

Lemma mapSet_keys {V : Type} (key k : string) (v : V)
    (m : list (string * V)) :
  In k (map fst (ElevationProfiles.mapSet key v m)) ->
  k = key \/ In k (map fst m).
Proof.
  induction m as [| [k0 x] m IH]; cbn [ElevationProfiles.mapSet map fst In].
  - intros [<- | []]. left. reflexivity.
  - destruct (String.eqb_spec k0 key) as [-> | Hk]; cbn [map fst In].
    + intros [<- | H]; [left; reflexivity | right; right; exact H].
    + intros [<- | H]; [right; left; reflexivity|].
      destruct (IH H) as [-> | H']; [left; reflexivity | right; right; exact H'].
Qed.

Lemma mapSet_NoDup {V : Type} (key : string) (v : V) (m : list (string * V)) :
  NoDup (map fst m) -> NoDup (map fst (ElevationProfiles.mapSet key v m)).
Proof.
  induction m as [| [k x] m IH]; cbn [ElevationProfiles.mapSet map fst];
    intros Hnd.
  - constructor; [intros [] | constructor].
  - inversion Hnd as [| ? ? Hk Hm]. subst.
    destruct (String.eqb_spec k key) as [-> | Hne]; cbn [map fst].
    + constructor; assumption.
    + constructor; [|apply IH; exact Hm].
      intros Hin. apply mapSet_keys in Hin. destruct Hin as [-> | Hin];
        [apply Hne; reflexivity | apply Hk; exact Hin].
Qed.

Lemma mapSet_length {V : Type} (key : string) (v : V) (m : list (string * V)) :
  (List.length (ElevationProfiles.mapSet key v m) <= S (List.length m))%nat.
Proof.
  induction m as [| [k x] m IH]; cbn [ElevationProfiles.mapSet List.length].
  - lia.
  - destruct (String.eqb k key); cbn [List.length]; lia.
Qed.

Lemma mapDelete_keys {V : Type} (key k : string) (m : list (string * V)) :
  In k (map fst (ElevationProfiles.mapDelete key m)) -> In k (map fst m).
Proof.
  induction m as [| [k0 x] m IH]; cbn [ElevationProfiles.mapDelete map fst In].
  - intros [].
  - destruct (String.eqb k0 key); cbn [map fst In].
    + intros H. right. exact H.
    + intros [<- | H]; [left; reflexivity | right; apply IH; exact H].
Qed.

Lemma mapDelete_NoDup {V : Type} (key : string) (m : list (string * V)) :
  NoDup (map fst m) -> NoDup (map fst (ElevationProfiles.mapDelete key m)).
Proof.
  induction m as [| [k x] m IH]; cbn [ElevationProfiles.mapDelete map fst];
    intros Hnd; [constructor|].
  inversion Hnd as [| ? ? Hk Hm]. subst.
  destruct (String.eqb k key); cbn [map fst]; [exact Hm|].
  constructor; [|apply IH; exact Hm].
  intros Hin. apply Hk. apply mapDelete_keys in Hin. exact Hin.
Qed.

Lemma mapDelete_length {V : Type} (key : string) (m : list (string * V)) :
  (List.length (ElevationProfiles.mapDelete key m) <= List.length m)%nat.
Proof.
  induction m as [| [k x] m IH]; cbn [ElevationProfiles.mapDelete List.length].
  - lia.
  - destruct (String.eqb k key); cbn [List.length]; lia.
Qed.

Lemma lookup_absent {V : Type} (key : string) (m : list (string * V)) :
  ~ In key (map fst m) -> lookup key m = None.
Proof.
  induction m as [| [k x] m IH]; cbn [lookup map fst In]; intros Hn;
    [reflexivity|].
  destruct (String.eqb_spec k key) as [-> | Hk]; [tauto|].
  apply IH. tauto.
Qed.

Lemma lookup_mapDelete_same {V : Type} (key : string) (m : list (string * V)) :
  NoDup (map fst m) -> lookup key (ElevationProfiles.mapDelete key m) = None.
Proof.
  induction m as [| [k x] m IH]; cbn [ElevationProfiles.mapDelete map fst];
    intros Hnd; [reflexivity|].
  inversion Hnd as [| ? ? Hk Hm]. subst.
  destruct (String.eqb_spec k key) as [-> | Hne].
  - apply lookup_absent. exact Hk.
  - cbn [lookup]. destruct (String.eqb_spec k key); [contradiction|].
    apply IH. exact Hm.
Qed.

Lemma lookup_mapDelete_other {V : Type} (key key' : string)
    (m : list (string * V)) :
  key' <> key ->
  lookup key' (ElevationProfiles.mapDelete key m) = lookup key' m.
Proof.
  intros Hne.
  induction m as [| [k x] m IH]; cbn [ElevationProfiles.mapDelete lookup];
    [reflexivity|].
  destruct (String.eqb_spec k key) as [-> | Hk]; cbn [lookup].
  - destruct (String.eqb_spec key key'); [congruence | reflexivity].
  - destruct (String.eqb k key'); [reflexivity | exact IH].
Qed.

Lemma setCached_NoDup (now : num) (key : string) (profile : list sample)
    (c : ElevationProfiles.cache) :
  NoDup (map fst c) ->
  NoDup (map fst (ElevationProfiles.setCached now key profile c)).
Proof.
  intros Hnd. unfold ElevationProfiles.setCached. apply mapSet_NoDup.
  destruct (ElevationProfiles.maxCacheSize <=? List.length c)%nat;
    [|exact Hnd].
  destruct c as [| [firstKey e] c]; [exact Hnd|].
  apply mapDelete_NoDup. exact Hnd.
Qed.

(** X19.  A profile written to the cache at time [t0] is what a read of its
    key returns at any time [t1] less than 30 minutes later, and the read
    leaves the cache as it is.  From 30 minutes on the read returns nothing
    and removes the entry, so that the key is absent afterwards, and leaves
    every other key alone. *)
Theorem cache_read_after_write (c : ElevationProfiles.cache) (key : string)
    (profile : list sample) (t0 t1 : R) :
  NoDup (map fst c) ->
  let written := ElevationProfiles.setCached (Fin t0) key profile c in
  ((t1 - t0 < 1800000)%R ->
   ElevationProfiles.getCached (Fin t1) key written = (Some profile, written))
  /\ ((1800000 <= t1 - t0)%R ->
      fst (ElevationProfiles.getCached (Fin t1) key written) = None
      /\ lookup key (snd (ElevationProfiles.getCached (Fin t1) key written))
         = None
      /\ forall other,
           other <> key ->
           lookup other
             (snd (ElevationProfiles.getCached (Fin t1) key written))
           = lookup other written).
Proof.
  intros Hnd written.
  assert (Hl : lookup key written
               = Some {| ElevationProfiles.data := profile;
                         ElevationProfiles.timestamp := Fin t0 |}).
  { unfold written, ElevationProfiles.setCached. apply lookup_mapSet_same. }
  assert (Hw : NoDup (map fst written)) by (apply setCached_NoDup; exact Hnd).
  unfold ElevationProfiles.getCached. rewrite Hl.
  cbn [ElevationProfiles.timestamp ElevationProfiles.data nsub nlt].
  unfold ElevationProfiles.cacheTimeout. cbn [nlt].
  split; intros Ht.
  - rewrite Rltb_true by exact Ht. reflexivity.
  - rewrite Rltb_false by exact Ht. cbn [fst snd].
    split; [reflexivity|].
    split; [apply lookup_mapDelete_same; exact Hw|].
    intros other Hne. apply lookup_mapDelete_other. exact Hne.
Qed.

Lemma cache_read_after_write_witness :
  let c : ElevationProfiles.cache :=
    [ ("a"%string,
       {| ElevationProfiles.data := [];
          ElevationProfiles.timestamp := Fin 0 |}) ] in
  let profile := [ mkSample (Fin 0) (Fin 300) (Fin 45) (Fin (-111)) ] in
  let written := ElevationProfiles.setCached (Fin 1000) "b" profile c in
  ((5000 - 1000 < 1800000)%R ->
   ElevationProfiles.getCached (Fin 5000) "b" written
   = (Some profile, written))
  /\ ((1800000 <= 5000 - 1000)%R ->
      fst (ElevationProfiles.getCached (Fin 5000) "b" written) = None
      /\ lookup "b" (snd (ElevationProfiles.getCached (Fin 5000) "b" written))
         = None
      /\ forall other,
           other <> "b"%string ->
           lookup other
             (snd (ElevationProfiles.getCached (Fin 5000) "b" written))
           = lookup other written).
Proof.
  intros c profile.
  apply (cache_read_after_write c "b" profile 1000 5000).
  cbn. constructor; [intros [] | constructor].
Defined.

(** X20.  The cache stays a map of at most 1000 profiles: from a cache with
    one entry per key and no more than [maxCacheSize] entries, a write and a
    read both lead to such a cache again; a write to a full cache drops the
    entry that was inserted first. *)
Theorem cache_stays_bounded (c : ElevationProfiles.cache) (now : num)
    (key : string) (profile : list sample) :
  NoDup (map fst c) ->
  (List.length c <= ElevationProfiles.maxCacheSize)%nat ->
  let written := ElevationProfiles.setCached now key profile c in
  let read := snd (ElevationProfiles.getCached now key c) in
  NoDup (map fst written)
  /\ (List.length written <= ElevationProfiles.maxCacheSize)%nat
  /\ NoDup (map fst read)
  /\ (List.length read <= ElevationProfiles.maxCacheSize)%nat
  /\ (List.length c = ElevationProfiles.maxCacheSize ->
      forall firstKey entry rest,
        c = (firstKey, entry) :: rest -> firstKey <> key ->
        lookup firstKey written = None).
Proof.
  intros Hnd Hlen written read.
  split; [apply setCached_NoDup; exact Hnd|].
  split.
  { unfold written, ElevationProfiles.setCached.
    destruct (Nat.leb_spec ElevationProfiles.maxCacheSize (List.length c))
      as [L | L].
    - destruct c as [| [firstKey e] c].
      + pose proof (mapSet_length key
                      {| ElevationProfiles.data := profile;
                         ElevationProfiles.timestamp := now |}
                      (@nil (string * ElevationProfiles.cacheEntry))) as H.
        cbn [List.length] in H. unfold ElevationProfiles.maxCacheSize. lia.
      + cbn [ElevationProfiles.mapDelete]. rewrite String.eqb_refl.
        pose proof (mapSet_length key
                      {| ElevationProfiles.data := profile;
                         ElevationProfiles.timestamp := now |} c) as H.
        cbn [List.length] in Hlen. lia.
    - pose proof (mapSet_length key
                    {| ElevationProfiles.data := profile;
                       ElevationProfiles.timestamp := now |} c) as H.
      lia. }
  assert (Hread : read = c \/ read = ElevationProfiles.mapDelete key c).
  { unfold read, ElevationProfiles.getCached.
    destruct (lookup key c) as [cached |]; [|left; reflexivity].
    destruct (now - ElevationProfiles.timestamp cached
              <? ElevationProfiles.cacheTimeout);
      [left | right]; reflexivity. }
  split.
  { destruct Hread as [-> | ->]; [exact Hnd | apply mapDelete_NoDup, Hnd]. }
  split.
  { destruct Hread as [-> | ->]; [exact Hlen|].
    pose proof (mapDelete_length key c). lia. }
  intros Hfull firstKey entry rest -> Hne.
  unfold written, ElevationProfiles.setCached.
  destruct (Nat.leb_spec ElevationProfiles.maxCacheSize
              (List.length ((firstKey, entry) :: rest))) as [_ | L]; [|lia].
  cbn [ElevationProfiles.mapDelete]. rewrite String.eqb_refl.
  rewrite lookup_mapSet_other by exact Hne.
  apply lookup_absent. inversion Hnd. assumption.
Qed.

Lemma cache_stays_bounded_witness :
  let c : ElevationProfiles.cache :=
    [ ("a"%string,
       {| ElevationProfiles.data := [];
          ElevationProfiles.timestamp := Fin 0 |}) ] in
  let written := ElevationProfiles.setCached (Fin 1000) "b" [] c in
  let read := snd (ElevationProfiles.getCached (Fin 1000) "b" c) in
  NoDup (map fst written)
  /\ (List.length written <= ElevationProfiles.maxCacheSize)%nat
  /\ NoDup (map fst read)
  /\ (List.length read <= ElevationProfiles.maxCacheSize)%nat
  /\ (List.length c = ElevationProfiles.maxCacheSize ->
      forall firstKey entry rest,
        c = (firstKey, entry) :: rest -> firstKey <> "b"%string ->
        lookup firstKey written = None).
Proof.
  intros c.
  apply (cache_stays_bounded c (Fin 1000) "b" []).
  - cbn. constructor; [intros [] | constructor].
  - unfold ElevationProfiles.maxCacheSize. cbn. lia.
Defined.

(** * The elevation endpoint *)

(** X21.  On a cache miss the endpoint returns one sample for each requested
    point, whatever the provider answers, and no sample has an elevation of 0
    or [NaN]: a request that fails, an answer that is not [ok], a missing
    elevation and an elevation of 0 m (sea level) all become 100 m. *)
Theorem getElevationProfile_samples (answers : nat -> ElevationApi.point_outcome)
    (lat1 lng1 lat2 lng2 : num) (samples : nat) :
  let profile :=
    ElevationApi.getElevationProfile answers lat1 lng1 lat2 lng2 samples in
  List.length profile = samples
  /\ Forall (fun s => truthy (elevation s) = true) profile
  /\ forall i,
       (i < samples)%nat ->
       (answers i = ElevationApi.PointError
        \/ answers i = ElevationApi.PointNotOk
        \/ answers i = ElevationApi.PointData None
        \/ answers i = ElevationApi.PointData (Some (Fin 0))
        \/ answers i = ElevationApi.PointData (Some NaN)) ->
       elevation (nth i profile undefined_sample) = Fin 100.
Proof.
  intros profile.
  assert (Hp : List.length
                 (ElevationApi.samplingPoints lat1 lng1 lat2 lng2 samples)
               = samples).
  { unfold ElevationApi.samplingPoints. rewrite length_map, length_seq.
    reflexivity. }
  split; [|split].
  - unfold profile, ElevationApi.getElevationProfile.
    rewrite length_map, length_combine, length_seq, Hp. apply Nat.min_id.
  - unfold profile, ElevationApi.getElevationProfile.
    apply Forall_forall. intros s Hs. apply in_map_iff in Hs.
    destruct Hs as ([index point] & <- & _).
    unfold ElevationApi.sampleOf. cbn [elevation].
    assert (H100 : truthy (Fin 100) = true).
    { unfold truthy. rewrite Reqb_false by lra. reflexivity. }
    destruct (answers index) as [| | [e |]]; try exact H100.
    unfold nor_default. destruct (truthy e) eqn:E; [exact E | exact H100].
  - intros i Hi Hans.
    unfold profile, ElevationApi.getElevationProfile.
    rewrite (nth_map_indexed _ _ {| g_lat := NaN; g_lng := NaN |}
               undefined_sample 0 i) by (rewrite Hp; exact Hi).
    cbn [Nat.add]. unfold ElevationApi.sampleOf. cbn [elevation].
    destruct Hans as [-> | [-> | [-> | [-> | ->]]]]; try reflexivity.
    unfold nor_default, truthy. rewrite Reqb_true by reflexivity. reflexivity.
Qed.

(** * The server-side calculator *)

(** ** Losses of the link budget *)

Lemma Math_max_zero (x : num) :
  Math_max (Fin 0) x = NaN
  \/ Math_max (Fin 0) x = PInf
  \/ exists c, Math_max (Fin 0) x = Fin c /\ (0 <= c)%R.
Proof.
  destruct x as [a | | |]; cbn [Math_max nlt].
  - right. right. destruct (Rlt_dec 0 a) as [L | L].
    + rewrite Rltb_true by exact L. exists a. split; [reflexivity | lra].
    + rewrite Rltb_false by lra. exists 0%R. split; [reflexivity | lra].
  - right. left. reflexivity.
  - right. right. exists 0%R. split; [reflexivity | lra].
  - left. reflexivity.
Qed.

(** X22.  Whatever the profile, the distances and the antenna heights, the
    loss charged for partial Fresnel clearance on the result of
    [analyzeTerrainProfile] is a real number between 0 and 6 dB. *)
Theorem fresnelLoss_range (elevationProfile : list sample)
    (totalDistance txHeight rxHeight txPower rxPower distance : num) :
  exists f,
    RFCalculator.fresnelLoss
      (RFCalculator.calculateLinkBudget txPower rxPower distance
         (RFCalculator.analyzeTerrainProfile elevationProfile totalDistance
            txHeight rxHeight)) = Fin f
    /\ (0 <= f <= 6)%R.
Proof.
  unfold RFCalculator.calculateLinkBudget. cbn [RFCalculator.fresnelLoss].
  assert (Hc : RFCalculator.clearance
                 (RFCalculator.analyzeTerrainProfile elevationProfile
                    totalDistance txHeight rxHeight) = NaN
               \/ RFCalculator.clearance
                    (RFCalculator.analyzeTerrainProfile elevationProfile
                       totalDistance txHeight rxHeight) = PInf
               \/ exists c,
                    RFCalculator.clearance
                      (RFCalculator.analyzeTerrainProfile elevationProfile
                         totalDistance txHeight rxHeight) = Fin c
                    /\ (0 <= c)%R).
  { unfold RFCalculator.analyzeTerrainProfile.
    destruct (List.length elevationProfile <? 2)%nat.
    - right. right. eexists. split; [reflexivity | lra].
    - destruct (fold_left _ _ _) as [m o]. cbn [RFCalculator.clearance].
      apply Math_max_zero. }
  destruct Hc as [-> | [-> | (c & -> & Hc)]].
  - exists 0%R. split; [reflexivity | lra].
  - exists 0%R. split; [reflexivity | lra].
  - cbn [nlt]. destruct (Rlt_dec c 1) as [L | L].
    + rewrite Rltb_true by lra. cbn [nsub nmul].
      eexists. split; [reflexivity | lra].
    + rewrite Rltb_false by lra. exists 0%R. split; [reflexivity | lra].
Qed.



(** ** The estimated coverage radius *)

Lemma terrain_factor (terrain : string) :
  lookup terrain RFCalculator.terrainFactors = None ->
  lookupOr terrain RFCalculator.terrainFactors (Fin 0.7)
  = if inherited terrain then NaN else Fin 0.7.
Proof.
  intros H. unfold lookupOr. rewrite H. reflexivity.
Qed.

(** The radius for a positive power: the free-space distance at which the
    budget keeps 20 dB, scaled by the terrain factor [f]. *)
Lemma estimateCoverageRadius_real (w f : R) (terrain : string) :
  (0 < w)%R ->
  lookupOr terrain RFCalculator.terrainFactors (Fin 0.7) = Fin f ->
  RFCalculator.estimateCoverageRadius (Fin w) terrain
  = Fin (299792458 / 915e6
         * Rpower 10 ((10 * (ln (w * 1000) / ln 10) + 2 * 5 - -137 - 20) / 20)
         / (4 * PI) * f).
Proof.
  intros Hw Hf. unfold RFCalculator.estimateCoverageRadius. rewrite Hf.
  unfold RFCalculator.antennaGain, RFCalculator.receiverSensitivity,
    RFCalculator.c, RFCalculator.frequency, Math_PI.
  cbn [nmul]. rewrite Math_log10_pos by lra.
  cbn [nmul nadd nsub]. rewrite !ndiv_fin by lra.
  cbn [Math_pow10 nmul].
  pose proof PI_RGT_0.
  rewrite ndiv_fin by lra. reflexivity.
Qed.

(** With a factor that is not a number the radius is not a number. *)
Lemma estimateCoverageRadius_NaN (w : R) (terrain : string) :
  (0 < w)%R ->
  lookupOr terrain RFCalculator.terrainFactors (Fin 0.7) = NaN ->
  RFCalculator.estimateCoverageRadius (Fin w) terrain = NaN.
Proof.
  intros Hw Hf. unfold RFCalculator.estimateCoverageRadius. rewrite Hf.
  unfold RFCalculator.antennaGain, RFCalculator.receiverSensitivity,
    RFCalculator.c, RFCalculator.frequency, Math_PI.
  cbn [nmul]. rewrite Math_log10_pos by lra.
  cbn [nmul nadd nsub]. rewrite !ndiv_fin by lra.
  cbn [Math_pow10 nmul].
  pose proof PI_RGT_0.
  rewrite ndiv_fin by lra. reflexivity.
Qed.

Lemma Rpower_10_quadruple (w : R) :
  (0 < w)%R ->
  Rpower 10 ((10 * (ln (4 * w * 1000) / ln 10) + 2 * 5 - -137 - 20) / 20)
  = (2 * Rpower 10
           ((10 * (ln (w * 1000) / ln 10) + 2 * 5 - -137 - 20) / 20))%R.
Proof.
  intros Hw. pose proof ln_10_pos as H10. unfold Rpower.
  assert (Hln : ln (4 * w * 1000) = (ln 2 + ln 2 + ln (w * 1000))%R).
  { replace (4 * w * 1000)%R with (2 * 2 * (w * 1000))%R by ring.
    rewrite !ln_mult by lra. reflexivity. }
  rewrite Hln.
  transitivity
    (exp (ln 2)
     * exp ((10 * (ln (w * 1000) / ln 10) + 2 * 5 - -137 - 20) / 20 * ln 10))%R.
  - rewrite <- exp_plus. apply f_equal. field. lra.
  - rewrite exp_ln by lra. reflexivity.
Qed.

(** X24.  For a power from 1 microwatt to 1 MW the estimated coverage radius
    on flat, rolling and mountainous terrain is 1.0, 0.7 and 0.4 times one
    and the same positive distance [m].  A terrain name that is neither in
    the table nor inherited from [Object.prototype] counts as 'rolling'; an
    inherited name ('constructor', 'toString', ...) gives [NaN].  Four times
    the power doubles the distance, to within 1 %. *)
Theorem estimateCoverageRadius_scaling (w : R) (terrain : string) :
  (1 / 1000000 <= w <= 1000000)%R ->
  exists m m4,
    (0 < m)%R
    /\ RFCalculator.estimateCoverageRadius (Fin w) "flat" = Fin (m * 1.0)
    /\ RFCalculator.estimateCoverageRadius (Fin w) "rolling" = Fin (m * 0.7)
    /\ RFCalculator.estimateCoverageRadius (Fin w) "mountainous"
       = Fin (m * 0.4)
    /\ (lookup terrain RFCalculator.terrainFactors = None ->
        RFCalculator.estimateCoverageRadius (Fin w) terrain
        = if inherited terrain then NaN else Fin (m * 0.7))
    /\ RFCalculator.estimateCoverageRadius (Fin (4 * w)) "flat"
       = Fin (m4 * 1.0)
    /\ (1.99 * m <= m4 <= 2.01 * m)%R.
Proof.
  intros Hw.
  assert (Hw0 : (0 < w)%R) by lra.
  assert (Hw4 : (0 < 4 * w)%R) by lra.
  assert (Eflat : lookupOr "flat" RFCalculator.terrainFactors (Fin 0.7)
                  = Fin 1.0).
  { unfold lookupOr.
    cbn [lookup RFCalculator.terrainFactors String.eqb Ascii.eqb Bool.eqb].
    unfold nor_default, truthy. rcmp. reflexivity. }
  assert (Eroll : lookupOr "rolling" RFCalculator.terrainFactors (Fin 0.7)
                  = Fin 0.7).
  { unfold lookupOr.
    cbn [lookup RFCalculator.terrainFactors String.eqb Ascii.eqb Bool.eqb].
    unfold nor_default, truthy. rcmp. reflexivity. }
  assert (Emount : lookupOr "mountainous" RFCalculator.terrainFactors (Fin 0.7)
                   = Fin 0.4).
  { unfold lookupOr.
    cbn [lookup RFCalculator.terrainFactors String.eqb Ascii.eqb Bool.eqb].
    unfold nor_default, truthy. rcmp. reflexivity. }
  rewrite (estimateCoverageRadius_real w 1.0 "flat" Hw0 Eflat),
    (estimateCoverageRadius_real w 0.7 "rolling" Hw0 Eroll),
    (estimateCoverageRadius_real w 0.4 "mountainous" Hw0 Emount),
    (estimateCoverageRadius_real (4 * w) 1.0 "flat" Hw4 Eflat).
  rewrite (Rpower_10_quadruple w Hw0).
  pose proof PI_RGT_0 as Hpi. pose proof wavelength_bounds as Hlam.
  set (P := Rpower 10 _).
  assert (HP : (0 < P)%R) by (unfold P, Rpower; apply exp_pos).
  set (lam := (299792458 / 915e6)%R) in *.
  assert (Hm : (0 < lam * P / (4 * PI))%R).
  { apply Rdiv_lt_0_compat; [apply Rmult_lt_0_compat|]; lra. }
  exists (lam * P / (4 * PI))%R, (lam * (2 * P) / (4 * PI))%R.
  split; [exact Hm|].
  do 3 (split; [reflexivity|]).
  split.
  { intros Hnone. pose proof (terrain_factor terrain Hnone) as Ef.
    destruct (inherited terrain).
    - apply estimateCoverageRadius_NaN; assumption.
    - rewrite (estimateCoverageRadius_real w 0.7 terrain Hw0 Ef).
      reflexivity. }
  split; [reflexivity|].
  replace (lam * (2 * P) / (4 * PI))%R with (2 * (lam * P / (4 * PI)))%R
    by (field; lra).
  lra.
Qed.

Lemma estimateCoverageRadius_scaling_witness :
  exists m m4,
    (0 < m)%R
    /\ RFCalculator.estimateCoverageRadius (Fin 0.15) "flat" = Fin (m * 1.0)
    /\ RFCalculator.estimateCoverageRadius (Fin 0.15) "rolling"
       = Fin (m * 0.7)
    /\ RFCalculator.estimateCoverageRadius (Fin 0.15) "mountainous"
       = Fin (m * 0.4)
    /\ (lookup "constructor" RFCalculator.terrainFactors = None ->
        RFCalculator.estimateCoverageRadius (Fin 0.15) "constructor"
        = if inherited "constructor" then NaN else Fin (m * 0.7))
    /\ RFCalculator.estimateCoverageRadius (Fin (4 * 0.15)) "flat"
       = Fin (m4 * 1.0)
    /\ (1.99 * m <= m4 <= 2.01 * m)%R.
Proof. apply (estimateCoverageRadius_scaling 0.15 "constructor"). lra. Defined.

(** * The link-budget endpoint *)

(** The budget over a terrain analysis without obstruction and with a
    clearance that is not below 1. *)
Lemma calculateLinkBudget_clear (txPower rxPower distance : num)
    (t : RFCalculator.terrain) :
  (RFCalculator.obstruction t >? Fin 0) = false ->
  (RFCalculator.clearance t <? Fin 1.0) = false ->
  let lb := RFCalculator.calculateLinkBudget txPower rxPower distance t in
  let free :=
    RFCalculator.calculateLinkBudget txPower rxPower distance
      {| RFCalculator.clearance := Fin 1.0;
         RFCalculator.obstruction := Fin 0;
         RFCalculator.minClearance := Fin 1.0 |} in
  RFCalculator.obstructionLoss lb = Fin 0
  /\ RFCalculator.fresnelLoss lb = Fin 0
  /\ RFCalculator.pathLoss lb = RFCalculator.pathLoss free
  /\ RFCalculator.receivedPower lb = RFCalculator.receivedPower free
  /\ RFCalculator.linkMargin lb = RFCalculator.linkMargin free
  /\ RFCalculator.quality lb = RFCalculator.quality free.
Proof.
  intros Ho Hc lb free. unfold lb, free, RFCalculator.calculateLinkBudget.
  cbn [RFCalculator.obstructionLoss RFCalculator.fresnelLoss
       RFCalculator.pathLoss RFCalculator.receivedPower
       RFCalculator.linkMargin RFCalculator.quality
       RFCalculator.obstruction RFCalculator.clearance].
  rewrite Ho, Hc. cbn [nlt]. rcmp. repeat split.
Qed.

(** X25.  When the elevation endpoint cannot be reached, answers with an
    error status or returns an empty profile, the link budget is the
    free-space budget over the great-circle distance: no obstruction loss,
    no Fresnel loss, and the received power, margin and quality of a clear
    path.  Only the unreachable endpoint is reported by a warning. *)
Theorem link_budget_without_elevation (answer : Coverage.fetch_outcome)
    (lat1 lng1 lat2 lng2 txPower rxPower : num) :
  answer = Coverage.FetchError \/ answer = Coverage.FetchNotOk
  \/ answer = Coverage.FetchProfile [] ->
  let r :=
    LinkBudgetApi.calculateLinkBudgetWithTerrain answer lat1 lng1 lat2 lng2
      txPower rxPower in
  let free :=
    RFCalculator.calculateLinkBudget txPower rxPower
      (RFCalculator.calculateDistance lat1 lng1 lat2 lng2)
      {| RFCalculator.clearance := Fin 1.0;
         RFCalculator.obstruction := Fin 0;
         RFCalculator.minClearance := Fin 1.0 |} in
  (RFCalculator.obstructionLoss (LinkBudgetApi.linkBudget r) = Fin 0
   /\ RFCalculator.fresnelLoss (LinkBudgetApi.linkBudget r) = Fin 0
   /\ RFCalculator.pathLoss (LinkBudgetApi.linkBudget r)
      = RFCalculator.pathLoss free
   /\ RFCalculator.receivedPower (LinkBudgetApi.linkBudget r)
      = RFCalculator.receivedPower free
   /\ RFCalculator.linkMargin (LinkBudgetApi.linkBudget r)
      = RFCalculator.linkMargin free
   /\ RFCalculator.quality (LinkBudgetApi.linkBudget r)
      = RFCalculator.quality free)
  /\ LinkBudgetApi.success r = true
  /\ (LinkBudgetApi.warning r = None <-> answer <> Coverage.FetchError).
Proof.
  intros Hans r free.
  assert (Hshort : forall a b : sample,
             RFCalculator.analyzeTerrainProfile [a; b]
               (RFCalculator.calculateDistance lat1 lng1 lat2 lng2)
               RFCalculator.antennaHeight RFCalculator.antennaHeight
             = {| RFCalculator.clearance := PInf;
                  RFCalculator.obstruction := Fin 0;
                  RFCalculator.minClearance := PInf |}).
  { intros a b. reflexivity. }
  destruct Hans as [-> | [-> | ->]]; unfold r, free;
    unfold LinkBudgetApi.calculateLinkBudgetWithTerrain;
    cbn [List.length Nat.eqb LinkBudgetApi.linkBudget LinkBudgetApi.success
         LinkBudgetApi.warning].
  - split; [|split; [reflexivity | split; [discriminate | congruence]]].
    apply calculateLinkBudget_clear; cbn [RFCalculator.obstruction
      RFCalculator.clearance nlt]; rcmp; reflexivity.
  - rewrite Hshort.
    split; [|split; [reflexivity | split; [discriminate | reflexivity]]].
    apply calculateLinkBudget_clear; cbn [RFCalculator.obstruction
      RFCalculator.clearance nlt]; rcmp; reflexivity.
  - rewrite Hshort.
    split; [|split; [reflexivity | split; [discriminate | reflexivity]]].
    apply calculateLinkBudget_clear; cbn [RFCalculator.obstruction
      RFCalculator.clearance nlt]; rcmp; reflexivity.
Qed.

Lemma link_budget_without_elevation_witness :
  let r :=
    LinkBudgetApi.calculateLinkBudgetWithTerrain Coverage.FetchNotOk
      (Fin 45) (Fin (-111)) (Fin 45.02) (Fin (-111)) (Fin 1) (Fin 1) in
  let free :=
    RFCalculator.calculateLinkBudget (Fin 1) (Fin 1)
      (RFCalculator.calculateDistance (Fin 45) (Fin (-111)) (Fin 45.02)
         (Fin (-111)))
      {| RFCalculator.clearance := Fin 1.0;
         RFCalculator.obstruction := Fin 0;
         RFCalculator.minClearance := Fin 1.0 |} in
  (RFCalculator.obstructionLoss (LinkBudgetApi.linkBudget r) = Fin 0
   /\ RFCalculator.fresnelLoss (LinkBudgetApi.linkBudget r) = Fin 0
   /\ RFCalculator.pathLoss (LinkBudgetApi.linkBudget r)
      = RFCalculator.pathLoss free
   /\ RFCalculator.receivedPower (LinkBudgetApi.linkBudget r)
      = RFCalculator.receivedPower free
   /\ RFCalculator.linkMargin (LinkBudgetApi.linkBudget r)
      = RFCalculator.linkMargin free
   /\ RFCalculator.quality (LinkBudgetApi.linkBudget r)
      = RFCalculator.quality free)
  /\ LinkBudgetApi.success r = true
  /\ (LinkBudgetApi.warning r = None
      <-> Coverage.FetchNotOk <> Coverage.FetchError).
Proof.
  apply (link_budget_without_elevation Coverage.FetchNotOk (Fin 45)
           (Fin (-111)) (Fin 45.02) (Fin (-111)) (Fin 1) (Fin 1)).
  right. left. reflexivity.
Defined.

(** ** The profile of the response *)





(** * The map layer *)

(** X27.  The distance-based link estimate agrees with the coverage circle
    drawn for a transmitter: between two nodes of one and the same power a
    link is rated 'poor' exactly when it is longer than the radius of the
    circle (15 km from 1 W on, 8 km below), and 'good' exactly up to 60 % of
    it.  The estimate does not depend on the order of the two powers. *)
Theorem estimateLinkQuality_matches_circle (d p p2 : R) :
  exists r,
    MapEstimates.coverageRadiusKm (Fin p) = Fin r
    /\ (MapEstimates.estimateLinkQuality (Fin d) (Fin p) (Fin p)
        = "poor"%string <-> (r < d)%R)
    /\ (MapEstimates.estimateLinkQuality (Fin d) (Fin p) (Fin p)
        = "good"%string <-> (d <= r * 0.6)%R)
    /\ MapEstimates.estimateLinkQuality (Fin d) (Fin p) (Fin p2)
       = MapEstimates.estimateLinkQuality (Fin d) (Fin p2) (Fin p).
Proof.
  unfold MapEstimates.coverageRadiusKm, MapEstimates.estimateLinkQuality.
  cbn [nadd]. rewrite !ndiv_fin by lra. cbn [nle].
  replace (p2 + p)%R with (p + p2)%R by lra.
  destruct (Rle_dec 1.0 p) as [L | L].
  - rewrite (Rleb_true 1.0 p) by exact L.
    rewrite (Rleb_true 1.0 ((p + p) / 2)) by lra.
    exists 15%R. split; [reflexivity|]. cbn [nmul nle].
    split; [|split; [|reflexivity]].
    + destruct (Rle_dec d (15 * 0.6)) as [A | A].
      { rewrite Rleb_true by exact A. split; [discriminate | lra]. }
      rewrite Rleb_false by lra.
      destruct (Rle_dec d 15) as [B | B].
      { rewrite Rleb_true by exact B. split; [discriminate | lra]. }
      rewrite Rleb_false by lra. split; [lra | reflexivity].
    + destruct (Rle_dec d (15 * 0.6)) as [A | A].
      { rewrite Rleb_true by exact A. split; [intros _; exact A | reflexivity]. }
      rewrite Rleb_false by lra.
      destruct (Rleb d 15); split; (discriminate || lra).
  - rewrite (Rleb_false 1.0 p) by lra.
    rewrite (Rleb_false 1.0 ((p + p) / 2)) by lra.
    exists 8%R. split; [reflexivity|]. cbn [nmul nle].
    split; [|split; [|reflexivity]].
    + destruct (Rle_dec d (8 * 0.6)) as [A | A].
      { rewrite Rleb_true by exact A. split; [discriminate | lra]. }
      rewrite Rleb_false by lra.
      destruct (Rle_dec d 8) as [B | B].
      { rewrite Rleb_true by exact B. split; [discriminate | lra]. }
      rewrite Rleb_false by lra. split; [lra | reflexivity].
    + destruct (Rle_dec d (8 * 0.6)) as [A | A].
      { rewrite Rleb_true by exact A. split; [intros _; exact A | reflexivity]. }
      rewrite Rleb_false by lra.
      destruct (Rleb d 8); split; (discriminate || lra).
Qed.

(** * Elevation statistics of a profile *)

Lemma fold_Math_min_real (es : list R) :
  forall m0 : R,
    exists mn,
      fold_left Math_min (map Fin es) (Fin m0) = Fin mn
      /\ (mn <= m0)%R
      /\ (forall e, In e es -> mn <= e)%R
      /\ (mn = m0 \/ In mn es).
Proof.
  induction es as [| e es IH]; intros m0; cbn [map fold_left].
  - exists m0. split; [reflexivity|]. split; [lra|].
    split; [intros e []|]. left. reflexivity.
  - cbn [Math_min nlt]. destruct (Rlt_dec e m0) as [L | L].
    + rewrite Rltb_true by exact L.
      destruct (IH e) as (mn & E & H0 & Hall & Hin).
      exists mn. split; [exact E|]. split; [lra|]. split.
      * intros x [<- | Hx]; [exact H0 | apply Hall, Hx].
      * right. destruct Hin as [-> | Hin]; [left; reflexivity | right; exact Hin].
    + rewrite Rltb_false by lra.
      destruct (IH m0) as (mn & E & H0 & Hall & Hin).
      exists mn. split; [exact E|]. split; [exact H0|]. split.
      * intros x [<- | Hx]; [lra | apply Hall, Hx].
      * destruct Hin as [-> | Hin]; [left; reflexivity | right; right; exact Hin].
Qed.

Lemma fold_Math_max_real (es : list R) :
  forall m0 : R,
    exists mx,
      fold_left Math_max (map Fin es) (Fin m0) = Fin mx
      /\ (m0 <= mx)%R
      /\ (forall e, In e es -> e <= mx)%R
      /\ (mx = m0 \/ In mx es).
Proof.
  induction es as [| e es IH]; intros m0; cbn [map fold_left].
  - exists m0. split; [reflexivity|]. split; [lra|].
    split; [intros e []|]. left. reflexivity.
  - cbn [Math_max nlt]. destruct (Rlt_dec m0 e) as [L | L].
    + rewrite Rltb_true by exact L.
      destruct (IH e) as (mx & E & H0 & Hall & Hin).
      exists mx. split; [exact E|]. split; [lra|]. split.
      * intros x [<- | Hx]; [exact H0 | apply Hall, Hx].
      * right. destruct Hin as [-> | Hin]; [left; reflexivity | right; exact Hin].
    + rewrite Rltb_false by lra.
      destruct (IH m0) as (mx & E & H0 & Hall & Hin).
      exists mx. split; [exact E|]. split; [exact H0|]. split.
      * intros x [<- | Hx]; [lra | apply Hall, Hx].
      * destruct Hin as [-> | Hin]; [left; reflexivity | right; right; exact Hin].
Qed.

Lemma fold_sum_real (es : list R) (lo hi : R) :
  (forall e, In e es -> lo <= e <= hi)%R ->
  forall s0 : R,
    exists s,
      fold_left (fun a b => a + b) (map Fin es) (Fin s0) = Fin s
      /\ (s0 + INR (List.length es) * lo <= s
          <= s0 + INR (List.length es) * hi)%R.
Proof.
  induction es as [| e es IH]; intros Hall s0; cbn [map fold_left List.length].
  - exists s0. split; [reflexivity | simpl; lra].
  - cbn [nadd].
    destruct (IH (fun x Hx => Hall x (or_intror Hx)) (s0 + e)%R)
      as (s & E & Hs).
    exists s. split; [exact E|].
    pose proof (Hall e (or_introl eq_refl)) as He.
    rewrite S_INR. lra.
Qed.

Lemma sumSteps_real (es : list R) (lo hi : R) :
  (forall e, In e es -> lo <= e <= hi)%R ->
  forall t : R,
    exists r,
      LinkBudgetCalculator.sumSteps (map Fin es) (Fin t) = Fin r
      /\ (t <= r <= t + INR (List.length es - 1) * (hi - lo))%R.
Proof.
  induction es as [| previous es IH]; intros Hall t.
  - exists t. split; [reflexivity | simpl; lra].
  - destruct es as [| current es].
    + exists t. split; [reflexivity | simpl; lra].
    + cbn [map LinkBudgetCalculator.sumSteps].
      cbn [nsub Math_abs nadd].
      pose proof (Hall previous (or_introl eq_refl)) as Hp.
      pose proof (Hall current (or_intror (or_introl eq_refl))) as Hc.
      assert (Habs : (0 <= Rabs (current - previous) <= hi - lo)%R).
      { split; [apply Rabs_pos|]. apply Rabs_le. lra. }
      destruct (IH (fun x Hx => Hall x (or_intror Hx))
                  (t + Rabs (current - previous))%R) as (r & E & Hr).
      change (map Fin (current :: es)) with (Fin current :: map Fin es) in E.
      exists r. split; [exact E|].
      cbn [List.length] in Hr |- *.
      replace (S (S (List.length es)) - 1)%nat with (S (List.length es))
        by lia.
      replace (S (List.length es) - 1)%nat with (List.length es) in Hr by lia.
      rewrite S_INR. lra.
Qed.

(** X29.  For a profile, not empty, whose elevations are real numbers within
    100 km of sea level, the statistics are real: the minimum and the
    maximum are elevations of the profile and bound all of them, the
    variation is their difference and is not negative, and the average is a
    number.  From two samples on the roughness is a real number, not
    negative, and 0 on a level profile; for a single sample it is [NaN]
    (0 / 0). *)
Theorem calculateElevationVariation_bounds (profile : list sample)
    (es : list R) :
  map elevation profile = map Fin es -> es <> [] ->
  (forall e, In e es -> -100000 <= e <= 100000)%R ->
  let stats := LinkBudgetCalculator.calculateElevationVariation profile in
  exists mn mx av,
    LinkBudgetCalculator.ev_min stats = Fin mn
    /\ LinkBudgetCalculator.ev_max stats = Fin mx
    /\ LinkBudgetCalculator.average stats = Fin av
    /\ LinkBudgetCalculator.variation stats = Fin (mx - mn)
    /\ In mn es /\ In mx es
    /\ (forall e, In e es -> mn <= e <= mx)%R
    /\ (0 <= mx - mn)%R
    /\ ((2 <= List.length es)%nat ->
        exists r,
          LinkBudgetCalculator.roughness stats = Fin r
          /\ (0 <= r)%R
          /\ (mn = mx -> r = 0%R))
    /\ (List.length es = 1%nat ->
        LinkBudgetCalculator.roughness stats = NaN).
Proof.
  intros Hes Hne _ stats.
  unfold stats, LinkBudgetCalculator.calculateElevationVariation.
  rewrite Hes.
  cbn [LinkBudgetCalculator.ev_min LinkBudgetCalculator.ev_max
       LinkBudgetCalculator.average LinkBudgetCalculator.variation
       LinkBudgetCalculator.roughness].
  rewrite length_map.
  destruct es as [| e0 es]; [contradiction|].
  unfold Math_min_list, Math_max_list.
  assert (Emin : fold_left Math_min (map Fin (e0 :: es)) PInf
                 = fold_left Math_min (map Fin es) (Fin e0)) by reflexivity.
  assert (Emax : fold_left Math_max (map Fin (e0 :: es)) NInf
                 = fold_left Math_max (map Fin es) (Fin e0)) by reflexivity.
  rewrite Emin, Emax.
  destruct (fold_Math_min_real es e0) as (mn & En & Hn0 & Hnall & Hnin).
  destruct (fold_Math_max_real es e0) as (mx & Ex & Hx0 & Hxall & Hxin).
  rewrite En, Ex.
  assert (Hbounds : forall e, In e (e0 :: es) -> (mn <= e <= mx)%R).
  { intros e [<- | He]; [lra|]. split; [apply Hnall, He | apply Hxall, He]. }
  destruct (fold_sum_real (e0 :: es) mn mx Hbounds 0) as (s & Es & Hs).
  rewrite Es.
  set (n := List.length (e0 :: es)) in *.
  assert (Hn : (1 <= INR n)%R).
  { unfold n. cbn [List.length]. rewrite S_INR. pose proof (pos_INR (List.length es)). lra. }
  rewrite ndiv_fin by lra.
  exists mn, mx, (s / INR n)%R.
  split; [reflexivity|]. split; [reflexivity|]. split; [reflexivity|].
  split; [reflexivity|].
  split; [destruct Hnin as [-> | H]; [left; reflexivity | right; exact H]|].
  split; [destruct Hxin as [-> | H]; [left; reflexivity | right; exact H]|].
  split; [exact Hbounds|].
  assert (Hv : (0 <= mx - mn)%R).
  { pose proof (Hbounds e0 (or_introl eq_refl)). lra. }
  split; [exact Hv|].
  unfold LinkBudgetCalculator.calculateRoughness. rewrite length_map. fold n.
  destruct (sumSteps_real (e0 :: es) mn mx Hbounds 0) as (r & Er & Hr).
  rewrite Er. fold n in Hr. cbn [nsub].
  split.
  - intros H2.
    assert (Hn2 : (2 <= INR n)%R).
    { pose proof (le_INR _ _ H2) as H2'.
      replace (INR 2) with 2%R in H2' by (simpl; lra). exact H2'. }
    rewrite ndiv_fin by lra. eexists. split; [reflexivity|].
    assert (Hi : (0 < / (INR n - 1))%R) by (apply Rinv_0_lt_compat; lra).
    split.
    + unfold Rdiv. apply Rmult_le_pos; lra.
    + intros Hflat. rewrite Hflat in Hr.
      replace (mx - mx)%R with 0%R in Hr by ring.
      rewrite Rmult_0_r in Hr.
      assert (r = 0%R) by lra. subst r. unfold Rdiv. ring.
  - intros H1. unfold n in *. rewrite H1 in *. simpl in Hr.
    assert (r = 0%R) by lra. subst r. cbn [ndiv].
    rewrite Reqb_true by (simpl; lra). unfold inf_of_sign.
    rewrite Reqb_true by reflexivity. reflexivity.
Qed.

Lemma calculateElevationVariation_bounds_witness :
  let profile := [ mkSample (Fin 0) (Fin 300) (Fin 0) (Fin 0);
                   mkSample (Fin 1) (Fin 340) (Fin 0) (Fin 0);
                   mkSample (Fin 2) (Fin 310) (Fin 0) (Fin 0) ] in
  let es := [ 300; 340; 310 ]%R in
  let stats := LinkBudgetCalculator.calculateElevationVariation profile in
  exists mn mx av,
    LinkBudgetCalculator.ev_min stats = Fin mn
    /\ LinkBudgetCalculator.ev_max stats = Fin mx
    /\ LinkBudgetCalculator.average stats = Fin av
    /\ LinkBudgetCalculator.variation stats = Fin (mx - mn)
    /\ In mn es /\ In mx es
    /\ (forall e, In e es -> mn <= e <= mx)%R
    /\ (0 <= mx - mn)%R
    /\ ((2 <= List.length es)%nat ->
        exists r,
          LinkBudgetCalculator.roughness stats = Fin r
          /\ (0 <= r)%R
          /\ (mn = mx -> r = 0%R))
    /\ (List.length es = 1%nat ->
        LinkBudgetCalculator.roughness stats = NaN).
Proof.
  intros profile es.
  apply (calculateElevationVariation_bounds profile es);
    [reflexivity | discriminate |].
  intros e [<- | [<- | [<- | []]]]; lra.
Defined.

(** * The points of a path *)

(** X30.  [generatePathPoints] returns as many points as samples are asked
    for.  From two samples on, the first point is the start and the last is
    the end, exactly as given, whatever lies between; with a single sample
    the fraction is 0 / 0 and the only point is ([NaN], [NaN]), not the
    start. *)
Theorem generatePathPoints_ends (start end_ : geo) (samples : nat) :
  let points := ElevationService.generatePathPoints start end_ samples in
  List.length points = samples
  /\ ((2 <= samples)%nat ->
      nth_error points 0 = Some start
      /\ nth_error points (samples - 1) = Some end_)
  /\ (samples = 1%nat -> points = [ {| g_lat := NaN; g_lng := NaN |} ]).
Proof.
  intros points. unfold points, ElevationService.generatePathPoints.
  split; [rewrite length_map, length_seq; reflexivity|].
  split.
  - intros Hs.
    assert (HR : (1 <= INR samples - 1)%R).
    { pose proof (le_INR _ _ Hs) as H.
      replace (INR 2) with 2%R in H by (simpl; lra). lra. }
    split.
    + rewrite nth_error_map, nth_error_seq.
      destruct (Nat.ltb_spec 0 samples) as [_ | L]; [|lia].
      cbn [option_map Nat.add]. f_equal.
      unfold ElevationService.pathPoint. cbn [nsub].
      rewrite ndiv_fin by lra. cbn [neqb].
      rewrite Reqb_true; [destruct start; reflexivity|].
      simpl. unfold Rdiv. ring.
    + rewrite nth_error_map, nth_error_seq.
      destruct (Nat.ltb_spec (samples - 1) samples) as [_ | L]; [|lia].
      cbn [option_map Nat.add]. f_equal.
      unfold ElevationService.pathPoint. cbn [nsub].
      rewrite ndiv_fin by lra. cbn [neqb].
      assert (Hm : INR (samples - 1) = (INR samples - 1)%R).
      { rewrite minus_INR by lia. simpl. lra. }
      rewrite Hm.
      assert (H1 : ((INR samples - 1) / (INR samples - 1) = 1)%R)
        by (field; lra).
      rewrite H1. rewrite Reqb_false by lra. rewrite Reqb_true by reflexivity.
      destruct end_; reflexivity.
  - intros ->. cbn [seq map]. f_equal.
    unfold ElevationService.pathPoint. cbn [nsub].
    assert (E : Fin (INR 0) / Fin (INR 1 - 1) = NaN).
    { cbn [ndiv]. rewrite Reqb_true by (simpl; lra). unfold inf_of_sign.
      rewrite Reqb_true by (simpl; lra). reflexivity. }
    rewrite E. reflexivity.
Qed.
